(** * MedAssist: the interactive dialogue orchestrator and its HTTP route

    A shallow embedding of [gemini_interactive] (function.py) and of
    [gemini_interactive_route] (app.py), followed by the properties of the
    design specification that concern them; then of the single-turn
    functions [gemini_text] and [gemini_generic], of
    [markdown_to_plain_text], of the image search and of the other routes
    of app.py, with further properties of all of them.

    Modelling conventions.
    - Python values that come out of [json.loads] or of [request.json] are
      the inductive [pyval]; Python [dict]s with string keys are stdpp
      [gmap string pyval].
    - Python [str] is Rocq's [string], read as the UTF-8 encoding of the
      text.  Substring tests, [endswith], [strip(".")] and the pattern
      [[A-Z][a-z]*] are the same on the encoding and are defined below.
      [str.lower], [str.strip()], [str.split()] and the search for
      [\d\s*/\s*10] depend on Unicode's character classes: they are
      fields of the record [world], like the rest of the library.  The
      module [PyStr] also holds their ASCII fragments, which the worlds of
      the examples take for them; the messages of all examples are ASCII.
    - Python floats are [spec_float] (IEEE 754 binary64).
    - A raised exception is the [Raise] constructor of [res]; the calls to
      the generative-language client are events recorded in a trace.
    - Library code that is not part of the repository ([json.loads],
      [json.dumps], the [repr] of floats and containers, the client's
      [start_chat] and [send_message]) is a field of the record [world]
      and is quantified over in every theorem; the value of Flask's
      [request.json] is the argument of the route.  The regular
      expressions, the chats of the single-turn functions and the image
      search are fields of the record [services], the queries on the
      database of the record [database]. *)

From Stdlib Require Import ZArith String Ascii List Bool Lia.
From Stdlib Require Import Floats.SpecFloat.
From stdpp Require Import gmap strings list fin_maps pretty.

Set Warnings "-register-all".
Local Open Scope string_scope.
Local Open Scope list_scope.
Local Open Scope Z_scope.

(* ===================================================================== *)
(** ** Python text primitives *)
(* ===================================================================== *)

Module PyStr.

Definition is_upper (c : ascii) : bool :=
  let n := nat_of_ascii c in (65 <=? n)%nat && (n <=? 90)%nat.

Definition is_lower (c : ascii) : bool :=
  let n := nat_of_ascii c in (97 <=? n)%nat && (n <=? 122)%nat.

Definition is_digit (c : ascii) : bool :=
  let n := nat_of_ascii c in (48 <=? n)%nat && (n <=? 57)%nat.

(** The space characters of the ASCII range: TAB, LF, VT, FF, CR, the
    four separators FS, GS, RS, US and the space. *)
Definition is_ascii_space (c : ascii) : bool :=
  let n := nat_of_ascii c in
  ((9 <=? n)%nat && (n <=? 13)%nat) || ((28 <=? n)%nat && (n <=? 32)%nat).

Definition lower_char (c : ascii) : ascii :=
  if is_upper c then ascii_of_nat (nat_of_ascii c + 32) else c.

(** The restriction of [str.lower] to ASCII text: the capital letters A
    to Z become small, every other byte stays. *)
Fixpoint ascii_lower (s : string) : string :=
  match s with
  | EmptyString => EmptyString
  | String c s' => String (lower_char c) (ascii_lower s')
  end.

(** [sub in s] for two strings. *)
Fixpoint contains (sub s : string) : bool :=
  String.prefix sub s ||
  match s with
  | EmptyString => false
  | String _ s' => contains sub s'
  end.

(** [any(term in s for term in terms)] *)
Definition any_in (terms : list string) (s : string) : bool :=
  existsb (fun term => contains term s) terms.

(** [s.endswith(suffix)] *)
Fixpoint endswith (s suffix : string) : bool :=
  String.eqb s suffix ||
  match s with
  | EmptyString => false
  | String _ s' => endswith s' suffix
  end.

Fixpoint lstrip_by (p : ascii -> bool) (s : string) : string :=
  match s with
  | EmptyString => EmptyString
  | String c s' => if p c then lstrip_by p s' else s
  end.

Fixpoint rstrip_by (p : ascii -> bool) (s : string) : string :=
  match s with
  | EmptyString => EmptyString
  | String c s' =>
      match rstrip_by p s' with
      | EmptyString => if p c then EmptyString else String c EmptyString
      | r => String c r
      end
  end.

(** The restriction of [str.strip()] to ASCII text: the ASCII spaces
    are removed at both ends and nothing else. *)
Definition ascii_strip (s : string) : string :=
  rstrip_by is_ascii_space (lstrip_by is_ascii_space s).

(** [s.strip(".")] *)
Definition strip_dots (s : string) : string :=
  rstrip_by (Ascii.eqb ".") (lstrip_by (Ascii.eqb ".") s).

(** The restriction of [re.search(r'\d\s*/\s*10', s) is not None] to
    ASCII text: [\d] is one of 0 to 9 and [\s] an ASCII space.  After the
    digit both [\s*] are followed by a character that is not a space, so
    the greedy match needs no backtracking. *)
Definition ascii_rating_match_here (s : string) : bool :=
  match s with
  | String d rest =>
      is_digit d &&
      match lstrip_by is_ascii_space rest with
      | String "/" rest' => String.prefix "10" (lstrip_by is_ascii_space rest')
      | _ => false
      end
  | EmptyString => false
  end.

Fixpoint ascii_rating_search (s : string) : bool :=
  ascii_rating_match_here s ||
  match s with
  | EmptyString => false
  | String _ s' => ascii_rating_search s'
  end.

(** [re.findall(r'[A-Z][a-z]*', s)], as the scanner the pattern
    denotes: [cur] is the match in progress (an upper-case letter and
    the lower-case letters read after it), closed by the first
    character that is not a lower-case letter. *)
Definition flush (cur : option string) : list string :=
  match cur with
  | Some r => [r]
  | None => []
  end.

Fixpoint findall_caps_from (cur : option string) (s : string) : list string :=
  match s with
  | EmptyString => flush cur
  | String c s' =>
      if is_upper c then
        flush cur ++ findall_caps_from (Some (String c EmptyString)) s'
      else if is_lower c then
        match cur with
        | Some r => findall_caps_from (Some (r +:+ String c EmptyString)) s'
        | None => findall_caps_from None s'
        end
      else flush cur ++ findall_caps_from None s'
  end.

Definition findall_caps (s : string) : list string :=
  findall_caps_from None s.

End PyStr.

Module PyText.

(** The word that starts at the beginning of [s] (empty when [s] is empty
    or starts with a space) and the words after it. *)
Definition push (word : string) (words : list string) : list string :=
  match word with
  | EmptyString => words
  | _ => word :: words
  end.

Fixpoint scan (s : string) : string * list string :=
  match s with
  | EmptyString => (EmptyString, [])
  | String c s' =>
      let '(word, words) := scan s' in
      if PyStr.is_ascii_space c then (EmptyString, push word words)
      else (String c word, words)
  end.

(** The restriction of [str.split()] to ASCII text: the maximal runs of
    characters that are not ASCII spaces. *)
Definition ascii_split (s : string) : list string :=
  let '(word, words) := scan s in push word words.

(** [s.replace(old, new)] for two characters *)
Fixpoint replace_char (old new : ascii) (s : string) : string :=
  match s with
  | EmptyString => EmptyString
  | String c s' =>
      String (if Ascii.eqb c old then new else c) (replace_char old new s')
  end.

(** [l[:n]] *)
Definition slice_to {A} (n : Z) (l : list A) : list A :=
  if 0 <=? n then take (Z.to_nat n) l
  else take (Z.to_nat (Z.of_nat (length l) + n)) l.

End PyText.

(* ===================================================================== *)
(** ** Python values, truthiness, exceptions *)
(* ===================================================================== *)

Inductive pyval : Type :=
| PNone
| PBool (b : bool)
| PInt (z : Z)
| PFloat (f : spec_float)
| PStr (s : string)
| PList (l : list pyval)
| PDict (d : gmap string pyval).

Abbreviation dict := (gmap string pyval).

Inductive exn_class : Type :=
| IndexError
| KeyError
| JSONDecodeError
| TypeError
| AttributeError
| ValueError
| OtherException (name : string).

Record exn : Type := mk_exn { exn_type : exn_class; exn_msg : string }.

(** [type(e).__name__] *)
Definition class_name (c : exn_class) : string :=
  match c with
  | IndexError => "IndexError"
  | KeyError => "KeyError"
  | JSONDecodeError => "JSONDecodeError"
  | TypeError => "TypeError"
  | AttributeError => "AttributeError"
  | ValueError => "ValueError"
  | OtherException name => name
  end.

(** The outcome of evaluating Python code: a value or a raised exception. *)
Inductive res (A : Type) : Type :=
| Ok (a : A)
| Raise (e : exn).
Arguments Ok {A} a.
Arguments Raise {A} e.

#[global] Instance res_ret : MRet res := fun A a => Ok a.
#[global] Instance res_bind : MBind res := fun A B f m =>
  match m with
  | Ok a => f a
  | Raise e => Raise e
  end.

Definition raise {A} (c : exn_class) (msg : string) : res A :=
  Raise (mk_exn c msg).

Definition is_ok {A} (r : res A) : bool :=
  match r with Ok _ => true | Raise _ => false end.

Module Py.

(** [type(v).__name__] *)
Definition type_name (v : pyval) : string :=
  match v with
  | PNone => "NoneType"
  | PBool _ => "bool"
  | PInt _ => "int"
  | PFloat _ => "float"
  | PStr _ => "str"
  | PList _ => "list"
  | PDict _ => "dict"
  end.

Definition float_is_zero (f : spec_float) : bool :=
  match f with
  | S754_zero _ => true
  | _ => false
  end.

(** [bool(v)] *)
Definition truthy (v : pyval) : bool :=
  match v with
  | PNone => false
  | PBool b => b
  | PInt z => negb (z =? 0)
  | PFloat f => negb (float_is_zero f)
  | PStr s => negb (String.eqb s EmptyString)
  | PList l => match l with [] => false | _ => true end
  | PDict d => negb (bool_decide (d = ∅))
  end.

(** [v == 0] *)
Definition eq_zero (v : pyval) : bool :=
  match v with
  | PBool b => negb b
  | PInt z => z =? 0
  | PFloat f => float_is_zero f
  | _ => false
  end.

(** [v == s] for a string literal [s] *)
Definition eq_str (v : pyval) (s : string) : bool :=
  match v with
  | PStr s' => String.eqb s' s
  | _ => false
  end.


(** [isinstance(v, str)] *)
Definition is_str (v : pyval) : bool :=
  match v with PStr _ => true | _ => false end.

(** [isinstance(v, dict)] *)
Definition is_dict (v : pyval) : bool :=
  match v with PDict _ => true | _ => false end.

(** [d.get(k, dflt)] *)
Definition get (d : dict) (k : string) (dflt : pyval) : pyval :=
  default dflt (d !! k).

(** [d.setdefault(k, v)] *)
Definition setdefault (k : string) (v : pyval) (d : dict) : dict :=
  match d !! k with
  | Some _ => d
  | None => <[k := v]> d
  end.

(** [d[k]] on a dict *)
Definition getitem (d : dict) (k : string) : res pyval :=
  match d !! k with
  | Some v => Ok v
  | None => raise KeyError ("'" +:+ k +:+ "'")
  end.

(** [k in d] on a dict *)
Definition has_key (d : dict) (k : string) : bool :=
  bool_decide (is_Some (d !! k)).

(** A [str] method called on [v]: [AttributeError] unless [v] is a
    string. *)
Definition str_method (v : pyval) (method : string) : res string :=
  match v with
  | PStr s => Ok s
  | _ => raise AttributeError
           ("'" +:+ type_name v +:+ "' object has no attribute '" +:+ method +:+ "'")
  end.

End Py.

(* ===================================================================== *)
(** ** Numbers, subscripts and membership on [pyval] *)
(* ===================================================================== *)

Module PyNum.

Definition signed (s : bool) (m : positive) : Z :=
  if s then Z.neg m else Z.pos m.

(** The exact comparison of the integer [n] with the float [f], as
    Python compares an [int] with a [float]; [None] when [f] is a NaN. *)
Definition int_cmp_float (n : Z) (f : spec_float) : option comparison :=
  match f with
  | S754_nan => None
  | S754_zero _ => Some (n ?= 0)
  | S754_infinity s => Some (if s then Gt else Lt)
  | S754_finite s m e =>
      Some (if 0 <=? e then n ?= signed s m * 2 ^ e
            else n * 2 ^ (- e) ?= signed s m)
  end.

Definition unsupported {A} (op : string) (v : pyval) : res A :=
  raise TypeError
    ("'" +:+ op +:+ "' not supported between instances of '"
         +:+ Py.type_name v +:+ "' and 'int'").

(** [v > n] for an integer literal [n] *)
Definition gt_int (v : pyval) (n : Z) : res bool :=
  match v with
  | PBool b => Ok (n <? Z.b2z b)
  | PInt z => Ok (n <? z)
  | PFloat f => Ok (match int_cmp_float n f with Some Lt => true | _ => false end)
  | _ => unsupported ">" v
  end.

(** [n >= v] for an integer [n] *)
Definition int_ge (n : Z) (v : pyval) : res bool :=
  match v with
  | PBool b => Ok (Z.b2z b <=? n)
  | PInt z => Ok (z <=? n)
  | PFloat f => Ok (match int_cmp_float n f with
                    | Some Gt | Some Eq => true
                    | _ => false
                    end)
  | _ => unsupported ">=" v
  end.

(** The binary64 number 2.0 *)
Definition float_two : spec_float := S754_finite false 4503599627370496 (-51).

(** [v + 2] *)
Definition add_two (v : pyval) : res pyval :=
  match v with
  | PBool b => Ok (PInt (Z.b2z b + 2))
  | PInt z => Ok (PInt (z + 2))
  | PFloat f => Ok (PFloat (SFadd 53 1024 f float_two))
  | _ => raise TypeError
           ("unsupported operand type(s) for +: '" +:+ Py.type_name v +:+ "' and 'int'")
  end.

(** [max(4, v)]: the first argument is kept unless the second is
    strictly greater. *)
Definition max_four (v : pyval) : res pyval :=
  b ← gt_int v 4; Ok (if b : bool then v else PInt 4).

(** [v[k]] for a string key [k] *)
Definition subscript_key (v : pyval) (k : string) : res pyval :=
  match v with
  | PDict d => Py.getitem d k
  | PList _ => raise TypeError "list indices must be integers or slices, not str"
  | PStr _ => raise TypeError "string indices must be integers, not 'str'"
  | _ => raise TypeError ("'" +:+ Py.type_name v +:+ "' object is not subscriptable")
  end.

(** [v[0]] *)
Definition subscript_zero (v : pyval) : res pyval :=
  match v with
  | PList [] => raise IndexError "list index out of range"
  | PList (x :: _) => Ok x
  | PStr EmptyString => raise IndexError "string index out of range"
  | PStr (String c _) => Ok (PStr (String c EmptyString))
  | PDict _ => raise KeyError "0"
  | _ => raise TypeError ("'" +:+ Py.type_name v +:+ "' object is not subscriptable")
  end.

(** [l[-1]] on a list *)
Definition last_item (l : list pyval) : res pyval :=
  match last l with
  | Some x => Ok x
  | None => raise IndexError "list index out of range"
  end.

(** [k in v] for a string [k] *)
Definition contains_key (k : string) (v : pyval) : res bool :=
  match v with
  | PDict d => Ok (Py.has_key d k)
  | PList l => Ok (existsb (fun x => Py.eq_str x k) l)
  | PStr s => Ok (PyStr.contains k s)
  | _ => raise TypeError
           ("argument of type '" +:+ Py.type_name v +:+ "' is not iterable")
  end.

End PyNum.

(* ===================================================================== *)
(** ** The world outside the repository *)
(* ===================================================================== *)

(** The object returned by [chat_session.send_message]; reading its
    [text] property can raise. *)
Record response : Type := mk_response { text : res string }.

Record world : Type := mk_world {
  (** [json.loads] on a string *)
  json_loads : string -> res pyval;
  (** [json.dumps] *)
  json_dumps : pyval -> string;
  (** [repr] of floats, lists and dicts, as [str()] and f-strings print
      them *)
  py_repr : pyval -> string;
  (** the text of [initial_system_prompt] (function.py, 670-728) *)
  initial_system_prompt : string;
  (** [genai.GenerativeModel(...)] followed by
      [model.start_chat(history=...)] *)
  start_chat : list pyval -> res unit;
  (** the outcome of the [attempt]-th call of
      [chat_session.send_message(content)] in a request *)
  send_message : list pyval -> string -> nat -> res response;
  (** [s.lower()] *)
  str_lower : string -> string;
  (** [s.strip()] *)
  str_strip : string -> string;
  (** [s.split()] *)
  str_split : string -> list string;
  (** [re.search(r'\d\s*/\s*10', s) is not None] *)
  re_search_rating : string -> bool
}.

(** What a request does to the outside. *)
Inductive event : Type :=
| EvStartChat (history : list pyval)
| EvSend (attempt : nat) (content : string)
| EvSleep (seconds : nat).

Definition is_send (e : event) : bool :=
  match e with EvSend _ _ => true | _ => false end.

Definition STANDARD_DISCLAIMER : string :=
  "Disclaimer: I am an AI Chatbot. This information is not a substitute for professional medical advice. Always consult a doctor for diagnosis and treatment.".

Definition nl : string := String (ascii_of_nat 10) EmptyString.

(** [str(v)], also the rendering of [{v}] in an f-string *)
Definition py_str (W : world) (v : pyval) : string :=
  match v with
  | PNone => "None"
  | PBool true => "True"
  | PBool false => "False"
  | PInt z => pretty z
  | PStr s => s
  | _ => py_repr W v
  end.

(* ===================================================================== *)
(** ** function.py: [gemini_interactive] *)
(* ===================================================================== *)

(** A dict literal. *)
Definition mkdict (items : list (string * pyval)) : dict := list_to_map items.

Definition strs (l : list string) : pyval := PList (PStr <$> l).

Section Functions.

Context (W : world).

(** *** History and initial prompt setup (function.py, 730-772) *)

(** The model's confirmation turn, before [json.dumps]. *)
Definition confirmation_turn : dict :=
  mkdict
    [ ("response", PStr "Understood. I am MedAssist. I will follow the conversation rules, use interactive components when possible to minimize typing, ask follow-ups for initial symptoms, provide structured responses when ready, handle non-medical queries, and always prioritize safety and the required JSON format.");
      ("needs_follow_up", PBool false);
      ("follow_up_question", PStr "");
      ("follow_up_type", PStr "select");
      ("follow_up_options", PList []);
      ("rate_symptoms", PBool false);
      ("symptoms_to_rate", PList []);
      ("is_medical_related", PBool true);
      ("is_medical_related_prompt", PStr "Yes");
      ("can_provide_structured_response", PBool false);
      ("conversation_complete", PBool false);
      ("current_step", PInt 0);
      ("total_steps", PInt 0);
      ("Symptoms", PStr ".");
      ("Remedies", PStr "");
      ("Precautions", PStr "");
      ("Guidelines", PStr "");
      ("medication", PList []);
      ("Disclaimer", PStr STANDARD_DISCLAIMER);
      ("image_search_term", PStr "") ].

Definition turn (role : pyval) (part : string) : pyval :=
  PDict (mkdict [("role", role); ("parts", PList [PStr part])]).

(** One iteration of [for entry in conversation_history]: the entries
    appended to [formatted_history]. *)
Definition format_entry (entry : pyval) : list pyval :=
  match entry with
  | PDict e =>
      if Py.has_key e "role" && Py.has_key e "parts" then
        match Py.get e "parts" PNone with
        | PList parts => if forallb Py.is_str parts then [entry] else []
        | PStr part => [turn (Py.get e "role" PNone) part]
        | _ => []
        end
      else if Py.has_key e "role" && Py.has_key e "message" then
        [turn (Py.get e "role" PNone) (py_str W (Py.get e "message" PNone))]
      else []
  | _ => []
  end.

Definition history_items (conversation_history : option (list pyval)) : list pyval :=
  default [] conversation_history.

Definition format_history (conversation_history : option (list pyval)) : list pyval :=
  [ turn (PStr "user") (initial_system_prompt W);
    turn (PStr "model") (json_dumps W (PDict confirmation_turn)) ]
  ++ flat_map format_entry (history_items conversation_history).

(** *** Adaptive prompting logic (function.py, 775-832) *)

(** [bool(conversation_history)] *)
Definition history_truthy (conversation_history : option (list pyval)) : bool :=
  match conversation_history with
  | Some (_ :: _) => true
  | _ => false
  end.

(** [len(conversation_history)] where the history is truthy *)
Definition history_len (conversation_history : option (list pyval)) : Z :=
  Z.of_nat (length (history_items conversation_history)).

Definition medical_terms : list string :=
  ["health"; "medical"; "doctor"; "symptom"; "pain"; "sick"; "ill";
   "condition"; "treat"; "fever"; "cough"; "ache"; "nausea"; "rash"].

Definition non_medical_keywords : list string :=
  ["weather"; "time"; "joke"; "sports"; "movie"; "music"; "news";
   "history"; "capital"; "translate"].

Definition high_severity_terms : list string :=
  ["severe"; "worst"; "unbearable"; "intense"; "extreme"; "emergency";
   "ambulance"; "hospital now"; "urgent care"; "pass out"; "faint";
   "chest pain"; "difficulty breathing"; "stroke symptoms"].

Definition symptom_terms : list string :=
  ["symptom"; "pain"; "sick"; "ill"; "condition"; "fever"; "cough";
   "ache"; "nausea"; "rash"; "headache"; "feel"].

Definition is_non_medical (message_lower : string) : bool :=
  negb (PyStr.any_in medical_terms message_lower)
  && PyStr.any_in non_medical_keywords message_lower.

Definition is_high_severity (message_lower : string) : bool :=
  PyStr.any_in high_severity_terms message_lower.

(** The [if]/[elif] chain of lines 799-804. *)
Definition initial_total_steps (message_lower : string) : Z :=
  if PyStr.any_in ["headache"; "head"; "migraine"] message_lower then 4
  else if PyStr.any_in ["stomach"; "nausea"; "vomit"; "diarrhea"] message_lower then 4
  else if PyStr.any_in ["fever"; "temperature"] message_lower then 3
  else if PyStr.any_in ["cough"; "breathing"] message_lower then 4
  else if PyStr.any_in ["rash"; "skin"] message_lower then 5
  else 4.

Definition non_medical_prefix : string :=
  "INSTRUCTION: Non-Medical Query. Set is_medical_related=false, is_medical_related_prompt='No'. Explain focus. Set complete=true, needs_follow_up=false."
  +:+ nl +:+ nl.

Definition high_severity_prefix : string :=
  "INSTRUCTION: High Severity Detected. Prioritize recommending immediate professional help. Provide detailed home care/precautions (5+ points each) while waiting for help. Set complete=true."
  +:+ nl +:+ nl.

Definition initial_symptom_prefix (total : string) : string :=
  "INSTRUCTION: Initial Symptom Query (Approx. Step 1 of " +:+ total
  +:+ "). Ask the most logical first follow-up question based on the symptom (e.g., location, primary characteristic). Use interactive components. Set needs_follow_up=true, complete=false. Set current_step=1, total_steps="
  +:+ total +:+ "." +:+ nl +:+ nl.

Definition sufficient_info_prefix (step total : string) : string :=
  "INSTRUCTION: Likely Sufficient Info Gathered (Approx. Step " +:+ step +:+ "/" +:+ total
  +:+ "). Evaluate if ready for summary. If yes, provide full structured response (brief conversational part), set complete=true. If NO, ask ONE final clarifying question. "
  +:+ nl +:+ nl.

Definition continuing_prefix (step total : string) : string :=
  "INSTRUCTION: Continuing Conversation (Approx. Step " +:+ step +:+ "/" +:+ total
  +:+ "). Ask the next logical follow-up question based on the history and last user message. Use interactive components. Set needs_follow_up=true, complete=false. Set current_step="
  +:+ step +:+ ", total_steps=" +:+ total +:+ "." +:+ nl +:+ nl.

Definition rating_prefix (step total : string) : string :=
  "INSTRUCTION: User provided symptom rating (Approx. Step " +:+ step +:+ "/" +:+ total
  +:+ "). Process rating. Ask next logical follow-up OR provide summary if sufficient info gathered. Update steps accordingly. "
  +:+ nl +:+ nl.

Definition long_conversation_prefix : string :=
  "INSTRUCTION: Sufficient Info Likely Available (long conversation). Provide a full, detailed structured response. Keep the main conversational 'response' field BRIEF. Set complete=true, needs_follow_up=false."
  +:+ nl +:+ nl.

(** [json.loads(v)]: only a string is handed to the parser. *)
Definition loads (v : pyval) : res pyval :=
  match v with
  | PStr s => json_loads W s
  | _ => raise TypeError
           ("the JSON object must be str, bytes or bytearray, not " +:+ Py.type_name v)
  end.

(** The body of the [try] of lines 811-817: the new value of
    [estimated_total_steps]. *)
Definition history_estimate_body (items : list pyval) (estimated_total_steps : pyval)
  : res pyval :=
  last_turn ← PyNum.last_item items;
  parts ← PyNum.subscript_key last_turn "parts";
  last_model_turn_str ← PyNum.subscript_zero parts;
  last_model_data ← loads last_model_turn_str;
  has_total ← PyNum.contains_key "total_steps" last_model_data;
  total_positive ←
    (if has_total : bool then
       total ← PyNum.subscript_key last_model_data "total_steps";
       PyNum.gt_int total 0
     else Ok false);
  if total_positive : bool then
    PyNum.subscript_key last_model_data "total_steps"
  else
    has_current ← PyNum.contains_key "current_step" last_model_data;
    current_positive ←
      (if has_current : bool then
         current ← PyNum.subscript_key last_model_data "current_step";
         PyNum.gt_int current 0
       else Ok false);
    if current_positive : bool then
      current ← PyNum.subscript_key last_model_data "current_step";
      next ← PyNum.add_two current;
      PyNum.max_four next
    else Ok estimated_total_steps.

(** [except (IndexError, KeyError, json.JSONDecodeError): pass] *)
Definition history_handler_catches (e : exn) : bool :=
  match exn_type e with
  | IndexError | KeyError | JSONDecodeError => true
  | _ => false
  end.

Definition history_estimate (items : list pyval) (estimated_total_steps : pyval)
  : res pyval :=
  match history_estimate_body items estimated_total_steps with
  | Ok v => Ok v
  | Raise e =>
      if history_handler_catches e then Ok estimated_total_steps else Raise e
  end.

(** The local variables the prompting logic leaves behind. *)
Record prompting : Type := mk_prompting {
  instruction_prefix : string;
  conversation_step : Z;
  estimated_total_steps : pyval
}.

Definition select_instruction (message : string)
    (conversation_history : option (list pyval)) : res prompting :=
  let is_initial_symptom := negb (history_truthy conversation_history) in
  let message_lower := str_lower W message in
  let is_rating_response :=
    PyStr.contains "rating" message_lower && re_search_rating W message_lower in
  let conversation_step :=
    if history_truthy conversation_history
    then history_len conversation_history / 2 + 1 else 1 in
  let step := pretty conversation_step in
  if is_non_medical message_lower then
    Ok (mk_prompting non_medical_prefix conversation_step (PInt 4))
  else if is_high_severity message_lower then
    Ok (mk_prompting high_severity_prefix conversation_step (PInt 4))
  else if is_initial_symptom && PyStr.any_in symptom_terms message_lower then
    let total := initial_total_steps message_lower in
    Ok (mk_prompting (initial_symptom_prefix (pretty total)) conversation_step (PInt total))
  else if history_truthy conversation_history && negb is_rating_response then
    total ← history_estimate (history_items conversation_history) (PInt 4);
    enough ← PyNum.int_ge conversation_step total;
    Ok (mk_prompting
          (if enough : bool
           then sufficient_info_prefix step (py_str W total)
           else continuing_prefix step (py_str W total))
          conversation_step total)
  else if is_rating_response then
    Ok (mk_prompting (rating_prefix step (pretty 4)) conversation_step (PInt 4))
  else if history_truthy conversation_history
          && (10 <=? history_len conversation_history) then
    Ok (mk_prompting long_conversation_prefix conversation_step (PInt 4))
  else
    Ok (mk_prompting "" conversation_step (PInt 4)).

(** *** Retry logic (function.py, 838-858) *)

Definition max_retries : nat := 3.

(** The [for attempt in range(max_retries)] loop over the attempts that
    remain: the value of [response] when the loop is left ([None] when it
    runs out without a [break]), or the exception re-raised by the last
    attempt. *)
Fixpoint send_attempts (history : list pyval) (content : string)
    (attempts : list nat) : res (option response) * list event :=
  match attempts with
  | [] => (Ok None, [])
  | attempt :: rest =>
      match send_message W history content attempt with
      | Ok r => (Ok (Some r), [EvSend attempt content])
      | Raise send_error =>
          if (attempt <? max_retries - 1)%nat then
            let '(out, events) := send_attempts history content rest in
            (out, EvSend attempt content :: EvSleep 1 :: events)
          else (Raise send_error, [EvSend attempt content])
      end
  end.

Definition send_with_retry (history : list pyval) (content : string)
  : res response * list event :=
  let '(out, events) := send_attempts history content (seq 0 max_retries) in
  (match out with
   | Ok (Some r) => Ok r
   | Ok None =>
       raise (OtherException "Exception")
         "Failed to get response from Gemini API after multiple retries."
   | Raise e => Raise e
   end, events).

(** *** Post-processing and default setting (function.py, 862-961) *)

Definition duration_options : pyval :=
  strs ["Less than a day"; "1-3 days"; "4-7 days"; "1-2 weeks"; "More than 2 weeks"].

Definition yes_no_options : pyval := strs ["Yes"; "No"; "Not sure"].

Definition select_options : pyval := strs ["Yes"; "No"; "Sometimes"; "Not sure"].

Definition symptom_options : pyval :=
  strs ["Fever"; "Headache"; "Nausea"; "Dizziness"; "Fatigue"; "Cough";
        "Runny nose"; "Sore throat"; "None of these"].

Definition multiselect_options : pyval :=
  strs ["Option 1"; "Option 2"; "Option 3"; "None of these"].

Definition duration_terms : list string :=
  ["duration"; "how long"; "when did"; "since when"].

Definition symptom_question_terms : list string :=
  ["symptom"; "experience"; "feeling"; "notice"].

Definition severity_question_terms : list string :=
  ["pain"; "severe"; "intensity"; "scale"; "rate"; "level"].

(** [json.loads] may return any JSON value; the first method call on it,
    [response_dict.setdefault], needs a dict. *)
Definition as_response_dict (v : pyval) : res dict :=
  match v with
  | PDict d => Ok d
  | _ => raise AttributeError
           ("'" +:+ Py.type_name v +:+ "' object has no attribute 'setdefault'")
  end.

(** Lines 871-875. *)
Definition set_progress (p : prompting) (d : dict) : dict :=
  let d :=
    if negb (Py.has_key d "current_step") || Py.eq_zero (Py.get d "current_step" PNone)
    then <["current_step" := PInt (conversation_step p)]> d else d in
  if negb (Py.has_key d "total_steps") || Py.eq_zero (Py.get d "total_steps" PNone)
  then <["total_steps" := estimated_total_steps p]> d else d.

(** Lines 878-880. *)
Definition set_follow_up_defaults (d : dict) : dict :=
  let d := Py.setdefault "needs_follow_up" (PBool false) d in
  let d :=
    Py.setdefault "follow_up_question"
      (if negb (Py.truthy (Py.get d "needs_follow_up" PNone)) then PStr ""
       else Py.get d "follow_up_question" (PStr "Could you tell me more?")) d in
  Py.setdefault "follow_up_type" (PStr "select") d.

(** The question asked for a [scale] follow-up (lines 930-934, 938-942). *)
Definition scale_question (d : dict) : res pyval :=
  symptoms ← Py.str_method (Py.get d "Symptoms" (PStr "")) "strip";
  let symptom := PyStr.strip_dots symptoms in
  Ok (PStr (if negb (String.eqb symptom "")
            then "On a scale of 1 to 10, how would you rate your " +:+ symptom +:+ "?"
            else "On a scale of 1 to 10, how would you rate the severity?")).

(** Lines 887-904: options for a [select] or [multiselect] follow-up
    that came without any. *)
Definition fill_missing_options (follow_up_type follow_up_options : pyval) (d : dict)
  : res dict :=
  if Py.eq_str follow_up_type "select" && negb (Py.truthy follow_up_options) then
    question ← Py.str_method (Py.get d "follow_up_question" (PStr "")) "lower";
    if PyStr.any_in duration_terms (str_lower W question) then
      Ok (<["follow_up_options" := duration_options]> d)
    else if PyStr.endswith question "?"
            && (Z.of_nat (length (str_split W question)) <? 15) then
      Ok (<["follow_up_options" := yes_no_options]> d)
    else Ok (<["follow_up_options" := select_options]> d)
  else if Py.eq_str follow_up_type "multiselect" && negb (Py.truthy follow_up_options) then
    question ← Py.str_method (Py.get d "follow_up_question" (PStr "")) "lower";
    if PyStr.any_in symptom_question_terms (str_lower W question) then
      Ok (<["follow_up_options" := symptom_options]> d)
    else Ok (<["follow_up_options" := multiselect_options]> d)
  else Ok d.

(** Lines 907-934: a [text] follow-up is turned into an interactive one
    where the question allows it. *)
Definition convert_text_follow_up (follow_up_type : pyval) (d : dict) : res dict :=
  if Py.eq_str follow_up_type "text" then
    question ← Py.str_method (Py.get d "follow_up_question" (PStr "")) "lower";
    let follow_up_question := str_lower W question in
    if PyStr.any_in ["how long"; "duration"; "when did"; "since when"] follow_up_question then
      Ok (<["follow_up_options" := duration_options]>
            (<["follow_up_type" := PStr "select"]> d))
    else if PyStr.endswith follow_up_question "?"
            && (Z.of_nat (length (str_split W follow_up_question)) <? 15) then
      Ok (<["follow_up_options" := yes_no_options]>
            (<["follow_up_type" := PStr "select"]> d))
    else if PyStr.any_in symptom_question_terms follow_up_question then
      Ok (<["follow_up_options" := symptom_options]>
            (<["follow_up_type" := PStr "multiselect"]> d))
    else if PyStr.any_in severity_question_terms follow_up_question then
      let d := <["follow_up_type" := PStr "scale"]> d in
      if negb (Py.truthy (Py.get d "follow_up_question" PNone)) then
        q ← scale_question d; Ok (<["follow_up_question" := q]> d)
      else Ok d
    else Ok d
  else Ok d.

(** Lines 883-934. *)
Definition complete_follow_up (d : dict) : res dict :=
  if Py.truthy (Py.get d "needs_follow_up" (PBool false)) then
    let follow_up_type := Py.get d "follow_up_type" (PStr "select") in
    let follow_up_options := Py.get d "follow_up_options" (PList []) in
    d ← fill_missing_options follow_up_type follow_up_options d;
    convert_text_follow_up follow_up_type d
  else Ok d.

(** Lines 937-942. *)
Definition ensure_scale_question (d : dict) : res dict :=
  if Py.eq_str (Py.get d "follow_up_type" PNone) "scale"
     && negb (Py.truthy (Py.get d "follow_up_question" PNone)) then
    q ← scale_question d; Ok (<["follow_up_question" := q]> d)
  else Ok d.

(** Lines 945-961. *)
Definition set_other_defaults (d : dict) : dict :=
  let d := Py.setdefault "rate_symptoms" (PBool false) d in
  let d := Py.setdefault "symptoms_to_rate" (PList []) d in
  let d := Py.setdefault "is_medical_related" (PBool true) d in
  let d :=
    Py.setdefault "is_medical_related_prompt"
      (if Py.truthy (Py.get d "is_medical_related" (PBool true))
       then PStr "Yes" else PStr "No") d in
  let d := Py.setdefault "can_provide_structured_response" (PBool false) d in
  let d := Py.setdefault "conversation_complete" (PBool false) d in
  let d := Py.setdefault "current_step" (PInt 0) d in
  let d := Py.setdefault "total_steps" (PInt 0) d in
  let d := Py.setdefault "Symptoms" (PStr ".") d in
  let d := Py.setdefault "Remedies" (PStr "") d in
  let d := Py.setdefault "Precautions" (PStr "") d in
  let d := Py.setdefault "Guidelines" (PStr "") d in
  let d := Py.setdefault "medication" (PList []) d in
  let d := Py.setdefault "Disclaimer" (PStr STANDARD_DISCLAIMER) d in
  Py.setdefault "image_search_term" (PStr "") d.

(** Lines 868-961 in sequence. *)
Definition set_defaults (p : prompting) (d : dict) : res dict :=
  let d := Py.setdefault "response" (PStr "") d in
  let d := set_progress p d in
  let d := set_follow_up_defaults d in
  d ← complete_follow_up d;
  d ← ensure_scale_question d;
  Ok (set_other_defaults d).

(** *** Logic enforcement and post-processing (function.py, 964-1029) *)

(** One [med] of the loop of lines 969-980: the items appended to
    [processed_meds]. *)
Definition split_medication (med : pyval) : list pyval :=
  match med with
  | PStr s =>
      match PyStr.findall_caps s with
      | [] => [med]
      | split_meds => PStr <$> split_meds
      end
  | _ => [med]
  end.

(** Lines 967-981. *)
Definition post_process_medication (d : dict) : dict :=
  match Py.get d "medication" PNone with
  | PList meds => <["medication" := PList (flat_map split_medication meds)]> d
  | _ => d
  end.

Definition brief_summary : string :=
  "Okay, here is a summary based on our conversation. Please review the details below.".

(** Lines 985-988. *)
Definition force_brief_response (d : dict) : dict :=
  if Py.truthy (Py.get d "can_provide_structured_response" PNone)
  then <["response" := PStr brief_summary]> d else d.

(** [if not response_dict.get(k): response_dict[k] = text] *)
Definition fill_if_empty (k text : string) (d : dict) : dict :=
  if negb (Py.truthy (Py.get d k PNone)) then <[k := PStr text]> d else d.

(** Lines 999-1006. *)
Definition fill_trivial_fields (d : dict) : dict :=
  let d :=
    if negb (Py.truthy (Py.get d "Symptoms" PNone))
       || Py.eq_str (Py.get d "Symptoms" PNone) "."
    then <["Symptoms" := PStr "Symptom details were discussed."]> d else d in
  let d := fill_if_empty "Remedies" "General self-care advice applies. Stay hydrated, rest." d in
  let d := fill_if_empty "Precautions" "Avoid strenuous activity. Monitor symptoms." d in
  fill_if_empty "Guidelines" "Consult a doctor if symptoms worsen or persist." d.

(** Lines 992-1006. *)
Definition enforce_complete (d : dict) : res dict :=
  complete ← Py.getitem d "conversation_complete";
  if Py.truthy complete then
    let d := <["needs_follow_up" := PBool false]> d in
    let d := <["follow_up_question" := PStr ""]> d in
    medical ← Py.getitem d "is_medical_related";
    if Py.truthy medical then
      Ok (fill_trivial_fields (<["can_provide_structured_response" := PBool true]> d))
    else Ok d
  else Ok d.

(** The assignments of lines 1011-1018. *)
Definition clear_structured_fields (d : dict) : dict :=
  let d := <["can_provide_structured_response" := PBool false]> d in
  let d := <["Symptoms" := PStr "."]> d in
  let d := <["Remedies" := PStr ""]> d in
  let d := <["Precautions" := PStr ""]> d in
  let d := <["Guidelines" := PStr ""]> d in
  let d := <["medication" := PList []]> d in
  let d := <["needs_follow_up" := PBool false]> d in
  <["conversation_complete" := PBool true]> d.

(** Lines 1010-1018. *)
Definition enforce_non_medical (d : dict) : res dict :=
  medical ← Py.getitem d "is_medical_related";
  if negb (Py.truthy medical) then Ok (clear_structured_fields d) else Ok d.

(** Lines 1021-1026. *)
Definition sync_medical_flags (d : dict) : res dict :=
  medical ← Py.getitem d "is_medical_related";
  prompt ← Py.getitem d "is_medical_related_prompt";
  if Py.truthy medical && Py.eq_str prompt "No" then
    Ok (<["is_medical_related_prompt" := PStr "Yes"]> d)
  else if negb (Py.truthy medical) && Py.eq_str prompt "Yes" then
    Ok (<["is_medical_related_prompt" := PStr "No"]> d)
  else Ok d.

(** Lines 964-1029 in sequence. *)
Definition enforce_logic (d : dict) : res dict :=
  let d := post_process_medication d in
  let d := force_brief_response d in
  d ← enforce_complete d;
  d ← enforce_non_medical d;
  sync_medical_flags d.

(** Lines 862-1029: from the parsed reply to the returned dict. *)
Definition process_reply (p : prompting) (reply : pyval) : res dict :=
  response_dict ← as_response_dict reply;
  d ← set_defaults p response_dict;
  enforce_logic d.

(** The dict of the [except Exception] handler (lines 1034-1055). *)
Definition fallback_response : dict :=
  mkdict
    [ ("response", PStr "I apologize, I encountered a technical difficulty. Could you please select an option below?");
      ("needs_follow_up", PBool true);
      ("follow_up_question", PStr "What would you like to do?");
      ("follow_up_type", PStr "select");
      ("follow_up_options", strs ["Try asking again"; "Start a new conversation"]);
      ("rate_symptoms", PBool false);
      ("symptoms_to_rate", PList []);
      ("is_medical_related", PBool true);
      ("is_medical_related_prompt", PStr "Yes");
      ("can_provide_structured_response", PBool false);
      ("conversation_complete", PBool false);
      ("current_step", PInt 0);
      ("total_steps", PInt 0);
      ("Symptoms", PStr ".");
      ("Remedies", PStr "");
      ("Precautions", PStr "");
      ("Guidelines", PStr "");
      ("medication", PList []);
      ("Disclaimer", PStr STANDARD_DISCLAIMER);
      ("image_search_term", PStr "") ].

(** Lines 558-862 of the [try]: the prompting variables and the parsed
    reply of the model, with the events caused on the way. *)
Definition ask_model (message : string) (conversation_history : option (list pyval))
  : res (prompting * pyval) * list event :=
  let formatted_history := format_history conversation_history in
  match select_instruction message conversation_history with
  | Raise e => (Raise e, [])
  | Ok p =>
      match start_chat W formatted_history with
      | Raise e => (Raise e, [EvStartChat formatted_history])
      | Ok _ =>
          let final_message_content := instruction_prefix p +:+ message in
          let '(sent, events) := send_with_retry formatted_history final_message_content in
          (r ← sent;
           reply_text ← text r;
           reply ← json_loads W reply_text;
           Ok (p, reply),
           EvStartChat formatted_history :: events)
      end
  end.

(** The body of the [try] (lines 558-1029), with the events it causes. *)
Definition gemini_interactive_body (message : string)
    (conversation_history : option (list pyval)) : res dict * list event :=
  let '(asked, events) := ask_model message conversation_history in
  ('(p, reply) ← asked; process_reply p reply, events).

(** [gemini_interactive(message, conversation_history)]: the returned
    dict and the events of the call. *)
Definition gemini_interactive (message : string)
    (conversation_history : option (list pyval)) : dict * list event :=
  match gemini_interactive_body message conversation_history with
  | (Ok response_dict, events) => (response_dict, events)
  | (Raise _, events) => (fallback_response, events)
  end.

End Functions.

(* ===================================================================== *)
(** ** app.py: [gemini_interactive_route] *)
(* ===================================================================== *)

(** What the route hands to Flask: the status code and the object given
    to [jsonify]. *)
Record http_response : Type := mk_http { status : Z; body : dict }.

(** The payload under the ["data"] key of a response body. *)
Definition payload (r : http_response) : option dict :=
  match body r !! "data" with
  | Some (PDict d) => Some d
  | _ => None
  end.

(** One field of the payload. *)
Definition payload_field (r : http_response) (k : string) : option pyval :=
  d ← payload r; d !! k.

Section App.

Context (W : world).

Definition restart_commands : list string :=
  ["restart"; "start over"; "reset"; "new conversation"].

(** [s in restart_commands] *)
Definition is_restart (s : string) : bool :=
  existsb (String.eqb s) restart_commands.

Definition bad_request (msg : string) : http_response :=
  mk_http 400 (mkdict [("error", PStr msg)]).

(** Lines 129-139. *)
Definition restart_payload : dict :=
  mkdict
    [ ("response", PStr "Okay, let's start a new conversation. How can I help with your health questions today?");
      ("needs_follow_up", PBool false);
      ("follow_up_question", PStr "");
      ("is_medical_related", PBool true);
      ("is_medical_related_prompt", PStr "Yes");
      ("can_provide_structured_response", PBool false);
      ("conversation_complete", PBool false);
      ("Disclaimer", PStr STANDARD_DISCLAIMER);
      ("conversation_restarted", PBool true) ].

(** Lines 195-207. *)
Definition error_payload (e : exn) : dict :=
  mkdict
    [ ("response", PStr ("I apologize, but an internal error occurred ("
                         +:+ class_name (exn_type e)
                         +:+ "). Please try again or restart the conversation."));
      ("needs_follow_up", PBool false);
      ("follow_up_question", PStr "");
      ("is_medical_related", PBool true);
      ("is_medical_related_prompt", PStr "Yes");
      ("can_provide_structured_response", PBool false);
      ("conversation_complete", PBool true);
      ("Disclaimer", PStr STANDARD_DISCLAIMER);
      ("error", PStr (exn_msg e)) ].

Definition data_response (code : Z) (d : dict) : http_response :=
  mk_http code (mkdict [("data", PDict d)]).

(** [data.get]: a method of dicts only. *)
Definition get_method (data : pyval) : res dict :=
  match data with
  | PDict d => Ok d
  | _ => raise AttributeError
           ("'" +:+ Py.type_name data +:+ "' object has no attribute 'get'")
  end.

(** Lines 154-165: completion is forced after too many messages. *)
Definition force_completion (total_messages : Z) (response : dict) : dict :=
  if negb (Py.truthy (Py.get response "conversation_complete" (PBool false)))
     && (100 <=? total_messages) then
    let response := <["conversation_complete" := PBool true]> response in
    let response := <["needs_follow_up" := PBool false]> response in
    let response := <["follow_up_question" := PStr ""]> response in
    if Py.truthy (Py.get response "is_medical_related" (PBool true))
    then <["can_provide_structured_response" := PBool true]> response
    else response
  else response.

(** Lines 167-171. *)
Definition fix_inconsistency (response : dict) : dict :=
  if Py.truthy (Py.get response "conversation_complete" PNone)
     && Py.truthy (Py.get response "needs_follow_up" PNone) then
    <["follow_up_question" := PStr ""]> (<["needs_follow_up" := PBool false]> response)
  else response.

(** Lines 152-174. *)
Definition sanity_checks (conversation_history : option (list pyval)) (response : dict)
  : dict :=
  let total_messages :=
    (if history_truthy conversation_history
     then history_len conversation_history else 0) + 1 in
  let response := force_completion total_messages response in
  let response := fix_inconsistency response in
  Py.setdefault "Disclaimer" (PStr STANDARD_DISCLAIMER) response.

(** Lines 110-118: the request is read; [inl] is an early return. *)
Definition read_request (request_json : res pyval)
  : res (http_response + string * option (list pyval)) :=
  data ← request_json;
  if negb (Py.truthy data) then
    Ok (inl (bad_request "Invalid request. JSON body with 'message' field is required."))
  else
    has_message ← PyNum.contains_key "message" data;
    if negb has_message then
      Ok (inl (bad_request "Invalid request. JSON body with 'message' field is required."))
    else
      fields ← get_method data;
      raw ← Py.str_method (Py.get fields "message" (PStr "")) "strip";
      let message := str_strip W raw in
      match Py.get fields "conversation_history" PNone with
      | PNone => Ok (inr (message, None))
      | PList items => Ok (inr (message, Some items))
      | _ =>
          Ok (inl (bad_request
                     "Invalid request. 'conversation_history' must be a list or null."))
      end.

(** The body of the route's [try] (lines 110-187). *)
Definition route_body (request_json : res pyval) : res http_response * list event :=
  match read_request request_json with
  | Raise e => (Raise e, [])
  | Ok (inl early) => (Ok early, [])
  | Ok (inr (message, conversation_history)) =>
      if is_restart (str_lower W message) then
        (Ok (data_response 200 restart_payload), [])
      else
        let '(response, events) := gemini_interactive W message conversation_history in
        (Ok (data_response 200 (sanity_checks conversation_history response)), events)
  end.

(** [gemini_interactive_route()] on a request whose [request.json] is
    [request_json]. *)
Definition gemini_interactive_route (request_json : res pyval)
  : http_response * list event :=
  match route_body request_json with
  | (Ok r, events) => (r, events)
  | (Raise e, events) => (data_response 500 (error_payload e), events)
  end.

End App.

(** A POST body [{"message": ..., "conversation_history": ...}]. *)
Definition post_body (message : pyval) (conversation_history : pyval) : res pyval :=
  Ok (PDict (mkdict [("message", message); ("conversation_history", conversation_history)])).

(* ===================================================================== *)
(** ** The documented response schema and other specification-side
       definitions *)
(* ===================================================================== *)

Inductive pytype : Type := TBool | TInt | TStr | TStrList.

Definition has_type (t : pytype) (v : pyval) : bool :=
  match t, v with
  | TBool, PBool _ => true
  | TInt, PInt _ => true
  | TStr, PStr _ => true
  | TStrList, PList l => forallb Py.is_str l
  | _, _ => false
  end.

(** The response fields of the interactive endpoint and their types, as
    the response schema of function.py (lines 564-654) declares them. *)
Definition documented : list (string * pytype) :=
  [ ("response", TStr); ("needs_follow_up", TBool); ("follow_up_question", TStr);
    ("follow_up_type", TStr); ("follow_up_options", TStrList);
    ("rate_symptoms", TBool); ("symptoms_to_rate", TStrList);
    ("is_medical_related", TBool); ("is_medical_related_prompt", TStr);
    ("can_provide_structured_response", TBool); ("conversation_complete", TBool);
    ("current_step", TInt); ("total_steps", TInt);
    ("Symptoms", TStr); ("Remedies", TStr); ("Precautions", TStr);
    ("Guidelines", TStr); ("medication", TStrList); ("Disclaimer", TStr);
    ("image_search_term", TStr) ].



Definition field_type (k : string) : option pytype :=
  snd <$> List.find (fun kt => String.eqb (fst kt) k) documented.




(** The per-symptom table in the order in which the specification lists
    its rows, the first row that applies deciding. *)
Definition claimed_total_steps (message_lower : string) : Z :=
  if PyStr.any_in ["fever"; "temperature"] message_lower then 3
  else if PyStr.any_in ["rash"; "skin"] message_lower then 5
  else if PyStr.any_in ["headache"; "head"; "migraine"] message_lower then 4
  else if PyStr.any_in ["stomach"; "nausea"; "vomit"; "diarrhea"] message_lower then 4
  else if PyStr.any_in ["cough"; "breathing"] message_lower then 4
  else 4.

(** The events of [failures] failed attempts followed by a last one,
    numbered from [first], with a one-second pause after each failure. *)
Fixpoint retry_trace (content : string) (first failures : nat) : list event :=
  match failures with
  | O => [EvSend first content]
  | S n => EvSend first content :: EvSleep 1 :: retry_trace content (S first) n
  end.

Definition all_lower (s : string) : bool :=
  forallb PyStr.is_lower (list_ascii_of_string s).

Definition starts_lower (s : string) : bool :=
  match s with
  | String c _ => PyStr.is_lower c
  | EmptyString => false
  end.

(** [cap_runs s runs]: [runs] are, from left to right, the maximal
    substrings of [s] made of one upper-case letter followed by lower-case
    letters.  A character outside a run is anything but an upper-case
    letter; a run ends where no lower-case letter follows. *)
Inductive cap_runs : string -> list string -> Prop :=
| cap_runs_end : cap_runs "" []
| cap_runs_skip c s runs :
    PyStr.is_upper c = false ->
    cap_runs s runs ->
    cap_runs (String c s) runs
| cap_runs_run c lows rest runs :
    PyStr.is_upper c = true ->
    all_lower lows = true ->
    starts_lower rest = false ->
    cap_runs rest runs ->
    cap_runs (String c (lows +:+ rest)) (String c lows :: runs).

(** The number of calls of [send_message] among [events]. *)
Definition sends (events : list event) : nat :=
  length (List.filter is_send events).

(** *** Worlds and requests used in examples *)

Definition dq : string := String (ascii_of_nat 34) EmptyString.

(** A JSON string literal. *)
Definition jstr (s : string) : string := dq +:+ s +:+ dq.

(** A world whose model answers every call with [reply_text], which
    [json.loads] parses to [reply].  Its text functions are those of the
    ASCII fragment. *)
Definition scripted_world (reply_text : string) (reply : pyval) : world :=
  mk_world
    (fun s => if String.eqb s reply_text then Ok reply
              else raise JSONDecodeError "Expecting value: line 1 column 1 (char 0)")
    (fun _ => "{}") (fun _ => "[]") "You are MedAssist."
    (fun _ => Ok tt)
    (fun _ _ _ => Ok (mk_response (Ok reply_text)))
    PyStr.ascii_lower PyStr.ascii_strip PyText.ascii_split PyStr.ascii_rating_search.

(** A world whose model is unreachable. *)
Definition offline_world : world :=
  mk_world
    (fun _ => raise JSONDecodeError "Expecting value: line 1 column 1 (char 0)")
    (fun _ => "{}") (fun _ => "[]") "You are MedAssist."
    (fun _ => Ok tt)
    (fun _ _ _ => raise (OtherException "ServiceUnavailable") "503")
    PyStr.ascii_lower PyStr.ascii_strip PyText.ascii_split PyStr.ascii_rating_search.

(** [{"is_medical_related": false, "needs_follow_up": true,
      "follow_up_question": "How long?"}] *)
Definition weather_reply_text : string :=
  "{" +:+ jstr "is_medical_related" +:+ ": false, "
      +:+ jstr "needs_follow_up" +:+ ": true, "
      +:+ jstr "follow_up_question" +:+ ": " +:+ jstr "How long?" +:+ "}".

Definition weather_reply : pyval :=
  PDict (mkdict [ ("is_medical_related", PBool false);
                  ("needs_follow_up", PBool true);
                  ("follow_up_question", PStr "How long?") ]).

(** [{"is_medical_related": true, "is_medical_related_prompt": "Maybe"}] *)
Definition maybe_reply_text : string :=
  "{" +:+ jstr "is_medical_related" +:+ ": true, "
      +:+ jstr "is_medical_related_prompt" +:+ ": " +:+ jstr "Maybe" +:+ "}".

Definition maybe_reply : pyval :=
  PDict (mkdict [ ("is_medical_related", PBool true);
                  ("is_medical_related_prompt", PStr "Maybe") ]).

(** [{"response": "Where does it hurt?", "needs_follow_up": true,
      "follow_up_question": "Where does it hurt?"}] *)
Definition follow_up_reply_text : string :=
  "{" +:+ jstr "response" +:+ ": " +:+ jstr "Where does it hurt?" +:+ ", "
      +:+ jstr "needs_follow_up" +:+ ": true, "
      +:+ jstr "follow_up_question" +:+ ": " +:+ jstr "Where does it hurt?" +:+ "}".

Definition follow_up_reply : pyval :=
  PDict (mkdict [ ("response", PStr "Where does it hurt?");
                  ("needs_follow_up", PBool true);
                  ("follow_up_question", PStr "Where does it hurt?") ]).

(** A reply with every field the response schema requires, for a query
    that is not medical, in which the model still asks a question:
    [{"response": "I can only help with health topics.",
      "needs_follow_up": true,
      "follow_up_question": "Do you have a health question?",
      "is_medical_related": false, "is_medical_related_prompt": "No",
      "can_provide_structured_response": false,
      "conversation_complete": false, "Symptoms": ".",
      "Disclaimer": STANDARD_DISCLAIMER, "image_search_term": ""}] *)
Definition off_topic_reply_text : string :=
  "{" +:+ jstr "response" +:+ ": " +:+ jstr "I can only help with health topics." +:+ ", "
      +:+ jstr "needs_follow_up" +:+ ": true, "
      +:+ jstr "follow_up_question" +:+ ": "
      +:+ jstr "Do you have a health question?" +:+ ", "
      +:+ jstr "is_medical_related" +:+ ": false, "
      +:+ jstr "is_medical_related_prompt" +:+ ": " +:+ jstr "No" +:+ ", "
      +:+ jstr "can_provide_structured_response" +:+ ": false, "
      +:+ jstr "conversation_complete" +:+ ": false, "
      +:+ jstr "Symptoms" +:+ ": " +:+ jstr "." +:+ ", "
      +:+ jstr "Disclaimer" +:+ ": " +:+ jstr STANDARD_DISCLAIMER +:+ ", "
      +:+ jstr "image_search_term" +:+ ": " +:+ jstr "" +:+ "}".

Definition off_topic_reply : pyval :=
  PDict (mkdict [ ("response", PStr "I can only help with health topics.");
                  ("needs_follow_up", PBool true);
                  ("follow_up_question", PStr "Do you have a health question?");
                  ("is_medical_related", PBool false);
                  ("is_medical_related_prompt", PStr "No");
                  ("can_provide_structured_response", PBool false);
                  ("conversation_complete", PBool false);
                  ("Symptoms", PStr ".");
                  ("Disclaimer", PStr STANDARD_DISCLAIMER);
                  ("image_search_term", PStr "") ]).

Definition off_topic_world : world :=
  scripted_world off_topic_reply_text off_topic_reply.

(** A reply with every required field that closes a medical conversation
    with its own advice and without the structured-response flag:
    [{"response": "Take rest and drink fluids.", "needs_follow_up": false,
      "is_medical_related": true, "is_medical_related_prompt": "Yes",
      "can_provide_structured_response": false,
      "conversation_complete": true, "Symptoms": "Common cold",
      "Disclaimer": STANDARD_DISCLAIMER, "image_search_term": ""}] *)
Definition advice_reply_text : string :=
  "{" +:+ jstr "response" +:+ ": " +:+ jstr "Take rest and drink fluids." +:+ ", "
      +:+ jstr "needs_follow_up" +:+ ": false, "
      +:+ jstr "is_medical_related" +:+ ": true, "
      +:+ jstr "is_medical_related_prompt" +:+ ": " +:+ jstr "Yes" +:+ ", "
      +:+ jstr "can_provide_structured_response" +:+ ": false, "
      +:+ jstr "conversation_complete" +:+ ": true, "
      +:+ jstr "Symptoms" +:+ ": " +:+ jstr "Common cold" +:+ ", "
      +:+ jstr "Disclaimer" +:+ ": " +:+ jstr STANDARD_DISCLAIMER +:+ ", "
      +:+ jstr "image_search_term" +:+ ": " +:+ jstr "" +:+ "}".

Definition advice_reply : pyval :=
  PDict (mkdict [ ("response", PStr "Take rest and drink fluids.");
                  ("needs_follow_up", PBool false);
                  ("is_medical_related", PBool true);
                  ("is_medical_related_prompt", PStr "Yes");
                  ("can_provide_structured_response", PBool false);
                  ("conversation_complete", PBool true);
                  ("Symptoms", PStr "Common cold");
                  ("Disclaimer", PStr STANDARD_DISCLAIMER);
                  ("image_search_term", PStr "") ]).

Definition advice_world : world := scripted_world advice_reply_text advice_reply.

(** [{"needs_follow_up": true, "follow_up_question": null}] *)
Definition null_question_reply_text : string :=
  "{" +:+ jstr "needs_follow_up" +:+ ": true, "
      +:+ jstr "follow_up_question" +:+ ": null}".

Definition null_question_reply : pyval :=
  PDict (mkdict [("needs_follow_up", PBool true); ("follow_up_question", PNone)]).

Definition null_question_world : world :=
  scripted_world null_question_reply_text null_question_reply.

(** [{"medication": ["IbuprofenAcetaminophen"]}] *)
Definition medication_reply_text : string :=
  "{" +:+ jstr "medication" +:+ ": [" +:+ jstr "IbuprofenAcetaminophen" +:+ "]}".

Definition medication_reply : pyval :=
  PDict (mkdict [("medication", strs ["IbuprofenAcetaminophen"])]).

Definition medication_world : world :=
  scripted_world medication_reply_text medication_reply.

Definition weather_world : world := scripted_world weather_reply_text weather_reply.

Definition maybe_world : world := scripted_world maybe_reply_text maybe_reply.

Definition follow_up_world : world :=
  scripted_world follow_up_reply_text follow_up_reply.

(** A history of [n] well-formed turns. *)
Definition long_history (n : nat) : list pyval :=
  replicate n (PDict (mkdict [("role", PStr "user"); ("parts", strs ["ok"])])).

(** *** Invariants of the returned dict *)

(** The state of a dict whose structured fields were reset. *)
Definition cleared (g : dict) : Prop :=
  g !! "Symptoms" = Some (PStr ".") /\
  g !! "Remedies" = Some (PStr "") /\
  g !! "Precautions" = Some (PStr "") /\
  g !! "Guidelines" = Some (PStr "") /\
  g !! "medication" = Some (PList []) /\
  g !! "conversation_complete" = Some (PBool true) /\
  g !! "needs_follow_up" = Some (PBool false) /\
  g !! "can_provide_structured_response" = Some (PBool false).

(** What the enforcement steps establish on every dict they return. *)
Definition consistent (g : dict) : Prop :=
  exists complete medical prompt,
    g !! "conversation_complete" = Some complete /\
    g !! "is_medical_related" = Some medical /\
    g !! "is_medical_related_prompt" = Some prompt /\
    (Py.truthy complete = true -> g !! "needs_follow_up" = Some (PBool false)) /\
    (Py.truthy complete = true -> Py.truthy medical = true ->
       g !! "follow_up_question" = Some (PStr "") /\
       g !! "can_provide_structured_response" = Some (PBool true)) /\
    (Py.truthy medical = false -> cleared g) /\
    (Py.truthy medical = true -> prompt <> PStr "No") /\
    (Py.truthy medical = false -> prompt <> PStr "Yes").

(** [v] may be stored under [k] without breaking the documented type of
    [k]. *)
Definition typed_value (k : string) (v : pyval) : Prop :=
  forall t, field_type k = Some t -> has_type t v = true.

(** An assignment [response_dict[k] = v] to one of [keys], of a value of
    the documented type unless [k] is among [untyped]. *)
Definition writes (keys untyped : list string) (k : string) (v : pyval) : Prop :=
  In k keys /\ (~ In k untyped -> typed_value k v).

(** [updates P d d']: [d'] is [d] after a sequence of assignments, each
    allowed by [P]. *)
Inductive updates (P : string -> pyval -> Prop) : dict -> dict -> Prop :=
| updates_refl d : updates P d d
| updates_insert d d' k v :
    updates P d d' -> P k v -> updates P d (<[k := v]> d').

(** The value of [is_medical_related_prompt] after lines 1021-1026. *)
Definition synced (medical prompt : pyval) : pyval :=
  if Py.truthy medical then
    if Py.eq_str prompt "No" then PStr "Yes" else prompt
  else
    if Py.eq_str prompt "Yes" then PStr "No" else prompt.

(** The prompt flag that matches the boolean flag. *)
Definition prompt_of (medical : pyval) : pyval :=
  PStr (if Py.truthy medical then "Yes" else "No").

(** The keys the route's sanity checks assign. *)
Definition sanity_keys : list string :=
  ["conversation_complete"; "needs_follow_up"; "follow_up_question";
   "can_provide_structured_response"; "Disclaimer"].

(** *** The keys each block of the post-processing assigns *)

Definition early_keys : list string :=
  ["response"; "current_step"; "total_steps"; "needs_follow_up";
   "follow_up_question"; "follow_up_type"; "follow_up_options"].

Definition follow_up_keys : list string :=
  ["needs_follow_up"; "follow_up_question"; "follow_up_type"; "follow_up_options"].

Definition other_keys : list string :=
  ["rate_symptoms"; "symptoms_to_rate"; "is_medical_related";
   "is_medical_related_prompt"; "can_provide_structured_response";
   "conversation_complete"; "current_step"; "total_steps"; "Symptoms";
   "Remedies"; "Precautions"; "Guidelines"; "medication"; "Disclaimer";
   "image_search_term"].

Definition all_keys : list string := early_keys ++ other_keys.

Definition enforce_keys : list string :=
  ["response"; "needs_follow_up"; "follow_up_question";
   "can_provide_structured_response"; "Symptoms"; "Remedies"; "Precautions";
   "Guidelines"; "medication"; "conversation_complete";
   "is_medical_related_prompt"].

(* ===================================================================== *)
(** ** function.py: the single-turn functions and the image search *)
(* ===================================================================== *)

(** The [flags] argument of [re.sub]. *)
Inductive re_flags : Type := RE_NONE | RE_MULTILINE | RE_DOTALL.

(** Library code and configuration used by the single-turn functions and
    by the image search. *)
Record services : Type := mk_services {
  (** [re.sub(pattern, repl, string, flags=flags)] *)
  re_sub : string -> string -> string -> re_flags -> string;
  (** [genai.GenerativeModel(...)] and [model.start_chat(history=[...])] of
      [gemini_text]; the model and the opening turns are fixed by the code *)
  text_chat : res unit;
  (** [chat_session.send_message(message)] in [gemini_text] *)
  text_send : string -> res response;
  (** the same two calls in [gemini_generic] *)
  generic_chat : res unit;
  generic_send : string -> res response;
  (** [os.getenv("GOOGLE_SEARCH_API_KEY")] and [os.getenv("GOOGLE_CSE_ID")] *)
  GOOGLE_SEARCH_API_KEY : option string;
  GOOGLE_CSE_ID : option string;
  (** [urllib.parse.quote_plus] *)
  quote_plus : string -> string;
  (** [requests.get(url, params={key, cx, q, searchType, num, safe},
      timeout=10)], [response.raise_for_status()] and [response.json()],
      as a function of [key], [cx], [q] and [num] *)
  custom_search : string -> string -> string -> Z -> res pyval
}.

(** [v[k] = x] for a string key [k] *)
Definition set_item (v : pyval) (k : string) (x : pyval) : res pyval :=
  match v with
  | PDict d => Ok (PDict (<[k := x]> d))
  | PList _ => raise TypeError "list indices must be integers or slices, not str"
  | _ => raise TypeError
           ("'" +:+ Py.type_name v +:+ "' object does not support item assignment")
  end.

(** [for x in v]: the values the loop visits.  The keys of a dict come in
    an order the model does not keep; every use below fails on the first
    of them. *)
Definition iterate (v : pyval) : res (list pyval) :=
  match v with
  | PList l => Ok l
  | PStr s => Ok ((fun c => PStr (String c EmptyString)) <$> list_ascii_of_string s)
  | PDict d => Ok (PStr <$> (map_to_list d).*1)
  | _ => raise TypeError ("'" +:+ Py.type_name v +:+ "' object is not iterable")
  end.

(** [isinstance(e, json.JSONDecodeError)] *)
Definition is_json_error (e : exn) : bool :=
  match exn_type e with
  | JSONDecodeError => true
  | _ => false
  end.

(** Reading [response] in a handler entered before [response] was
    assigned. *)
Definition unbound_response {A} : res A :=
  raise (OtherException "UnboundLocalError")
    "cannot access local variable 'response' where it is not associated with a value".

Section SingleTurn.

Context (W : world) (S : services).

(** [markdown_to_plain_text(markdown_text)] (function.py, 31-55).  The
    last two steps are written with the [split] and the [strip] of the
    ASCII fragment: the code's also remove the other spaces of Unicode. *)
Definition markdown_to_plain_text (markdown_text : pyval) : string :=
  match markdown_text with
  | PStr markdown_text =>
      let plain_text := re_sub S "#+\s+(.*)" "\1" markdown_text RE_NONE in
      let plain_text := re_sub S "(\*\*|__)(.*?)\1" "\2" plain_text RE_NONE in
      let plain_text := re_sub S "(\*|_)(.*?)\1" "\2" plain_text RE_NONE in
      let plain_text := re_sub S "^\s*[-*+]\s+" "" plain_text RE_MULTILINE in
      let plain_text := re_sub S "^\s*\d+\.\s+" "" plain_text RE_MULTILINE in
      let plain_text := re_sub S "```.*?```" "" plain_text RE_DOTALL in
      let plain_text := re_sub S "`(.*?)`" "\1" plain_text RE_NONE in
      let plain_text := re_sub S "\[(.*?)\]\(.*?\)" "\1" plain_text RE_NONE in
      let plain_text :=
        re_sub S "\n\s*[-*_]{3,}\s*\n" (nl +:+ nl) plain_text RE_NONE in
      let plain_text := re_sub S "\n{3,}" (nl +:+ nl) plain_text RE_NONE in
      let plain_text := String.concat " " (PyText.ascii_split plain_text) in
      PyStr.ascii_strip plain_text
  | _ => ""
  end.

(** The [setdefault] calls of lines 185-191. *)
Definition text_reply_defaults (d : dict) : dict :=
  let d := Py.setdefault "Symptoms" (PStr ".") d in
  let d := Py.setdefault "Remedies" (PStr "") d in
  let d := Py.setdefault "Precautions" (PStr "") d in
  let d := Py.setdefault "Guidelines" (PStr "") d in
  let d := Py.setdefault "is_medical_related_prompt" (PStr "No") d in
  let d := Py.setdefault "medication" (PList []) d in
  Py.setdefault "Disclaimer" (PStr STANDARD_DISCLAIMER) d.

(** Lines 178-194, on the value of [json.loads(response.text)]. *)
Definition process_text_reply (response_dict : pyval) : res dict :=
  has_response ← PyNum.contains_key "response" response_dict;
  response_dict ←
    (if has_response : bool then
       response ← PyNum.subscript_key response_dict "response";
       set_item response_dict "response" (PStr (markdown_to_plain_text response))
     else set_item response_dict "response" (PStr ""));
  d ← as_response_dict response_dict;
  Ok (text_reply_defaults d).

(** The dict of the two handlers of [gemini_text] (lines 199-212). *)
Definition text_fallback (response : string) : dict :=
  mkdict
    [ ("response", PStr response);
      ("Symptoms", PStr "."); ("Remedies", PStr ""); ("Precautions", PStr "");
      ("Guidelines", PStr ""); ("is_medical_related_prompt", PStr "No");
      ("medication", PList []); ("Disclaimer", PStr STANDARD_DISCLAIMER) ].

Definition text_json_fallback : dict :=
  text_fallback
    "Sorry, I encountered an technical issue processing that. Could you please rephrase?".

Definition text_general_fallback : dict :=
  text_fallback "Sorry, I encountered an unexpected error. Please try again later.".

(** [gemini_text(message)] (function.py, 58-212).  The model and the chat
    are created before the [try]; the handler of [json.JSONDecodeError]
    reads [response.text] again for its log line. *)
Definition gemini_text (message : string) : res dict :=
  _ ← text_chat S;
  match text_send S message with
  | Raise e => if is_json_error e then unbound_response else Ok text_general_fallback
  | Ok response =>
      match text response with
      | Raise e => if is_json_error e then Raise e else Ok text_general_fallback
      | Ok reply_text =>
          match json_loads W reply_text ≫= process_text_reply with
          | Ok response_dict => Ok response_dict
          | Raise e =>
              Ok (if is_json_error e then text_json_fallback else text_general_fallback)
          end
      end
  end.

(** The [setdefault] calls of lines 517-522. *)
Definition generic_reply_defaults (d : dict) : dict :=
  let d := Py.setdefault "Symptoms" (PStr ".") d in
  let d := Py.setdefault "Remedies" (PStr "") d in
  let d := Py.setdefault "Precautions" (PStr "") d in
  let d := Py.setdefault "Guidelines" (PStr "") d in
  let d := Py.setdefault "medication" (PList []) d in
  Py.setdefault "Disclaimer" (PStr STANDARD_DISCLAIMER) d.

(** Lines 510-526, on the value of [json.loads(response.text)]. *)
Definition process_generic_reply (response_dict : pyval) : res dict :=
  has_flag ← PyNum.contains_key "is_medical_related_prompt" response_dict;
  response_dict ←
    (if negb has_flag
     then set_item response_dict "is_medical_related_prompt" (PStr "No")
     else Ok response_dict);
  d ← as_response_dict response_dict;
  Ok (generic_reply_defaults d).

(** The dict of the two handlers of [gemini_generic] (lines 531-541). *)
Definition generic_fallback : dict :=
  mkdict
    [ ("Symptoms", PStr "."); ("Remedies", PStr ""); ("Precautions", PStr "");
      ("Guidelines", PStr ""); ("is_medical_related_prompt", PStr "No");
      ("medication", PList []); ("Disclaimer", PStr STANDARD_DISCLAIMER) ].

(** [gemini_generic(message)] (function.py, 409-541) *)
Definition gemini_generic (message : string) : res dict :=
  _ ← generic_chat S;
  match generic_send S message with
  | Raise e => if is_json_error e then unbound_response else Ok generic_fallback
  | Ok response =>
      match text response with
      | Raise e => if is_json_error e then Raise e else Ok generic_fallback
      | Ok reply_text =>
          match json_loads W reply_text ≫= process_generic_reply with
          | Ok response_dict => Ok response_dict
          | Raise e => Ok generic_fallback
          end
      end
  end.

(** *** The image search (function.py, 215-326) *)

(** [bool(os.getenv(...))] *)
Definition env_truthy (v : option string) : bool :=
  match v with
  | Some s => negb (String.eqb s "")
  | None => false
  end.

(** The condition of line 227. *)
Definition search_not_configured : bool :=
  negb (env_truthy (GOOGLE_SEARCH_API_KEY S))
  || negb (env_truthy (GOOGLE_CSE_ID S))
  || bool_decide (GOOGLE_SEARCH_API_KEY S = Some "your-google-search-api-key").

(** One of the three dicts of lines 230-254; [colors] and [n] are what
    tells them apart. *)
Definition sample_image (colors n query : string) : pyval :=
  PDict (mkdict
    [ ("url", PStr ("https://via.placeholder.com/150/" +:+ colors +:+ "?text=Sample+"
                    +:+ PyText.replace_char " " "+" query +:+ "+" +:+ n));
      ("title", PStr ("Sample Image " +:+ n +:+ " for " +:+ query));
      ("context_url", PStr "https://example.com");
      ("thumbnail", PStr ("https://via.placeholder.com/50/" +:+ colors +:+ "?text=S" +:+ n));
      ("width", PInt 150);
      ("height", PInt 150) ]).

Definition sample_images (query : string) : list pyval :=
  [ sample_image "0000FF/808080" "1" query;
    sample_image "FF0000/FFFFFF" "2" query;
    sample_image "00FF00/000000" "3" query ].

(** The dict [image_data] built from one [item] (lines 283-290). *)
Definition image_data (item : pyval) : res dict :=
  fields ← get_method item;
  image ← get_method (Py.get fields "image" (PDict ∅));
  Ok (mkdict
        [ ("url", Py.get fields "link" PNone);
          ("title", Py.get fields "title" PNone);
          ("context_url", Py.get image "contextLink" PNone);
          ("thumbnail", Py.get image "thumbnailLink" PNone);
          ("width", Py.get image "width" PNone);
          ("height", Py.get image "height" PNone) ]).

(** The loop of lines 282-293: the images appended from [items] on. *)
Fixpoint collect_images (items : list pyval) : res (list pyval) :=
  match items with
  | [] => Ok []
  | item :: rest =>
      image_data ← image_data item;
      images ← collect_images rest;
      Ok (if Py.truthy (Py.get image_data "url" PNone)
             && Py.truthy (Py.get image_data "thumbnail" PNone)
          then PDict image_data :: images else images)
  end.

(** Lines 280-295, on the value of [response.json()]. *)
Definition extract_images (search_results : pyval) : res (list pyval) :=
  has_items ← PyNum.contains_key "items" search_results;
  if has_items : bool then
    items ← PyNum.subscript_key search_results "items";
    items ← iterate items;
    collect_images items
  else Ok [].

(** [search_images(query, num_results)] (function.py, 215-311): every
    exception of the [try] is answered with the empty list. *)
Definition search_images (query : string) (num_results : Z) : list pyval :=
  if search_not_configured then PyText.slice_to num_results (sample_images query)
  else
    let num_results := Z.min (Z.max 1 num_results) 10 in
    let encoded_query := quote_plus S query in
    match custom_search S (default "" (GOOGLE_SEARCH_API_KEY S))
                        (default "" (GOOGLE_CSE_ID S)) encoded_query num_results
          ≫= extract_images with
    | Ok images => images
    | Raise _ => []
    end.

(** The comprehension of line 326. *)
Fixpoint image_urls (images : list pyval) : res (list pyval) :=
  match images with
  | [] => Ok []
  | image :: rest =>
      fields ← get_method image;
      if Py.truthy (Py.get fields "url" PNone) then
        url ← PyNum.subscript_key image "url";
        urls ← image_urls rest;
        Ok (url :: urls)
      else image_urls rest
  end.

(** [get_image_urls(query, num_results)] (function.py, 314-326) *)
Definition get_image_urls (query : string) (num_results : Z) : res (list pyval) :=
  image_urls (search_images query num_results).

End SingleTurn.

(* ===================================================================== *)
(** ** app.py: the single-turn routes and the image route *)
(* ===================================================================== *)

Section Routes.

Context (W : world) (S : services).

(** [gemini_prompt_route(data)] (app.py, 52-69).  [isinstance(result,
    dict)] holds of every value of [gemini_text]. *)
Definition gemini_prompt_route (data : string) : http_response :=
  if negb (Py.truthy (PStr data)) then
    data_response 400
      (mkdict [ ("response", PStr "No input data provided.");
                ("Disclaimer", PStr STANDARD_DISCLAIMER) ])
  else
    match gemini_text W S data with
    | Ok result => data_response 200 result
    | Raise e =>
        data_response 500
          (mkdict [ ("response",
                     PStr ("Sorry, an error occurred processing your request: "
                           +:+ exn_msg e));
                    ("Disclaimer", PStr STANDARD_DISCLAIMER) ])
    end.

(** The payload of the handler of [gemini_generic_route] (lines 90-99). *)
Definition generic_error_payload (msg : string) : dict :=
  mkdict
    [ ("Symptoms", PStr "."); ("Remedies", PStr ""); ("Precautions", PStr "");
      ("Guidelines", PStr ""); ("is_medical_related_prompt", PStr "No");
      ("medication", PList []); ("Disclaimer", PStr STANDARD_DISCLAIMER);
      ("error", PStr ("An error occurred: " +:+ msg)) ].

(** [gemini_generic_route(data)] (app.py, 72-99) *)
Definition gemini_generic_route (data : string) : http_response :=
  if negb (Py.truthy (PStr data)) then
    data_response 400
      (mkdict [ ("is_medical_related_prompt", PStr "No");
                ("Disclaimer", PStr STANDARD_DISCLAIMER);
                ("error", PStr "No input data") ])
  else
    match gemini_generic W S data with
    | Ok result =>
        if negb (Py.has_key result "is_medical_related_prompt") then
          data_response 500
            (generic_error_payload "Invalid response type from gemini_generic")
        else data_response 200 result
    | Raise e => data_response 500 (generic_error_payload (exn_msg e))
    end.

(** What [search_images_route] hands to Flask: the status code and the
    list given to [jsonify]. *)
Record list_response : Type := mk_list_response { list_status : Z; urls : list pyval }.

(** The placeholder URLs of the handler (lines 226-231). *)
Definition fallback_urls (search_term : string) (num_results : Z) : list pyval :=
  let safe_term := String.substring 0 20 (PyText.replace_char " " "-" search_term) in
  PyText.slice_to num_results
    (PStr <$>
       [ "https://via.placeholder.com/150/FF0000/FFFFFF?text=Error+1+" +:+ safe_term;
         "https://via.placeholder.com/150/FF0000/FFFFFF?text=Error+2+" +:+ safe_term;
         "https://via.placeholder.com/150/FF0000/FFFFFF?text=Error+3+" +:+ safe_term ]).

(** [search_images_route(search_term)] (app.py, 210-235).  The value of
    [get_image_urls] is a list whenever there is one. *)
Definition search_images_route (search_term : string) : list_response :=
  if negb (Py.truthy (PStr search_term)) then mk_list_response 400 []
  else
    let num_results := 3 in
    match get_image_urls S search_term num_results with
    | Ok image_urls => mk_list_response 200 image_urls
    | Raise _ => mk_list_response 500 (fallback_urls search_term num_results)
    end.

End Routes.

(* ===================================================================== *)
(** ** app.py: registration, login, logout and the dashboards *)
(* ===================================================================== *)

(** What the views read of a row of [Doctor] or of [User]. *)
Record account : Type := mk_account { account_id : pyval; account_name : string }.

(** [db.session.add(row)] followed by [db.session.commit()]: the table and
    the keyword arguments of the row's constructor, [created_at] apart. *)
Inductive db_event : Type :=
| DbAdd (table : string) (row : list (string * string)).

(** The database behind [models.py], which is not among the sources, as
    the queries the views make.  A row object is truthy. *)
Record database : Type := mk_database {
  (** [Doctor.query.filter_by(email=email).first()] *)
  doctor_by_email : string -> res (option account);
  (** [Doctor.query.filter_by(email=email, password=password).first()] *)
  doctor_by_login : string -> string -> res (option account);
  (** [Doctor.query.get(id)] *)
  doctor_by_id : pyval -> res (option account);
  (** [db.session.add(doctor)], [db.session.commit()] and the [doctor.id]
      read afterwards *)
  add_doctor : list (string * string) -> res pyval;
  (** the same for [User] *)
  user_by_email : string -> res (option account);
  user_by_login : string -> string -> res (option account);
  user_by_id : pyval -> res (option account);
  add_user : list (string * string) -> res pyval
}.

(** What a view returns: [redirect(url_for(endpoint))] or
    [render_template(template, message=..., doctor=... / user=...)]. *)
Inductive view_result : Type :=
| Redirect (endpoint : string)
| Render (template : string) (message : option string) (row : option account).

(** The outcome of a view: what it returns or the exception that leaves
    it, the session afterwards and what it wrote to the database. *)
Record view : Type := mk_view {
  result : res view_result;
  session_after : dict;
  db_events : list db_event
}.

(** [request.form[k]]: a missing field raises werkzeug's
    [BadRequestKeyError], which Flask answers with status 400. *)
Definition form_item (form : gmap string string) (k : string) : res string :=
  match form !! k with
  | Some v => Ok v
  | None => raise (OtherException "BadRequestKeyError") k
  end.

(** [flash(message, category)], as Flask implements it: the pair is
    appended to the list kept under ["_flashes"] in the session. *)
Definition flash (message category : string) (session : dict) : dict :=
  let flashes :=
    match session !! "_flashes" with
    | Some (PList flashes) => flashes
    | _ => []
    end in
  <["_flashes" := PList (flashes ++ [PList [PStr category; PStr message]])]> session.

(** The three assignments to [session] after a registration or a login. *)
Definition log_in (id : pyval) (name user_type : string) (session : dict) : dict :=
  <["user_type" := PStr user_type]>
    (<["user_name" := PStr name]> (<["user_id" := id]> session)).

Section Accounts.

Context (DB : database).

(** [register_doctor()] (app.py, 243-280) on a request with the given
    method and form.  [doctor.full_name], read after the commit, is the
    name that was stored. *)
Definition register_doctor (method : string) (form : gmap string string)
    (session : dict) : view :=
  if String.eqb method "POST" then
    match
      full_name ← form_item form "full_name";
      email ← form_item form "email";
      phone ← form_item form "phone";
      password ← form_item form "password";
      license_number ← form_item form "license_number";
      location ← form_item form "location";
      affiliation ← form_item form "affiliation";
      specialization ← form_item form "specialization";
      existing ← doctor_by_email DB email;
      Ok (existing,
          [ ("full_name", full_name); ("email", email); ("phone", phone);
            ("password", password); ("specialization", specialization);
            ("license_number", license_number); ("location", location);
            ("affiliation", affiliation) ],
          full_name)
    with
    | Raise e => mk_view (Raise e) session []
    | Ok (Some _, _, _) =>
        mk_view (Ok (Render "login.html"
                       (Some "Email already registered, Please Login .") None))
                session []
    | Ok (None, doctor, full_name) =>
        match add_doctor DB doctor with
        | Raise e => mk_view (Raise e) session [DbAdd "doctor" doctor]
        | Ok id =>
            mk_view (Ok (Redirect "dashboard_doctor"))
                    (flash "Doctor registered successfully!" "success"
                       (log_in id full_name "doctor" session))
                    [DbAdd "doctor" doctor]
        end
    end
  else mk_view (Ok (Render "doctor_register.html" None None)) session [].

(** [dashboard_doctor()] (app.py, 283-294) *)
Definition dashboard_doctor (session : dict) : view :=
  if negb (Py.has_key session "user_id")
     || negb (Py.eq_str (Py.get session "user_type" PNone) "doctor") then
    mk_view (Ok (Redirect "login"))
            (flash "Access denied. Please login as a doctor." "error" session) []
  else
    match id ← Py.getitem session "user_id"; doctor_by_id DB id with
    | Raise e => mk_view (Raise e) session []
    | Ok None =>
        mk_view (Ok (Redirect "login")) (flash "Doctor not found." "error" session) []
    | Ok (Some doctor) =>
        mk_view (Ok (Render "dashboard_doctor.html" None (Some doctor))) session []
    end.

(** [register_user()] (app.py, 297-341) *)
Definition register_user (method : string) (form : gmap string string)
    (session : dict) : view :=
  if String.eqb method "POST" then
    match
      full_name ← form_item form "full_name";
      email ← form_item form "email";
      phone ← form_item form "phone";
      landmark ← form_item form "landmark";
      location ← form_item form "location";
      password ← form_item form "password";
      age ← form_item form "age";
      gender ← form_item form "gender";
      condition ← form_item form "condition";
      medications ← form_item form "medications";
      allergies ← form_item form "allergies";
      existing ← user_by_email DB email;
      Ok (existing,
          [ ("full_name", full_name); ("email", email); ("phone", phone);
            ("landmark", landmark); ("location", location); ("password", password);
            ("age", age); ("gender", gender); ("condition", condition);
            ("medications", medications); ("allergies", allergies) ],
          full_name)
    with
    | Raise e => mk_view (Raise e) session []
    | Ok (Some _, _, _) =>
        mk_view (Ok (Render "login.html"
                       (Some "Email already registered, Please Login .") None))
                session []
    | Ok (None, user, full_name) =>
        match add_user DB user with
        | Raise e => mk_view (Raise e) session [DbAdd "user" user]
        | Ok id =>
            mk_view (Ok (Redirect "dashboard_user"))
                    (flash "User registered successfully!" "success"
                       (log_in id full_name "user" session))
                    [DbAdd "user" user]
        end
    end
  else mk_view (Ok (Render "user_register.html" None None)) session [].

(** [dashboard_user()] (app.py, 343-354) *)
Definition dashboard_user (session : dict) : view :=
  if negb (Py.has_key session "user_id")
     || negb (Py.eq_str (Py.get session "user_type" PNone) "user") then
    mk_view (Ok (Redirect "login"))
            (flash "Unauthorized access. Please login." "error" session) []
  else
    match id ← Py.getitem session "user_id"; user_by_id DB id with
    | Raise e => mk_view (Raise e) session []
    | Ok None =>
        mk_view (Ok (Redirect "login")) (flash "User not found!" "error" session) []
    | Ok (Some user) =>
        mk_view (Ok (Render "dashboard_user.html" None (Some user))) session []
    end.

(** [login()] (app.py, 357-385): both tables are queried before the
    outcome is decided. *)
Definition login (method : string) (form : gmap string string) (session : dict)
  : view :=
  if String.eqb method "POST" then
    match
      email ← form_item form "email";
      password ← form_item form "password";
      doctor ← doctor_by_login DB email password;
      user ← user_by_login DB email password;
      Ok (doctor, user)
    with
    | Raise e => mk_view (Raise e) session []
    | Ok (Some doctor, _) =>
        mk_view (Ok (Redirect "dashboard_doctor"))
                (flash "Doctor logged in successfully!" "success"
                   (log_in (account_id doctor) (account_name doctor) "doctor" session))
                []
    | Ok (None, Some user) =>
        mk_view (Ok (Redirect "dashboard_user"))
                (flash "User logged in successfully!" "success"
                   (log_in (account_id user) (account_name user) "user" session))
                []
    | Ok (None, None) =>
        mk_view (Ok (Render "login.html"
                       (Some "Invalid email or password. Please try again.") None))
                session []
    end
  else mk_view (Ok (Render "login.html" None None)) session [].

End Accounts.

(** [logout()] (app.py, 388-392) *)
Definition logout (session : dict) : view :=
  mk_view (Ok (Redirect "index")) (flash "Logged out successfully." "success" ∅) [].

(** *** Further worlds used in examples *)

(** [{"needs_follow_up": true, "follow_up_type": "scale",
      "follow_up_question": "", "Symptoms": "Headache."}] *)
Definition scale_reply_text : string :=
  "{" +:+ jstr "needs_follow_up" +:+ ": true, "
      +:+ jstr "follow_up_type" +:+ ": " +:+ jstr "scale" +:+ ", "
      +:+ jstr "follow_up_question" +:+ ": " +:+ jstr "" +:+ ", "
      +:+ jstr "Symptoms" +:+ ": " +:+ jstr "Headache." +:+ "}".

Definition scale_reply : pyval :=
  PDict (mkdict [ ("needs_follow_up", PBool true);
                  ("follow_up_type", PStr "scale");
                  ("follow_up_question", PStr "");
                  ("Symptoms", PStr "Headache.") ]).

Definition scale_world : world := scripted_world scale_reply_text scale_reply.

(** *** Specification-side definitions for the further properties *)

(** The first character after ["INSTRUCTION: "] tells the instructions
    apart. *)
Definition instruction_tag (prefix : string) : option ascii := String.get 13 prefix.

(** An entry of the history handed to [start_chat]: a dict with a role
    and a list of strings as parts. *)
Definition is_chat_turn (v : pyval) : bool :=
  match v with
  | PDict e =>
      Py.has_key e "role" &&
      match e !! "parts" with
      | Some (PList parts) => forallb Py.is_str parts
      | _ => false
      end
  | _ => false
  end.

Definition is_letter (c : ascii) : bool := PyStr.is_upper c || PyStr.is_lower c.

Definition all_letters (s : string) : bool :=
  forallb is_letter (list_ascii_of_string s).

Definition starts_upper (s : string) : bool :=
  match s with
  | String c _ => PyStr.is_upper c
  | EmptyString => false
  end.

(** [''.join(l)] *)
Definition join_strings (l : list string) : string := foldr String.append "" l.

(** A capitalised word: what [[A-Z][a-z]*] matches. *)
Definition is_capitalised_word (s : string) : bool :=
  match s with
  | String c lows => PyStr.is_upper c && all_lower lows
  | EmptyString => false
  end.

(** A word: a non-empty string without space characters. *)
Definition no_space (s : string) : bool :=
  forallb (fun c => negb (PyStr.is_ascii_space c)) (list_ascii_of_string s).

Definition is_word (s : string) : bool :=
  negb (String.eqb s "") && no_space s.

(** *** Services used in examples *)

(** Services whose regular-expression substitutions change nothing, whose
    model answers every message with [reply_text] and whose image search
    answers [search]. *)
Definition scripted_services (reply_text : string) (search : res pyval) : services :=
  mk_services
    (fun _ _ s _ => s)
    (Ok tt) (fun _ => Ok (mk_response (Ok reply_text)))
    (Ok tt) (fun _ => Ok (mk_response (Ok reply_text)))
    (Some "key") (Some "cx") (fun s => s)
    (fun _ _ _ _ => search).

(** Services without credentials for the image search and without access
    to the model. *)
Definition unconfigured_services : services :=
  mk_services
    (fun _ _ s _ => s)
    (raise (OtherException "PermissionDenied") "API key not valid")
    (fun _ => raise (OtherException "ServiceUnavailable") "503")
    (raise (OtherException "PermissionDenied") "API key not valid")
    (fun _ => raise (OtherException "ServiceUnavailable") "503")
    None None (fun s => s)
    (fun _ _ _ _ => raise (OtherException "ConnectionError") "no route to host").

(** [{"response": "**Rest** and drink fluids.", "Disclaimer": "none"}] *)
Definition markdown_reply_text : string :=
  "{" +:+ jstr "response" +:+ ": " +:+ jstr "**Rest** and  drink fluids." +:+ ", "
      +:+ jstr "Disclaimer" +:+ ": " +:+ jstr "none" +:+ "}".

Definition markdown_reply : pyval :=
  PDict (mkdict [ ("response", PStr "**Rest** and  drink fluids.");
                  ("Disclaimer", PStr "none") ]).

Definition markdown_world : world := scripted_world markdown_reply_text markdown_reply.

(** The seven fields both single-turn functions default. *)
Definition single_turn_fields : list string :=
  ["Symptoms"; "Remedies"; "Precautions"; "Guidelines";
   "is_medical_related_prompt"; "medication"; "Disclaimer"].

(** An image the search may return: a dict with a truthy url and a truthy
    thumbnail. *)
Definition is_valid_image (v : pyval) : bool :=
  match v with
  | PDict d =>
      Py.truthy (Py.get d "url" PNone) && Py.truthy (Py.get d "thumbnail" PNone)
  | _ => false
  end.

(** The url of an image. *)
Definition image_url (v : pyval) : pyval :=
  match v with
  | PDict d => Py.get d "url" PNone
  | _ => PNone
  end.

(** [{"items": [{"link": "https://img.example/1.png",
                 "image": {"thumbnailLink": "https://img.example/t1.png"}},
                {"link": "https://img.example/2.png", "image": null}]}] *)
Definition search_answer : pyval :=
  PDict (mkdict
    [ ("items",
       PList [ PDict (mkdict
                 [ ("link", PStr "https://img.example/1.png");
                   ("image", PDict (mkdict
                      [("thumbnailLink", PStr "https://img.example/t1.png")])) ]);
               PDict (mkdict
                 [ ("link", PStr "https://img.example/2.png");
                   ("image", PNone) ]) ]) ]).

(** *** Databases and forms used in examples *)

(** A database with one doctor and one user who share their email and
    password. *)
Definition shared_login_database : database :=
  mk_database
    (fun _ => Ok None)
    (fun _ _ => Ok (Some (mk_account (PInt 1) "Dr. Rao")))
    (fun _ => Ok (Some (mk_account (PInt 1) "Dr. Rao")))
    (fun _ => Ok (PInt 2))
    (fun _ => Ok None)
    (fun _ _ => Ok (Some (mk_account (PInt 1) "Asha")))
    (fun _ => Ok (Some (mk_account (PInt 1) "Asha")))
    (fun _ => Ok (PInt 2)).

(** An empty database. *)
Definition empty_database : database :=
  mk_database
    (fun _ => Ok None) (fun _ _ => Ok None) (fun _ => Ok None) (fun _ => Ok (PInt 1))
    (fun _ => Ok None) (fun _ _ => Ok None) (fun _ => Ok None) (fun _ => Ok (PInt 1)).

Definition login_form : gmap string string :=
  list_to_map [("email", "a@b.org"); ("password", "hunter2")].

Definition doctor_form : gmap string string :=
  list_to_map
    [ ("full_name", "Dr. Rao"); ("email", "a@b.org"); ("phone", "555");
      ("password", "hunter2"); ("license_number", "L1"); ("location", "Pune");
      ("affiliation", "City Hospital"); ("specialization", "ENT") ].

(** The instruction of a later turn, for a step and an estimate given as
    integers. *)
Definition later_turn_prompting (step estimate : Z) : prompting :=
  mk_prompting
    (if estimate <=? step
     then sufficient_info_prefix (pretty step) (pretty estimate)
     else continuing_prefix (pretty step) (pretty estimate))
    step (PInt estimate).

(** [{"current_step": 3, "total_steps": 0}] *)
Definition progress_text : string :=
  "{" +:+ jstr "current_step" +:+ ": 3, " +:+ jstr "total_steps" +:+ ": 0}".

Definition progress_world : world :=
  scripted_world progress_text
    (PDict (mkdict [("current_step", PInt 3); ("total_steps", PInt 0)])).



(* ===================================================================== *)
(** ** Basic facts about [res], dict access and the enforcement steps *)
(* ===================================================================== *)

Lemma bind_Ok {A B} (m : res A) (f : A -> res B) (b : B) :
  m ≫= f = Ok b <-> exists a, m = Ok a /\ f a = Ok b.
Proof.
  destruct m as [a|e]; simpl; split.
  - intros H. exists a. auto.
  - intros (a' & Ha & Hf). congruence.
  - discriminate.
  - intros (a' & Ha & _). discriminate.
Qed.

Lemma getitem_Ok (d : dict) k v : Py.getitem d k = Ok v <-> d !! k = Some v.
Proof.
  unfold Py.getitem, raise. destruct (d !! k); split; intros H; congruence.
Qed.

Lemma get_lookup (d : dict) k v dflt : d !! k = Some v -> Py.get d k dflt = v.
Proof. unfold Py.get. intros ->. reflexivity. Qed.

Lemma setdefault_lookup_ne k k' v (d : dict) :
  k <> k' -> Py.setdefault k v d !! k' = d !! k'.
Proof.
  intros Hne. unfold Py.setdefault. destruct (d !! k); [done|].
  by rewrite lookup_insert_ne.
Qed.

Lemma setdefault_lookup k v (d : dict) :
  Py.setdefault k v d !! k = Some (default v (d !! k)).
Proof.
  unfold Py.setdefault. destruct (d !! k) eqn:E; simpl; [done|].
  by rewrite lookup_insert_eq.
Qed.

Lemma setdefault_is_Some k k' v (d : dict) :
  is_Some (d !! k') -> is_Some (Py.setdefault k v d !! k').
Proof.
  intros H. destruct (decide (k = k')) as [->|Hne].
  - rewrite setdefault_lookup. eauto.
  - by rewrite setdefault_lookup_ne.
Qed.

Lemma truthy_bool v b : v = PBool b -> Py.truthy v = b.
Proof. intros ->. reflexivity. Qed.

Lemma is_ok_true {A} (r : res A) : is_ok r = true -> exists a, r = Ok a.
Proof. destruct r; [eauto | discriminate]. Qed.

Lemma Ok_inj {A} (a b : A) : Ok a = Ok b -> a = b.
Proof. congruence. Qed.

(** Closes [lhs = rhs] by evaluating both sides. *)
Ltac by_compute :=
  lazymatch goal with
  | |- _ = ?rhs => vm_cast_no_check (eq_refl rhs)
  end.

Ltac not_in :=
  cbv [In early_keys follow_up_keys other_keys enforce_keys all_keys sanity_keys app];
  intuition discriminate.

Ltac res_inv :=
  repeat match goal with
  | H : _ ≫= _ = Ok _ |- _ => apply bind_Ok in H as (? & ? & H)
  | H : Py.getitem _ _ = Ok _ |- _ => apply getitem_Ok in H
  | H : Ok _ = Ok _ |- _ => apply Ok_inj in H; try subst
  | H : Raise _ = Ok _ |- _ => discriminate H
  | H : raise _ _ = Ok _ |- _ => discriminate H
  end.

Lemma fill_if_empty_ne k text k' (d : dict) :
  k <> k' -> fill_if_empty k text d !! k' = d !! k'.
Proof.
  intros Hne. unfold fill_if_empty.
  destruct (negb _); [by rewrite lookup_insert_ne | done].
Qed.

Lemma fill_trivial_fields_ne k (d : dict) :
  ~ In k ["Symptoms"; "Remedies"; "Precautions"; "Guidelines"] ->
  fill_trivial_fields d !! k = d !! k.
Proof.
  intros Hk. unfold fill_trivial_fields.
  simpl in Hk.
  rewrite !fill_if_empty_ne by intuition.
  destruct (_ || _); [rewrite lookup_insert_ne by intuition|]; done.
Qed.

Lemma enforce_complete_spec (d d' : dict) :
  enforce_complete d = Ok d' ->
  exists complete,
    d !! "conversation_complete" = Some complete /\
    d' !! "conversation_complete" = Some complete /\
    d' !! "is_medical_related" = d !! "is_medical_related" /\
    d' !! "is_medical_related_prompt" = d !! "is_medical_related_prompt" /\
    (Py.truthy complete = false -> d' = d) /\
    (Py.truthy complete = true ->
       d' !! "needs_follow_up" = Some (PBool false) /\
       d' !! "follow_up_question" = Some (PStr "") /\
       forall medical, d !! "is_medical_related" = Some medical ->
         Py.truthy medical = true ->
         d' !! "can_provide_structured_response" = Some (PBool true)).
Proof.
  unfold enforce_complete. intros H. res_inv.
  rename x into complete. exists complete. split; [done|].
  destruct (Py.truthy complete) eqn:Hc; res_inv.
  - rename x into medical.
    assert (Hm : d !! "is_medical_related" = Some medical) by (by simplify_map_eq).
    destruct (Py.truthy medical) eqn:Hmed; res_inv.
    + rewrite !fill_trivial_fields_ne by not_in. simplify_map_eq.
      repeat split; try done.
    + simplify_map_eq. repeat split; try done.
      intros m' Hm' Ht. congruence.
  - repeat split; try done.
Qed.

Lemma enforce_non_medical_spec (d d' : dict) :
  enforce_non_medical d = Ok d' ->
  exists medical,
    d !! "is_medical_related" = Some medical /\
    ((Py.truthy medical = true /\ d' = d) \/
     (Py.truthy medical = false /\ d' = clear_structured_fields d)).
Proof.
  unfold enforce_non_medical. intros H. res_inv.
  exists x. split; [done|].
  destruct (Py.truthy x); simpl in H; res_inv; auto.
Qed.

Lemma clear_structured_fields_cleared (d : dict) : cleared (clear_structured_fields d).
Proof. unfold cleared, clear_structured_fields. by simplify_map_eq. Qed.

Lemma cleared_insert_prompt (d : dict) v :
  cleared d -> cleared (<["is_medical_related_prompt" := v]> d).
Proof. unfold cleared. by rewrite !lookup_insert_ne by done. Qed.

Lemma clear_structured_fields_ne k (d : dict) :
  ~ In k ["can_provide_structured_response"; "Symptoms"; "Remedies"; "Precautions";
          "Guidelines"; "medication"; "needs_follow_up"; "conversation_complete"] ->
  clear_structured_fields d !! k = d !! k.
Proof.
  intros Hk. unfold clear_structured_fields. simpl in Hk.
  rewrite !lookup_insert_ne by intuition. done.
Qed.

Lemma eq_str_true v s : Py.eq_str v s = true <-> v = PStr s.
Proof.
  destruct v; simpl; try (split; [discriminate|congruence]).
  rewrite String.eqb_eq. split; congruence.
Qed.

Lemma eq_str_false v s : Py.eq_str v s = false <-> v <> PStr s.
Proof.
  rewrite <- eq_str_true. destruct (Py.eq_str v s); split; congruence.
Qed.

Lemma sync_medical_flags_spec (d d' : dict) :
  sync_medical_flags d = Ok d' ->
  exists medical prompt prompt',
    d !! "is_medical_related" = Some medical /\
    d !! "is_medical_related_prompt" = Some prompt /\
    d' = <["is_medical_related_prompt" := prompt']> d /\
    (Py.truthy medical = true -> prompt' <> PStr "No") /\
    (Py.truthy medical = false -> prompt' <> PStr "Yes") /\
    (prompt' = prompt \/
     prompt' = PStr (if Py.truthy medical then "Yes" else "No")).
Proof.
  unfold sync_medical_flags. intros H. res_inv.
  rename x into medical, x0 into prompt. exists medical, prompt.
  destruct (Py.truthy medical) eqn:Hm; simpl in H.
  - destruct (Py.eq_str prompt "No") eqn:Hp; res_inv.
    + exists (PStr "Yes"). repeat split; try done. by right.
    + exists prompt. apply eq_str_false in Hp.
      repeat split; try done; [by rewrite insert_id | by left].
  - destruct (Py.eq_str prompt "Yes") eqn:Hp; res_inv.
    + exists (PStr "No"). repeat split; try done. by right.
    + exists prompt. apply eq_str_false in Hp.
      repeat split; try done; [by rewrite insert_id | by left].
Qed.

Lemma enforce_logic_consistent (d g : dict) :
  enforce_logic d = Ok g -> consistent g.
Proof.
  unfold enforce_logic. intros H. res_inv.
  rename x into d3, x0 into d4.
  apply enforce_complete_spec in H0 as (complete & Hc2 & Hc3 & Hm3 & Hp3 & Hno & Hyes).
  apply enforce_non_medical_spec in H1 as (medical & Hmed & Hcase).
  apply sync_medical_flags_spec in H
    as (medical' & prompt & prompt' & Hmed4 & Hprompt & -> & HnoNo & HnoYes & _).
  destruct Hcase as [[Ht ->]|[Hf ->]].
  - assert (medical' = medical) as -> by congruence.
    exists complete, medical, prompt'.
    rewrite lookup_insert_eq, !lookup_insert_ne by done.
    split_and!; try done.
    + intros Hc. by apply Hyes.
    + intros Hc _. destruct (Hyes Hc) as (_ & Hq & Hcps).
      split; [done|]. apply (Hcps medical); [congruence | done].
    + congruence.
  - rewrite clear_structured_fields_ne in Hmed4 by not_in.
    assert (medical' = medical) as -> by congruence.
    exists (PBool true), medical, prompt'.
    pose proof (cleared_insert_prompt _ prompt' (clear_structured_fields_cleared d3))
      as Hcl.
    split_and!; try done; try congruence.
    + apply Hcl.
    + rewrite lookup_insert_ne by done.
      by rewrite clear_structured_fields_ne by not_in.
    + by rewrite lookup_insert_eq.
    + intros _. apply Hcl.
Qed.

(** *** Sequences of assignments *)

Section Updates.

Context (P : string -> pyval -> Prop).

Lemma updates_trans (d1 d2 d3 : dict) :
  updates P d1 d2 -> updates P d2 d3 -> updates P d1 d3.
Proof. intros H12 H23. induction H23; [done|]. by constructor; auto. Qed.

Lemma updates_one (d : dict) k v : P k v -> updates P d (<[k := v]> d).
Proof. intros H. constructor; [constructor | done]. Qed.

Lemma updates_if (b : bool) (d : dict) k v :
  (b = true -> P k v) -> updates P d (if b then <[k := v]> d else d).
Proof. destruct b; intros H; [apply updates_one; auto | constructor]. Qed.

Lemma updates_setdefault (d : dict) k v :
  (d !! k = None -> P k v) -> updates P d (Py.setdefault k v d).
Proof.
  intros H. unfold Py.setdefault. destruct (d !! k) eqn:E.
  - constructor.
  - apply updates_one. auto.
Qed.

Lemma updates_frame (d d' : dict) k0 :
  (forall k v, P k v -> k <> k0) -> updates P d d' -> d' !! k0 = d !! k0.
Proof.
  intros HP H. induction H as [|d d' k v H IH Hk]; [done|].
  rewrite lookup_insert_ne; [done|]. by eapply HP.
Qed.

Lemma updates_keeps_keys (d d' : dict) k :
  updates P d d' -> is_Some (d !! k) -> is_Some (d' !! k).
Proof.
  intros H Hk. induction H as [|d d' k' v H IH Hk']; [done|].
  destruct (decide (k' = k)) as [->|Hne].
  - rewrite lookup_insert_eq. eauto.
  - rewrite lookup_insert_ne by done. auto.
Qed.


End Updates.

Lemma updates_weaken (P Q : string -> pyval -> Prop) (d d' : dict) :
  (forall k v, P k v -> Q k v) -> updates P d d' -> updates Q d d'.
Proof. intros HPQ H. induction H; constructor; auto. Qed.

Lemma writes_weaken keys untyped keys' untyped' k v :
  incl keys keys' -> incl untyped untyped' ->
  writes keys untyped k v -> writes keys' untyped' k v.
Proof.
  intros Hk Hu [Hin Ht]. split; [by apply Hk|].
  intros Hn. apply Ht. intros Hin'. apply Hn. by apply Hu.
Qed.

Lemma updates_writes_weaken keys untyped keys' untyped' (d d' : dict) :
  incl keys keys' -> incl untyped untyped' ->
  updates (writes keys untyped) d d' -> updates (writes keys' untyped') d d'.
Proof. intros Hk Hu. apply updates_weaken. intros k v. by apply writes_weaken. Qed.

Lemma updates_writes_frame keys untyped (d d' : dict) k0 :
  ~ In k0 keys -> updates (writes keys untyped) d d' -> d' !! k0 = d !! k0.
Proof.
  intros Hk. apply updates_frame. intros k v [Hin _] ->. by apply Hk.
Qed.


(** Side conditions of [writes] on concrete keys and values. *)
Ltac typed_value_tac :=
  let t := fresh "t" in let Ht := fresh "Ht" in
  intros t Ht; vm_compute in Ht;
  first [ discriminate Ht
        | injection Ht as <-; try reflexivity ].

Lemma strs_typed l : has_type TStrList (strs l) = true.
Proof.
  unfold strs. simpl. induction l as [|a l IH]; [done|].
  rewrite fmap_cons. simpl. exact IH.
Qed.

Ltac writes_tac :=
  split;
  [ simpl; tauto
  | first [ let Hn := fresh in intros Hn; exfalso; apply Hn; simpl; tauto
          | intros _; typed_value_tac; auto using strs_typed;
            try (destruct (Py.truthy _); reflexivity) ] ].

(** *** Each step of the post-processing as a sequence of assignments *)

Lemma updates_setdefault_after P (d d1 : dict) k v :
  updates P d d1 -> (d1 !! k = None -> P k v) -> updates P d (Py.setdefault k v d1).
Proof. intros H Hk. eapply updates_trans; [done|]. by apply updates_setdefault. Qed.

Lemma updates_if_after P (b : bool) (d d1 : dict) k v :
  updates P d d1 -> (b = true -> P k v) ->
  updates P d (if b then <[k := v]> d1 else d1).
Proof. intros H Hk. eapply updates_trans; [done|]. by apply updates_if. Qed.

Lemma set_progress_updates p (d : dict) :
  updates (writes early_keys ["total_steps"]) d (set_progress p d).
Proof.
  unfold set_progress.
  repeat (apply updates_if_after; [|intros _; writes_tac]). apply updates_refl.
Qed.

Lemma set_follow_up_defaults_updates (d : dict) :
  updates (writes follow_up_keys []) d (set_follow_up_defaults d).
Proof.
  unfold set_follow_up_defaults.
  apply updates_setdefault_after; [|intros _; writes_tac].
  apply updates_setdefault_after.
  - apply updates_setdefault_after; [apply updates_refl|intros _; writes_tac].
  - intros Hnone. unfold Py.get at 2. rewrite Hnone. simpl.
    destruct (negb _); writes_tac.
Qed.

Lemma scale_question_str (d : dict) q : scale_question d = Ok q -> exists s, q = PStr s.
Proof. unfold scale_question. intros H. res_inv. eauto. Qed.

Lemma fill_missing_options_updates {W} t o (d d' : dict) :
  fill_missing_options W t o d = Ok d' -> updates (writes follow_up_keys []) d d'.
Proof.
  unfold fill_missing_options. intros H.
  repeat match type of H with
         | (if ?c then _ else _) = _ => destruct c
         | _ ≫= _ = Ok _ => apply bind_Ok in H as (? & ? & H)
         end;
    res_inv; first [ apply updates_refl | apply updates_one; writes_tac ].
Qed.

Lemma convert_text_follow_up_updates {W} t (d d' : dict) :
  convert_text_follow_up W t d = Ok d' -> updates (writes follow_up_keys []) d d'.
Proof.
  unfold convert_text_follow_up. intros H.
  repeat match type of H with
         | (if ?c then _ else _) = _ => destruct c
         | _ ≫= _ = Ok _ => apply bind_Ok in H as (? & ? & H)
         end;
    res_inv;
    try match goal with
        | H : scale_question _ = Ok _ |- _ => apply scale_question_str in H as [s ->]
        end;
    repeat (apply updates_insert; [|writes_tac]); apply updates_refl.
Qed.

Lemma complete_follow_up_updates {W} (d d' : dict) :
  complete_follow_up W d = Ok d' -> updates (writes follow_up_keys []) d d'.
Proof.
  unfold complete_follow_up. intros H.
  destruct (Py.truthy _); res_inv; [|apply updates_refl].
  eapply updates_trans;
    eauto using fill_missing_options_updates, convert_text_follow_up_updates.
Qed.

Lemma ensure_scale_question_updates (d d' : dict) :
  ensure_scale_question d = Ok d' -> updates (writes follow_up_keys []) d d'.
Proof.
  unfold ensure_scale_question. intros H.
  destruct (_ && _); res_inv; [|apply updates_refl].
  match goal with
  | H : scale_question _ = Ok _ |- _ => apply scale_question_str in H as [s ->]
  end.
  apply updates_one; writes_tac.
Qed.

Lemma set_other_defaults_updates (d : dict) :
  updates (writes other_keys []) d (set_other_defaults d).
Proof.
  unfold set_other_defaults.
  repeat (apply updates_setdefault_after; [|intros _; writes_tac]).
  apply updates_refl.
Qed.

Lemma setdefault_keeps k v k' v' (d : dict) :
  d !! k' = Some v' -> Py.setdefault k v d !! k' = Some v'.
Proof.
  intros H. unfold Py.setdefault. destruct (d !! k) eqn:E; [done|].
  rewrite lookup_insert_ne; [done|]. congruence.
Qed.

Lemma set_other_defaults_keeps k v (d : dict) :
  d !! k = Some v -> set_other_defaults d !! k = Some v.
Proof.
  intros H. unfold set_other_defaults. by repeat apply setdefault_keeps.
Qed.


(** [set_defaults] = the early steps, which leave the four follow-up and
    response defaults in place, followed by [set_other_defaults]. *)
Lemma set_defaults_spec {W} p (d d1 : dict) :
  set_defaults W p d = Ok d1 ->
  exists d0,
    updates (writes follow_up_keys [])
            (set_progress p (Py.setdefault "response" (PStr "") d)) d0 /\
    d1 = set_other_defaults d0 /\
    is_Some (d0 !! "response") /\
    is_Some (d0 !! "needs_follow_up") /\
    is_Some (d0 !! "follow_up_question") /\
    is_Some (d0 !! "follow_up_type").
Proof.
  unfold set_defaults. intros H. res_inv.
  rename x into d3, x0 into d0. exists d0.
  set (d2 := set_progress p (Py.setdefault "response" (PStr "") d)) in *.
  assert (H23 : updates (writes follow_up_keys []) (set_follow_up_defaults d2) d0).
  { eapply updates_trans;
      eauto using complete_follow_up_updates, ensure_scale_question_updates. }
  split_and!; try done.
  - eapply updates_trans; [apply set_follow_up_defaults_updates | done].
  - eapply updates_keeps_keys; [done|].
    unfold set_follow_up_defaults. do 3 apply setdefault_is_Some.
    subst d2. eapply updates_keeps_keys; [apply set_progress_updates|].
    rewrite setdefault_lookup. eauto.
  - eapply updates_keeps_keys; [done|].
    unfold set_follow_up_defaults. do 2 apply setdefault_is_Some.
    rewrite setdefault_lookup. eauto.
  - eapply updates_keeps_keys; [done|].
    unfold set_follow_up_defaults. apply setdefault_is_Some.
    rewrite setdefault_lookup. eauto.
  - eapply updates_keeps_keys; [done|].
    unfold set_follow_up_defaults. rewrite setdefault_lookup. eauto.
Qed.




Lemma post_process_medication_updates (d : dict) :
  updates (writes ["medication"] ["medication"]) d (post_process_medication d).
Proof.
  unfold post_process_medication.
  destruct (Py.get d "medication" PNone); try apply updates_refl.
  apply updates_one. writes_tac.
Qed.




Lemma force_brief_response_updates (d : dict) :
  updates (writes ["response"] []) d (force_brief_response d).
Proof. unfold force_brief_response. apply updates_if. intros _. writes_tac. Qed.

Lemma fill_trivial_fields_updates (d : dict) :
  updates (writes enforce_keys []) d (fill_trivial_fields d).
Proof.
  unfold fill_trivial_fields, fill_if_empty.
  repeat (apply updates_if_after; [|intros _; writes_tac]). apply updates_refl.
Qed.

Lemma enforce_complete_updates (d d' : dict) :
  enforce_complete d = Ok d' -> updates (writes enforce_keys []) d d'.
Proof.
  unfold enforce_complete. intros H. res_inv.
  destruct (Py.truthy x); res_inv; [|apply updates_refl].
  destruct (Py.truthy x0); res_inv.
  - eapply updates_trans; [|apply fill_trivial_fields_updates].
    repeat (apply updates_insert; [|writes_tac]). apply updates_refl.
  - repeat (apply updates_insert; [|writes_tac]). apply updates_refl.
Qed.

Lemma enforce_non_medical_updates (d d' : dict) :
  enforce_non_medical d = Ok d' -> updates (writes enforce_keys []) d d'.
Proof.
  intros H. apply enforce_non_medical_spec in H as (m & _ & [[_ ->]|[_ ->]]).
  - apply updates_refl.
  - unfold clear_structured_fields.
    repeat (apply updates_insert; [|writes_tac]). apply updates_refl.
Qed.

Lemma sync_medical_flags_updates (d d' : dict) :
  sync_medical_flags d = Ok d' -> updates (writes enforce_keys []) d d'.
Proof.
  unfold sync_medical_flags. intros H. res_inv.
  repeat match type of H with
         | (if ?c then _ else _) = _ => destruct c
         end; res_inv;
    first [ apply updates_refl | apply updates_one; writes_tac ].
Qed.

Lemma enforce_logic_updates (d g : dict) :
  enforce_logic d = Ok g ->
  updates (writes enforce_keys []) (post_process_medication d) g.
Proof.
  unfold enforce_logic. intros H. res_inv.
  eapply updates_trans.
  { eapply updates_writes_weaken; [| |apply force_brief_response_updates].
    - intros k Hk. simpl in *. tauto.
    - apply incl_refl. }
  eapply updates_trans; [by apply enforce_complete_updates|].
  eapply updates_trans; [by apply enforce_non_medical_updates|].
  by apply sync_medical_flags_updates.
Qed.

Lemma process_reply_spec {W} p reply (g : dict) :
  process_reply W p reply = Ok g ->
  exists rd d1,
    reply = PDict rd /\ set_defaults W p rd = Ok d1 /\ enforce_logic d1 = Ok g.
Proof.
  unfold process_reply. intros H. res_inv.
  destruct reply; try discriminate. simpl in *. res_inv. eauto.
Qed.



Lemma process_reply_consistent {W} p reply (g : dict) :
  process_reply W p reply = Ok g -> consistent g.
Proof.
  intros H. apply process_reply_spec in H as (rd & d1 & _ & _ & He).
  by eapply enforce_logic_consistent.
Qed.

(** *** The medical flags and the step counters through the pipeline *)

Lemma sync_medical_flags_synced (d d' : dict) :
  sync_medical_flags d = Ok d' ->
  exists medical prompt,
    d !! "is_medical_related" = Some medical /\
    d !! "is_medical_related_prompt" = Some prompt /\
    d' !! "is_medical_related" = Some medical /\
    d' !! "is_medical_related_prompt" = Some (synced medical prompt).
Proof.
  unfold sync_medical_flags, synced. intros H. res_inv.
  rename x into medical, x0 into prompt. exists medical, prompt.
  destruct (Py.truthy medical); simpl in H.
  - destruct (Py.eq_str prompt "No"); res_inv; by simplify_map_eq.
  - destruct (Py.eq_str prompt "Yes"); res_inv; by simplify_map_eq.
Qed.

Lemma enforce_logic_frame_flag (d d3 d4 : dict) k :
  k = "is_medical_related" \/ k = "is_medical_related_prompt" ->
  enforce_complete (force_brief_response (post_process_medication d)) = Ok d3 ->
  enforce_non_medical d3 = Ok d4 ->
  d4 !! k = d !! k.
Proof.
  intros Hk H3 H4.
  assert (Hk1 : ~ In k ["medication"]) by (destruct Hk as [-> | ->]; not_in).
  assert (Hk2 : ~ In k ["response"]) by (destruct Hk as [-> | ->]; not_in).
  apply enforce_complete_spec in H3 as (_ & _ & _ & Hm3 & Hp3 & _).
  assert (E : d3 !! k = d !! k).
  { transitivity (force_brief_response (post_process_medication d) !! k).
    - destruct Hk as [-> | ->]; done.
    - rewrite (updates_writes_frame _ _ _ _ _ Hk2 (force_brief_response_updates _)).
      apply (updates_writes_frame _ _ _ _ _ Hk1 (post_process_medication_updates d)). }
  apply enforce_non_medical_spec in H4 as (m & _ & [[_ ->]|[_ ->]]); [done|].
  by rewrite clear_structured_fields_ne by (destruct Hk as [-> | ->]; not_in).
Qed.

Lemma enforce_logic_flags (d g : dict) :
  enforce_logic d = Ok g ->
  exists medical prompt,
    d !! "is_medical_related" = Some medical /\
    d !! "is_medical_related_prompt" = Some prompt /\
    g !! "is_medical_related" = Some medical /\
    g !! "is_medical_related_prompt" = Some (synced medical prompt).
Proof.
  unfold enforce_logic. intros H. res_inv.
  rename x into d3, x0 into d4.
  apply sync_medical_flags_synced in H as (medical & prompt & Hm & Hp & Hm' & Hp').
  exists medical, prompt. split_and!; try done.
  - by rewrite <- (enforce_logic_frame_flag d d3 d4) by auto.
  - by rewrite <- (enforce_logic_frame_flag d d3 d4) by auto.
Qed.

Lemma set_other_defaults_flags (d : dict) :
  exists medical,
    set_other_defaults d !! "is_medical_related" = Some medical /\
    set_other_defaults d !! "is_medical_related_prompt"
    = Some (default (prompt_of medical) (d !! "is_medical_related_prompt")).
Proof.
  exists (default (PBool true) (d !! "is_medical_related")).
  unfold set_other_defaults, prompt_of.
  split.
  - rewrite !setdefault_lookup_ne by done. rewrite setdefault_lookup.
    by rewrite !setdefault_lookup_ne by done.
  - rewrite !setdefault_lookup_ne by done. rewrite setdefault_lookup.
    rewrite !setdefault_lookup_ne by done.
    unfold Py.get. rewrite setdefault_lookup.
    rewrite !setdefault_lookup_ne by done. simpl.
    by destruct (Py.truthy _).
Qed.

Lemma set_defaults_frame {W} p (d d1 : dict) k :
  set_defaults W p d = Ok d1 -> ~ In k early_keys ->
  exists d0, d1 = set_other_defaults d0 /\ d0 !! k = d !! k.
Proof.
  intros H Hk. apply set_defaults_spec in H as (d0 & H0 & -> & _).
  exists d0. split; [done|].
  assert (Hk' : ~ In k follow_up_keys) by (simpl in *; tauto).
  rewrite (updates_writes_frame _ _ _ _ _ Hk' H0).
  rewrite (updates_writes_frame _ _ _ _ _ Hk (set_progress_updates _ _)).
  apply setdefault_lookup_ne. intros <-. apply Hk. simpl. tauto.
Qed.

(** The two medical flags of the returned dict, from those of the
    reply. *)
Lemma process_reply_flags {W} p (rd g : dict) :
  process_reply W p (PDict rd) = Ok g ->
  exists medical,
    g !! "is_medical_related" = Some medical /\
    g !! "is_medical_related_prompt"
    = Some (synced medical
              (default (prompt_of medical) (rd !! "is_medical_related_prompt"))).
Proof.
  intros H. apply process_reply_spec in H as (rd' & d1 & [= <-] & Hd & He).
  apply enforce_logic_flags in He as (medical & prompt & Hm & Hp & Hm' & Hp').
  eapply set_defaults_frame with (k := "is_medical_related_prompt") in Hd
    as (d0 & -> & Hframe); [|not_in].
  destruct (set_other_defaults_flags d0) as (medical0 & Hm0 & Hp0).
  assert (medical0 = medical) as -> by congruence.
  exists medical. split; [done|]. rewrite Hp'. f_equal. f_equal.
  rewrite <- Hframe. congruence.
Qed.

Lemma set_progress_total_steps p (d : dict) :
  d !! "total_steps" = None \/
  (exists v, d !! "total_steps" = Some v /\ Py.eq_zero v = true) ->
  set_progress p d !! "total_steps" = Some (estimated_total_steps p).
Proof.
  intros H. unfold set_progress.
  match goal with
  | |- (if ?c then _ else _) !! _ = _ => assert (c = true) as ->
  end.
  - unfold Py.has_key, Py.get.
    destruct (_ || Py.eq_zero (default PNone (d !! "current_step")));
      rewrite ?lookup_insert_ne by done;
      (destruct H as [->|(v & -> & Hv)]; simpl; [done|]);
      rewrite ?Hv, ?orb_true_r; done.
  - by rewrite lookup_insert_eq.
Qed.

(** A reply without a positive [total_steps] gets the estimate. *)
Lemma process_reply_total_steps {W} p (rd g : dict) :
  process_reply W p (PDict rd) = Ok g ->
  rd !! "total_steps" = None \/
  (exists v, rd !! "total_steps" = Some v /\ Py.eq_zero v = true) ->
  g !! "total_steps" = Some (estimated_total_steps p).
Proof.
  intros H Hts. apply process_reply_spec in H as (rd' & d1 & [= <-] & Hd & He).
  assert (He' : ~ In "total_steps" enforce_keys) by not_in.
  assert (Hm' : ~ In "total_steps" ["medication"]) by not_in.
  assert (Hf' : ~ In "total_steps" follow_up_keys) by not_in.
  rewrite (updates_writes_frame _ _ _ _ _ He' (enforce_logic_updates _ _ He)).
  rewrite (updates_writes_frame _ _ _ _ _ Hm' (post_process_medication_updates _)).
  apply set_defaults_spec in Hd as (d0 & H0 & -> & _).
  apply set_other_defaults_keeps.
  rewrite (updates_writes_frame _ _ _ _ _ Hf' H0).
  apply set_progress_total_steps.
  by rewrite setdefault_lookup_ne by done.
Qed.

(* ===================================================================== *)
(** ** [gemini_interactive]: what it returns *)
(* ===================================================================== *)

(** The returned dict is the processed reply of the model, or else the
    fallback dict: no exception leaves the function. *)
Lemma gemini_interactive_cases W message history :
  let r := gemini_interactive W message history in
  r.2 = (ask_model W message history).2 /\
  ((exists p reply,
      (ask_model W message history).1 = Ok (p, reply) /\
      process_reply W p reply = Ok r.1)
   \/ ((forall p reply,
          (ask_model W message history).1 = Ok (p, reply) ->
          exists e, process_reply W p reply = Raise e)
       /\ r.1 = fallback_response)).
Proof.
  unfold gemini_interactive, gemini_interactive_body.
  destruct (ask_model W message history) as [[[p reply]|e] events]; simpl.
  - destruct (process_reply W p reply) as [g|e] eqn:E; simpl.
    + split; [done|]. left. eauto.
    + split; [done|]. right. split; [|done].
      intros p' reply' [= <- <-]. eauto.
  - split; [done|]. right. split; [|done]. intros p' reply' [=].
Qed.

Lemma fallback_response_consistent : consistent fallback_response.
Proof.
  exists (PBool false), (PBool true), (PStr "Yes").
  split_and!; try reflexivity; try discriminate.
Qed.

Lemma gemini_interactive_consistent W message history :
  consistent (gemini_interactive W message history).1.
Proof.
  destruct (gemini_interactive_cases W message history)
    as (_ & [(p & reply & _ & H)|[_ ->]]).
  - by eapply process_reply_consistent.
  - apply fallback_response_consistent.
Qed.

(** On the success path the returned dict is the processed reply. *)
Lemma gemini_interactive_success W message history p reply (g : dict) :
  (ask_model W message history).1 = Ok (p, reply) ->
  process_reply W p reply = Ok g ->
  (gemini_interactive W message history).1 = g.
Proof.
  intros Hask Hg.
  destruct (gemini_interactive_cases W message history)
    as (_ & [(p' & reply' & Hask' & Hg')|[Hfail _]]).
  - rewrite Hask in Hask'. injection Hask' as <- <-.
    rewrite Hg in Hg'. by injection Hg'.
  - destruct (Hfail _ _ Hask) as [e He]. rewrite Hg in He. discriminate He.
Qed.

Lemma ask_model_prompting W message history p reply :
  (ask_model W message history).1 = Ok (p, reply) ->
  select_instruction W message history = Ok p.
Proof.
  unfold ask_model.
  destruct (select_instruction W message history) as [p'|e]; [|discriminate].
  destruct (start_chat W _); [|discriminate].
  destruct (send_with_retry _ _ _) as [sent events].
  unfold fst. intros H. res_inv. by injection H as <- _.
Qed.

(* ===================================================================== *)
(** ** The properties of the specification *)
(* ===================================================================== *)

(** C1 -- the invariant "conversation_complete=true implies
    needs_follow_up=false and follow_up_question is empty" is broken by
    the code on a reply that is not medical and still asks a question:
    the non-medical reset (lines 1010-1018) marks the conversation
    complete after the block that clears the follow-up (lines 992-994)
    has run, so the returned dict, and the payload of the route, are
    complete and keep the question.  The reply holds every field the
    response schema requires. *)
Theorem complete_reply_keeps_follow_up_question :
  (ask_model off_topic_world "What's the weather?" None).1
    = Ok (mk_prompting non_medical_prefix 1 (PInt 4), off_topic_reply) /\
  (gemini_interactive off_topic_world "What's the weather?" None).1
    !! "conversation_complete" = Some (PBool true) /\
  (gemini_interactive off_topic_world "What's the weather?" None).1
    !! "needs_follow_up" = Some (PBool false) /\
  (gemini_interactive off_topic_world "What's the weather?" None).1
    !! "follow_up_question" = Some (PStr "Do you have a health question?") /\
  payload_field
    (gemini_interactive_route off_topic_world
       (post_body (PStr "What's the weather?") (PList []))).1
    "conversation_complete" = Some (PBool true) /\
  payload_field
    (gemini_interactive_route off_topic_world
       (post_body (PStr "What's the weather?") (PList []))).1
    "follow_up_question" = Some (PStr "Do you have a health question?").
Proof. split_and!; by_compute. Qed.

(** C2 -- every dict returned by [gemini_interactive] whose
    is_medical_related is false has Symptoms ".", empty Remedies,
    Precautions and Guidelines, an empty medication list and
    conversation_complete true. *)
Theorem non_medical_fields_are_cleared W message history (d : dict) :
  (gemini_interactive W message history).1 = d ->
  d !! "is_medical_related" = Some (PBool false) ->
  d !! "Symptoms" = Some (PStr ".") /\
  d !! "Remedies" = Some (PStr "") /\
  d !! "Precautions" = Some (PStr "") /\
  d !! "Guidelines" = Some (PStr "") /\
  d !! "medication" = Some (PList []) /\
  d !! "conversation_complete" = Some (PBool true).
Proof.
  intros <- Hm.
  destruct (gemini_interactive_consistent W message history)
    as (c & m & prompt & _ & Hm' & _ & _ & _ & Hcl & _).
  rewrite Hm in Hm'. injection Hm' as <-.
  destruct (Hcl eq_refl) as (? & ? & ? & ? & ? & ? & _). split_and!; done.
Qed.

(** C2 on the reply [weather_reply], which is not medical. *)
Lemma non_medical_fields_are_cleared_witness :
  (gemini_interactive weather_world "What's the weather?" None).1
    !! "is_medical_related" = Some (PBool false) /\
  (gemini_interactive weather_world "What's the weather?" None).1
    !! "Symptoms" = Some (PStr ".") /\
  (gemini_interactive weather_world "What's the weather?" None).1
    !! "medication" = Some (PList []) /\
  (gemini_interactive weather_world "What's the weather?" None).1
    !! "conversation_complete" = Some (PBool true).
Proof.
  assert (Hm : (gemini_interactive weather_world "What's the weather?" None).1
                 !! "is_medical_related" = Some (PBool false)) by by_compute.
  destruct (non_medical_fields_are_cleared weather_world "What's the weather?" None
              _ eq_refl Hm)
    as (Hs & _ & _ & _ & Hmed & Hc).
  split_and!; done.
Defined.

(** C4 -- "whenever can_provide_structured_response is true the response
    is the short summary message" is broken by the code on a reply that
    is complete and medical but does not set
    can_provide_structured_response: the flag is forced to true (lines
    995-997) after the block that overwrites the response (lines 984-989)
    has run, so the model's own text is returned together with the flag.
    The reply holds every field the response schema requires. *)
Theorem structured_reply_keeps_model_text :
  (ask_model advice_world "I have a cold" None).1
    = Ok (mk_prompting "" 1 (PInt 4), advice_reply) /\
  (gemini_interactive advice_world "I have a cold" None).1
    !! "can_provide_structured_response" = Some (PBool true) /\
  (gemini_interactive advice_world "I have a cold" None).1
    !! "conversation_complete" = Some (PBool true) /\
  (gemini_interactive advice_world "I have a cold" None).1
    !! "response" = Some (PStr "Take rest and drink fluids.") /\
  PStr "Take rest and drink fluids." <> PStr brief_summary.
Proof. split_and!; [by_compute..|discriminate]. Qed.

(** C7, as stated, fails: a reply whose is_medical_related is true and
    whose is_medical_related_prompt is neither "Yes" nor "No" is returned
    with both values unchanged. *)
Lemma unknown_prompt_is_not_synchronized :
  (ask_model maybe_world "I have a cold" None).1
    = Ok (mk_prompting "" 1 (PInt 4), maybe_reply) /\
  (gemini_interactive maybe_world "I have a cold" None).1
    !! "is_medical_related" = Some (PBool true) /\
  (gemini_interactive maybe_world "I have a cold" None).1
    !! "is_medical_related_prompt" = Some (PStr "Maybe") /\
  PStr "Maybe" <> PStr "Yes".
Proof. split_and!; [by_compute..|discriminate]. Qed.

(** C7, amended -- on the success path of [gemini_interactive] the
    returned is_medical_related_prompt is never "No" while
    is_medical_related is truthy and never "Yes" while it is falsy; when
    the reply omits is_medical_related_prompt or gives "Yes" or "No", the
    returned prompt is "Yes" if and only if is_medical_related is truthy
    and "No" if and only if it is falsy; any other value of the reply is
    returned as it came. *)
Theorem medical_flags_synchronized W message history p (rd g : dict) :
  (ask_model W message history).1 = Ok (p, PDict rd) ->
  process_reply W p (PDict rd) = Ok g ->
  (gemini_interactive W message history).1 = g /\
  exists medical prompt,
    g !! "is_medical_related" = Some medical /\
    g !! "is_medical_related_prompt" = Some prompt /\
    (Py.truthy medical = true -> prompt <> PStr "No") /\
    (Py.truthy medical = false -> prompt <> PStr "Yes") /\
    (rd !! "is_medical_related_prompt" = None \/
     rd !! "is_medical_related_prompt" = Some (PStr "Yes") \/
     rd !! "is_medical_related_prompt" = Some (PStr "No") ->
     (prompt = PStr "Yes" <-> Py.truthy medical = true) /\
     (prompt = PStr "No" <-> Py.truthy medical = false)) /\
    (forall v, rd !! "is_medical_related_prompt" = Some v ->
               v <> PStr "Yes" -> v <> PStr "No" -> prompt = v).
Proof.
  intros Hask Hg. split; [by eapply gemini_interactive_success|].
  destruct (process_reply_flags _ _ _ Hg) as (medical & Hm & Hp).
  exists medical. eexists. split; [done|]. split; [done|].
  unfold synced, prompt_of in *.
  destruct (Py.truthy medical) eqn:Ht; split_and!.
  - intros _. destruct (Py.eq_str _ "No") eqn:E; [done|]. by apply eq_str_false.
  - done.
  - intros [->|[->| ->]]; simpl; split; split; done.
  - intros v -> _ Hno. simpl. apply eq_str_false in Hno. by rewrite Hno.
  - done.
  - intros _. destruct (Py.eq_str _ "Yes") eqn:E; [done|]. by apply eq_str_false.
  - intros [->|[->| ->]]; simpl; split; split; done.
  - intros v -> Hyes _. simpl. apply eq_str_false in Hyes. by rewrite Hyes.
Qed.

(** C7 on the reply [weather_reply], which omits the prompt flag. *)
Lemma medical_flags_synchronized_witness :
  (ask_model weather_world "What's the weather?" None).1
    = Ok (mk_prompting non_medical_prefix 1 (PInt 4), weather_reply) /\
  (exists g,
     process_reply weather_world (mk_prompting non_medical_prefix 1 (PInt 4)) weather_reply = Ok g) /\
  (gemini_interactive weather_world "What's the weather?" None).1
    !! "is_medical_related" = Some (PBool false) /\
  (gemini_interactive weather_world "What's the weather?" None).1
    !! "is_medical_related_prompt" = Some (PStr "No").
Proof.
  assert (Hask : (ask_model weather_world "What's the weather?" None).1
                 = Ok (mk_prompting non_medical_prefix 1 (PInt 4), weather_reply))
    by by_compute.
  assert (Hmed : (gemini_interactive weather_world "What's the weather?" None).1
                   !! "is_medical_related" = Some (PBool false)) by by_compute.
  assert (Hok : is_ok (process_reply weather_world (mk_prompting non_medical_prefix 1 (PInt 4))
                         weather_reply) = true) by by_compute.
  destruct (is_ok_true _ Hok) as [g Hg].
  split; [exact Hask|]. split; [by exists g|]. split; [exact Hmed|].
  destruct (medical_flags_synchronized weather_world "What's the weather?" None
              _ _ _ Hask Hg)
    as (Hgi & medical & prompt & Hm & Hp & _ & _ & Hiff & _).
  subst g. rewrite Hp. f_equal. apply Hiff; [left; by_compute|].
  rewrite Hmed in Hm. injection Hm as <-. exact eq_refl.
Defined.
(** C9, as stated, fails twice.  A message that names a headache and a
    fever gets the estimate 4 of the code's first row, where the table in
    the order of the specification gives 3.  And a reply that omits
    total_steps but makes the post-processing raise (its
    follow_up_question is null, which has no [lower]) is answered with the
    fallback dict, whose total_steps is 0 and not the estimate. *)
Lemma headache_row_precedes_fever_row :
  PyStr.any_in symptom_terms (str_lower follow_up_world "I have a headache and a fever") = true /\
  is_non_medical (str_lower follow_up_world "I have a headache and a fever") = false /\
  is_high_severity (str_lower follow_up_world "I have a headache and a fever") = false /\
  claimed_total_steps (str_lower follow_up_world "I have a headache and a fever") = 3 /\
  (ask_model follow_up_world "I have a headache and a fever" None).1
    = Ok (mk_prompting (initial_symptom_prefix "4") 1 (PInt 4), follow_up_reply) /\
  (gemini_interactive follow_up_world "I have a headache and a fever" None).1
    !! "total_steps" = Some (PInt 4) /\
  claimed_total_steps (str_lower null_question_world "I have a fever") = 3 /\
  (ask_model null_question_world "I have a fever" None).1
    = Ok (mk_prompting (initial_symptom_prefix "3") 1 (PInt 3), null_question_reply) /\
  (gemini_interactive null_question_world "I have a fever" None).1
    !! "total_steps" = Some (PInt 0).
Proof. split_and!; by_compute. Qed.

(** C9, amended -- for a message with an empty or absent history that
    contains a symptom keyword and matches neither the non-medical nor the
    high-severity rule, [gemini_interactive] selects the Initial Symptom
    prefix with the estimate of the first row that applies among, in this
    order, headache/head/migraine: 4, stomach/nausea/vomit/diarrhea: 4,
    fever/temperature: 3, cough/breathing: 4, rash/skin: 5, otherwise 4;
    and when the post-processing of the reply succeeds on a reply that
    omits total_steps or sets it to 0, the returned total_steps is that
    estimate. *)
Theorem initial_symptom_estimate W message history :
  history = None \/ history = Some [] ->
  PyStr.any_in symptom_terms (str_lower W message) = true ->
  is_non_medical (str_lower W message) = false ->
  is_high_severity (str_lower W message) = false ->
  exists total,
    select_instruction W message history
      = Ok (mk_prompting (initial_symptom_prefix (pretty total)) 1 (PInt total)) /\
    total =
      (if PyStr.any_in ["headache"; "head"; "migraine"] (str_lower W message) then 4
       else if PyStr.any_in ["stomach"; "nausea"; "vomit"; "diarrhea"]
                 (str_lower W message) then 4
       else if PyStr.any_in ["fever"; "temperature"] (str_lower W message) then 3
       else if PyStr.any_in ["cough"; "breathing"] (str_lower W message) then 4
       else if PyStr.any_in ["rash"; "skin"] (str_lower W message) then 5
       else 4) /\
    forall p (rd g : dict),
      (ask_model W message history).1 = Ok (p, PDict rd) ->
      process_reply W p (PDict rd) = Ok g ->
      rd !! "total_steps" = None \/
      (exists v, rd !! "total_steps" = Some v /\ Py.eq_zero v = true) ->
      (gemini_interactive W message history).1 = g /\
      g !! "total_steps" = Some (PInt total).
Proof.
  intros Hh Hs Hn Hsev.
  exists (initial_total_steps (str_lower W message)).
  assert (Hsel : select_instruction W message history
                 = Ok (mk_prompting
                         (initial_symptom_prefix
                            (pretty (initial_total_steps (str_lower W message))))
                         1 (PInt (initial_total_steps (str_lower W message))))).
  { unfold select_instruction. rewrite Hn, Hsev, Hs.
    by destruct Hh as [-> | ->]. }
  split; [done|]. split; [reflexivity|].
  intros p rd g Hask Hg Hts.
  assert (Hp : estimated_total_steps p
               = PInt (initial_total_steps (str_lower W message))).
  { apply ask_model_prompting in Hask. rewrite Hsel in Hask.
    by injection Hask as <-. }
  split; [by eapply gemini_interactive_success|].
  rewrite <- Hp. by eapply process_reply_total_steps.
Qed.

(** C9 on a first message that names a fever. *)
Lemma initial_symptom_estimate_witness :
  PyStr.any_in symptom_terms (str_lower follow_up_world "I have a fever") = true /\
  is_non_medical (str_lower follow_up_world "I have a fever") = false /\
  is_high_severity (str_lower follow_up_world "I have a fever") = false /\
  select_instruction follow_up_world "I have a fever" (Some [])
    = Ok (mk_prompting (initial_symptom_prefix "3") 1 (PInt 3)) /\
  (gemini_interactive follow_up_world "I have a fever" (Some [])).1
    !! "total_steps" = Some (PInt 3).
Proof.
  assert (Hs : PyStr.any_in symptom_terms (str_lower follow_up_world "I have a fever") = true)
    by by_compute.
  assert (Hn : is_non_medical (str_lower follow_up_world "I have a fever") = false) by by_compute.
  assert (Hv : is_high_severity (str_lower follow_up_world "I have a fever") = false)
    by by_compute.
  destruct (initial_symptom_estimate follow_up_world "I have a fever" (Some [])
              (or_intror eq_refl) Hs Hn Hv)
    as (total & Hsel & Htotal & Hreply).
  assert (Ht : total = 3) by (rewrite Htotal; by_compute).
  clear Htotal. subst total.
  split; [exact Hs|]. split; [exact Hn|]. split; [exact Hv|].
  split; [rewrite Hsel; by_compute|].
  assert (Hask : (ask_model follow_up_world "I have a fever" (Some [])).1
                 = Ok (mk_prompting (initial_symptom_prefix "3") 1 (PInt 3),
                       follow_up_reply)) by by_compute.
  assert (Hok : is_ok (process_reply follow_up_world
                         (mk_prompting (initial_symptom_prefix "3") 1 (PInt 3))
                         follow_up_reply) = true) by by_compute.
  destruct (is_ok_true _ Hok) as [g Hg].
  destruct (Hreply _ _ _ Hask Hg) as [Hgi Hts]; [left; by_compute|].
  subst g. exact Hts.
Defined.

(* ===================================================================== *)
(** ** The route *)
(* ===================================================================== *)

Lemma payload_data_response code (d : dict) : payload (data_response code d) = Some d.
Proof.
  unfold payload, data_response, mkdict, body. cbn [list_to_map foldr uncurry fst snd].
  by rewrite lookup_insert_eq.
Qed.

Lemma truthy_dict_with_key (fields : dict) k v :
  fields !! k = Some v -> Py.truthy (PDict fields) = true.
Proof.
  intros H. unfold Py.truthy. apply negb_true_iff, bool_decide_eq_false.
  intros ->. by rewrite lookup_empty in H.
Qed.

(** A well-formed request is read as its stripped message and its
    history. *)
Lemma read_request_ok {W} (fields : dict) raw history :
  fields !! "message" = Some (PStr raw) ->
  (fields !! "conversation_history" = None /\ history = None) \/
  (fields !! "conversation_history" = Some PNone /\ history = None) \/
  (exists items, fields !! "conversation_history" = Some (PList items)
                 /\ history = Some items) ->
  read_request W (Ok (PDict fields)) = Ok (inr (str_strip W raw, history)).
Proof.
  intros Hm Hh. unfold read_request.
  cbn [mbind res_bind]. rewrite (truthy_dict_with_key _ _ _ Hm).
  cbn [negb PyNum.contains_key mbind res_bind].
  unfold Py.has_key. rewrite Hm, bool_decide_eq_true_2 by eauto.
  cbn [negb get_method mbind res_bind].
  unfold Py.get. rewrite Hm. cbn [default from_option Py.str_method mbind res_bind id].
  destruct Hh as [[-> ->]|[[-> ->]|(items & -> & ->)]]; reflexivity.
Qed.

Lemma route_of_request W request_json message history :
  read_request W request_json = Ok (inr (message, history)) ->
  gemini_interactive_route W request_json =
  if is_restart (str_lower W message) then (data_response 200 restart_payload, [])
  else (data_response 200
          (sanity_checks history (gemini_interactive W message history).1),
        (gemini_interactive W message history).2).
Proof.
  intros H. unfold gemini_interactive_route, route_body. rewrite H.
  destruct (is_restart _); [done|].
  by destruct (gemini_interactive W message history).
Qed.

(** C10, as stated, fails: a restart message sent with a
    conversation_history that is neither null nor a list is answered with
    status 400 and no payload (lines 116-118 precede the restart
    check). *)
Lemma restart_with_malformed_history_is_rejected :
  is_restart (str_lower weather_world (str_strip weather_world "restart")) = true /\
  status (gemini_interactive_route weather_world
            (post_body (PStr "restart") (PStr "oops"))).1 = 400 /\
  payload_field (gemini_interactive_route weather_world
                   (post_body (PStr "restart") (PStr "oops"))).1
                "conversation_restarted" = None.
Proof. split_and!; by_compute. Qed.

(** C10, amended -- for every POST whose body is an object with a string
    message that, stripped and lower-cased, is one of "restart",
    "start over", "reset", "new conversation", and whose
    conversation_history is absent, null or a list, the route answers
    with status 200 and the fixed restart payload, which has
    conversation_restarted=true, conversation_complete=false and
    needs_follow_up=false; no event occurs: neither [gemini_interactive]
    nor the model is called. *)
Theorem restart_returns_fixed_payload W (fields : dict) raw :
  fields !! "message" = Some (PStr raw) ->
  In (str_lower W (str_strip W raw))
     ["restart"; "start over"; "reset"; "new conversation"] ->
  fields !! "conversation_history" = None \/
  fields !! "conversation_history" = Some PNone \/
  (exists items, fields !! "conversation_history" = Some (PList items)) ->
  gemini_interactive_route W (Ok (PDict fields))
    = (data_response 200 restart_payload, []) /\
  payload (data_response 200 restart_payload) = Some restart_payload /\
  restart_payload !! "conversation_restarted" = Some (PBool true) /\
  restart_payload !! "conversation_complete" = Some (PBool false) /\
  restart_payload !! "needs_follow_up" = Some (PBool false).
Proof.
  intros Hm Hin Hh.
  assert (Hr : is_restart (str_lower W (str_strip W raw)) = true).
  { unfold is_restart, restart_commands. apply existsb_exists.
    exists (str_lower W (str_strip W raw)). split; [exact Hin|].
    apply String.eqb_refl. }
  assert (Hread : exists history,
             read_request W (Ok (PDict fields)) = Ok (inr (str_strip W raw, history))).
  { destruct Hh as [Hh|[Hh|[items Hh]]].
    - exists None. apply read_request_ok; auto.
    - exists None. apply read_request_ok; auto.
    - exists (Some items). apply read_request_ok; eauto 6. }
  destruct Hread as [history Hread].
  split.
  { rewrite (route_of_request W _ _ _ Hread). by rewrite Hr. }
  split; [apply payload_data_response|].
  split_and!; by_compute.
Qed.

(** C10 on a request whose message is ["  Start Over "]. *)
Lemma restart_returns_fixed_payload_witness :
  mkdict [("message", PStr "  Start Over ")] !! "message"
    = Some (PStr "  Start Over ") /\
  str_lower offline_world (str_strip offline_world "  Start Over ") = "start over" /\
  mkdict [("message", PStr "  Start Over ")] !! "conversation_history" = None /\
  (gemini_interactive_route offline_world
     (Ok (PDict (mkdict [("message", PStr "  Start Over ")])))).2 = [] /\
  payload_field
    (gemini_interactive_route offline_world
       (Ok (PDict (mkdict [("message", PStr "  Start Over ")])))).1
    "conversation_restarted" = Some (PBool true).
Proof.
  assert (Hm : mkdict [("message", PStr "  Start Over ")] !! "message"
               = Some (PStr "  Start Over ")) by by_compute.
  assert (Hl : str_lower offline_world (str_strip offline_world "  Start Over ") = "start over")
    by by_compute.
  assert (Hh : mkdict [("message", PStr "  Start Over ")] !! "conversation_history"
               = None) by by_compute.
  destruct (restart_returns_fixed_payload offline_world _ _ Hm
              ltac:(rewrite Hl; right; left; exact eq_refl) (or_introl Hh))
    as (Hroute & _ & Hrestarted & _).
  split; [exact Hm|]. split; [exact Hl|]. split; [exact Hh|].
  rewrite Hroute. split; [exact eq_refl|].
  unfold payload_field. cbn [fst]. rewrite payload_data_response. exact Hrestarted.
Defined.





(* ===================================================================== *)
(** ** The retry loop and the fallback *)
(* ===================================================================== *)

(** The loop stops at the first attempt that succeeds, or after the third
    failure; a one-second pause follows every failure but the last. *)
Lemma send_with_retry_trace W history content :
  exists failures,
    (failures <= 2)%nat /\
    (send_with_retry W history content).2 = retry_trace content 0 failures /\
    (forall k, (k < failures)%nat ->
               is_ok (send_message W history content k) = false) /\
    (is_ok (send_with_retry W history content).1
     = is_ok (send_message W history content failures)) /\
    ((failures < 2)%nat -> is_ok (send_message W history content failures) = true).
Proof.
  unfold send_with_retry, max_retries.
  cbn [seq send_attempts Nat.sub Nat.ltb Nat.leb max_retries].
  destruct (send_message W history content 0) as [r0|e0] eqn:E0.
  { exists 0%nat. split_and!; [lia|done|lia|by rewrite E0|by rewrite E0]. }
  destruct (send_message W history content 1) as [r1|e1] eqn:E1.
  { exists 1%nat. split_and!; [lia|done| |by rewrite E1|by rewrite E1].
    intros k Hk. assert (k = 0%nat) as -> by lia. by rewrite E0. }
  exists 2%nat.
  assert (Hfail : forall k, (k < 2)%nat ->
                            is_ok (send_message W history content k) = false).
  { intros k Hk. destruct k as [|[|k]]; [by rewrite E0|by rewrite E1|lia]. }
  destruct (send_message W history content 2) as [r2|e2] eqn:E2;
    split_and!; try done; lia.
Qed.

Lemma sends_retry_trace content first failures :
  sends (retry_trace content first failures) = S failures.
Proof.
  revert first. induction failures as [|n IH]; intros first; [done|].
  unfold sends in *. cbn [retry_trace List.filter is_send length]. by rewrite IH.
Qed.

(** The events of a call: nothing, the opening of the chat alone, or the
    opening followed by the attempts. *)
Lemma ask_model_events W message history :
  (ask_model W message history).2 = [] /\ is_ok (ask_model W message history).1 = false
  \/ exists formatted,
       ((ask_model W message history).2 = [EvStartChat formatted]
        /\ is_ok (ask_model W message history).1 = false)
       \/ exists content failures,
            (failures <= 2)%nat /\
            (ask_model W message history).2
              = EvStartChat formatted :: retry_trace content 0 failures /\
            (forall k, (k < failures)%nat ->
                       is_ok (send_message W formatted content k) = false) /\
            ((failures < 2)%nat ->
             is_ok (send_message W formatted content failures) = true) /\
            (is_ok (ask_model W message history).1 = true ->
             is_ok (send_message W formatted content failures) = true).
Proof.
  unfold ask_model.
  destruct (select_instruction W message history) as [p|e]; [|by left].
  right. exists (format_history W history).
  destruct (start_chat W _); [|by left].
  right. exists (instruction_prefix p +:+ message).
  destruct (send_with_retry_trace W (format_history W history)
              (instruction_prefix p +:+ message))
    as (failures & Hle & Htrace & Hfail & Hok & Hlast).
  exists failures.
  destruct (send_with_retry W _ _) as [sent events]. cbn [fst snd] in *.
  subst events. split_and!; try done.
  rewrite <- Hok. by destruct sent.
Qed.

Lemma send_with_retry_first_success W history content failures r :
  (failures <= 2)%nat ->
  (forall k, (k < failures)%nat ->
             is_ok (send_message W history content k) = false) ->
  send_message W history content failures = Ok r ->
  send_with_retry W history content = (Ok r, retry_trace content 0 failures).
Proof.
  intros Hle Hfail Hr. unfold send_with_retry, max_retries.
  cbn [seq send_attempts Nat.sub Nat.ltb Nat.leb max_retries].
  destruct failures as [|[|[|n]]]; [| | |lia].
  - by rewrite Hr.
  - pose proof (Hfail 0%nat ltac:(lia)) as H0.
    destruct (send_message W history content 0); [discriminate H0|].
    by rewrite Hr.
  - pose proof (Hfail 0%nat ltac:(lia)) as H0.
    pose proof (Hfail 1%nat ltac:(lia)) as H1.
    destruct (send_message W history content 0); [discriminate H0|].
    destruct (send_message W history content 1); [discriminate H1|].
    by rewrite Hr.
Qed.

Lemma send_with_retry_all_fail W history content e :
  (forall k, (k < 2)%nat -> is_ok (send_message W history content k) = false) ->
  send_message W history content 2 = Raise e ->
  send_with_retry W history content = (Raise e, retry_trace content 0 2).
Proof.
  intros Hfail He. unfold send_with_retry, max_retries.
  cbn [seq send_attempts Nat.sub Nat.ltb Nat.leb max_retries].
  pose proof (Hfail 0%nat ltac:(lia)) as H0.
  pose proof (Hfail 1%nat ltac:(lia)) as H1.
  destruct (send_message W history content 0); [discriminate H0|].
  destruct (send_message W history content 1); [discriminate H1|].
  by rewrite He.
Qed.

(** C5 -- in [gemini_interactive] the model is called at most three
    times per request, with a pause of one second after each failed
    attempt that is followed by another one.  Every exception of the way
    ends in the fixed fallback dict, which offers "Try asking again" and
    "Start a new conversation": the choice of the instruction raising,
    the chat failing to open, the third attempt failing after two
    failures, the answer of the first attempt that succeeds having no
    readable text, that text not being JSON, and the processing of the
    parsed reply raising.  If none of these happens the processed reply
    is returned: the function always returns a dict. *)
Theorem retries_are_bounded_and_failures_fall_back W message history :
  (sends (gemini_interactive W message history).2 <= 3)%nat /\
  ((gemini_interactive W message history).2 = [] \/
   exists formatted,
     (gemini_interactive W message history).2 = [EvStartChat formatted] \/
     exists content failures,
       (failures <= 2)%nat /\
       (gemini_interactive W message history).2
         = EvStartChat formatted :: retry_trace content 0 failures /\
       (forall k, (k < failures)%nat ->
                  is_ok (send_message W formatted content k) = false) /\
       ((failures < 2)%nat ->
        is_ok (send_message W formatted content failures) = true)) /\
  (forall e, select_instruction W message history = Raise e ->
     gemini_interactive W message history = (fallback_response, [])) /\
  (forall p e,
     select_instruction W message history = Ok p ->
     start_chat W (format_history W history) = Raise e ->
     gemini_interactive W message history
     = (fallback_response, [EvStartChat (format_history W history)])) /\
  (forall p failures,
     select_instruction W message history = Ok p ->
     start_chat W (format_history W history) = Ok tt ->
     (failures <= 2)%nat ->
     (forall k, (k < failures)%nat ->
        is_ok (send_message W (format_history W history)
                 (instruction_prefix p +:+ message) k) = false) ->
     (forall e,
        failures = 2%nat ->
        send_message W (format_history W history)
          (instruction_prefix p +:+ message) 2 = Raise e ->
        gemini_interactive W message history
        = (fallback_response,
           EvStartChat (format_history W history)
             :: retry_trace (instruction_prefix p +:+ message) 0 2)) /\
     (forall r,
        send_message W (format_history W history)
          (instruction_prefix p +:+ message) failures = Ok r ->
        (gemini_interactive W message history).2
          = EvStartChat (format_history W history)
              :: retry_trace (instruction_prefix p +:+ message) 0 failures /\
        (forall e, text r = Raise e ->
           (gemini_interactive W message history).1 = fallback_response) /\
        (forall reply_text e,
           text r = Ok reply_text -> json_loads W reply_text = Raise e ->
           (gemini_interactive W message history).1 = fallback_response) /\
        (forall reply_text reply e,
           text r = Ok reply_text -> json_loads W reply_text = Ok reply ->
           process_reply W p reply = Raise e ->
           (gemini_interactive W message history).1 = fallback_response) /\
        (forall reply_text reply g,
           text r = Ok reply_text -> json_loads W reply_text = Ok reply ->
           process_reply W p reply = Ok g ->
           (gemini_interactive W message history).1 = g))) /\
  fallback_response !! "follow_up_options"
    = Some (strs ["Try asking again"; "Start a new conversation"]) /\
  fallback_response !! "needs_follow_up" = Some (PBool true).
Proof.
  split_and!.
  - destruct (gemini_interactive_cases W message history) as (Hev & _).
    cbv zeta in Hev. rewrite Hev.
    destruct (ask_model_events W message history)
      as [[-> _]|(f & [[-> _]|(c & n & Hn & -> & _)])];
      [unfold sends; simpl; lia..|].
    unfold sends. cbn [List.filter is_send]. fold (sends (retry_trace c 0 n)).
    rewrite sends_retry_trace. lia.
  - destruct (gemini_interactive_cases W message history) as (Hev & _).
    cbv zeta in Hev. rewrite Hev.
    destruct (ask_model_events W message history)
      as [[-> _]|(f & [[-> _]|(c & n & Hn & -> & Hfail & Hlast & _)])];
      [by left|right; exists f; by left|].
    right. exists f. right. exists c, n. split_and!; done.
  - intros e He. unfold gemini_interactive, gemini_interactive_body, ask_model.
    by rewrite He.
  - intros p e Hp He.
    unfold gemini_interactive, gemini_interactive_body, ask_model.
    by rewrite Hp, He.
  - intros p failures Hp Hchat Hle Hfail. split.
    + intros e -> He.
      unfold gemini_interactive, gemini_interactive_body, ask_model.
      rewrite Hp, Hchat. by rewrite (send_with_retry_all_fail _ _ _ _ Hfail He).
    + intros r Hr.
      unfold gemini_interactive, gemini_interactive_body, ask_model.
      rewrite Hp, Hchat.
      rewrite (send_with_retry_first_success _ _ _ _ _ Hle Hfail Hr).
      cbn [mbind res_bind].
      destruct (text r) as [reply_text|e1] eqn:Etext;
        cbn [mbind res_bind fst snd];
        [destruct (json_loads W reply_text) as [reply|e2] eqn:Eloads;
         cbn [mbind res_bind fst snd];
         [destruct (process_reply W p reply) as [g|e3] eqn:Eproc;
          cbn [fst snd]|]|];
        (split; [reflexivity|]);
        (split; [intros e Ht; congruence|]);
        (split; [intros t e Ht Hl; congruence|]);
        (split; [intros t y e Ht Hl Hq; congruence|]);
        intros t y g' Ht Hl Hq; congruence.
  - by_compute.
  - by_compute.
Qed.

(** C5 in a world whose model is unreachable: three calls with two
    pauses, then the fallback. *)
Lemma retries_are_bounded_and_failures_fall_back_witness :
  select_instruction offline_world "I feel sick" None
    = Ok (mk_prompting (initial_symptom_prefix "4") 1 (PInt 4)) /\
  start_chat offline_world (format_history offline_world None) = Ok tt /\
  (forall k, (k < 2)%nat ->
     is_ok (send_message offline_world (format_history offline_world None)
              (initial_symptom_prefix "4" +:+ "I feel sick") k) = false) /\
  send_message offline_world (format_history offline_world None)
    (initial_symptom_prefix "4" +:+ "I feel sick") 2
    = raise (OtherException "ServiceUnavailable") "503" /\
  gemini_interactive offline_world "I feel sick" None
    = (fallback_response,
       [ EvStartChat (format_history offline_world None);
         EvSend 0 (initial_symptom_prefix "4" +:+ "I feel sick"); EvSleep 1;
         EvSend 1 (initial_symptom_prefix "4" +:+ "I feel sick"); EvSleep 1;
         EvSend 2 (initial_symptom_prefix "4" +:+ "I feel sick") ]).
Proof.
  assert (Hp : select_instruction offline_world "I feel sick" None
               = Ok (mk_prompting (initial_symptom_prefix "4") 1 (PInt 4)))
    by (by_compute).
  assert (Hfail : forall k, (k < 2)%nat ->
     is_ok (send_message offline_world (format_history offline_world None)
              (initial_symptom_prefix "4" +:+ "I feel sick") k) = false)
    by (intros; exact eq_refl).
  split; [exact Hp|]. split; [reflexivity|]. split; [exact Hfail|].
  split; [reflexivity|].
  destruct (retries_are_bounded_and_failures_fall_back offline_world "I feel sick" None)
    as (_ & _ & _ & _ & Hsend & _).
  destruct (Hsend _ 2%nat Hp eq_refl ltac:(lia) Hfail) as [Hall _].
  exact (Hall _ eq_refl eq_refl).
Defined.

(* ===================================================================== *)
(** ** The capitalisation heuristic on medication names *)
(* ===================================================================== *)

Lemma upper_not_lower c : PyStr.is_upper c = true -> PyStr.is_lower c = false.
Proof.
  unfold PyStr.is_upper, PyStr.is_lower.
  intros [_ H]%andb_prop. apply Nat.leb_le in H.
  apply andb_false_iff. left. apply Nat.leb_gt. lia.
Qed.

Lemma lower_not_upper c : PyStr.is_lower c = true -> PyStr.is_upper c = false.
Proof.
  intros H. destruct (PyStr.is_upper c) eqn:E; [|done].
  apply upper_not_lower in E. congruence.
Qed.

Lemma append_cons c (s t : string) : String c s +:+ t = String c (s +:+ t).
Proof. reflexivity. Qed.

Lemma append_empty_l (t : string) : "" +:+ t = t.
Proof. reflexivity. Qed.

Lemma append_empty_r (s : string) : s +:+ "" = s.
Proof. induction s as [|c s IH]; [done|]. by rewrite append_cons, IH. Qed.

Lemma append_assoc (s1 s2 s3 : string) : (s1 +:+ s2) +:+ s3 = s1 +:+ (s2 +:+ s3).
Proof. induction s1 as [|c s1 IH]; [done|]. by rewrite !append_cons, IH. Qed.

(** Reading on without a match in progress skips the characters that are
    not upper-case letters. *)
Lemma findall_caps_skip c s :
  PyStr.is_upper c = false ->
  PyStr.findall_caps_from None (String c s) = PyStr.findall_caps_from None s.
Proof.
  intros H. cbn [PyStr.findall_caps_from]. rewrite H.
  by destruct (PyStr.is_lower c).
Qed.

(** A match in progress takes the lower-case letters that follow and is
    closed by what comes next. *)
Lemma findall_caps_run r lows rest :
  all_lower lows = true ->
  starts_lower rest = false ->
  PyStr.findall_caps_from (Some r) (lows +:+ rest)
  = (r +:+ lows) :: PyStr.findall_caps_from None rest.
Proof.
  revert r. induction lows as [|c lows IH]; intros r Hl Hr.
  - rewrite append_empty_r, append_empty_l.
    destruct rest as [|c rest]; [done|].
    cbn [starts_lower] in Hr. cbn [PyStr.findall_caps_from]. rewrite Hr.
    by destruct (PyStr.is_upper c).
  - unfold all_lower in Hl. cbn [list_ascii_of_string forallb] in Hl.
    apply andb_prop in Hl as [Hc Hl].
    rewrite append_cons. cbn [PyStr.findall_caps_from].
    rewrite (lower_not_upper _ Hc), Hc.
    rewrite IH by done. by rewrite append_assoc.
Qed.

(** Every string splits into its leading lower-case letters and a rest
    that does not start with one. *)
Lemma leading_lower (s : string) :
  exists lows rest,
    s = lows +:+ rest /\ all_lower lows = true /\ starts_lower rest = false /\
    (String.length rest <= String.length s)%nat.
Proof.
  induction s as [|c s (lows & rest & -> & Hl & Hr & Hlen)].
  - by exists "", "".
  - destruct (PyStr.is_lower c) eqn:Hc.
    + exists (String c lows), rest. split_and!; try done.
      * unfold all_lower in *. cbn [list_ascii_of_string forallb]. by rewrite Hc.
      * simpl. lia.
    + exists "", (String c (lows +:+ rest)). by split_and!.
Qed.

Lemma findall_caps_runs_aux n : forall s,
  (String.length s <= n)%nat -> cap_runs s (PyStr.findall_caps_from None s).
Proof.
  induction n as [|n IH]; intros s Hn.
  - destruct s; [constructor|simpl in Hn; lia].
  - destruct s as [|c s]; [constructor|].
    destruct (PyStr.is_upper c) eqn:Hc.
    + destruct (leading_lower s) as (lows & rest & -> & Hl & Hr & Hlen).
      cbn [PyStr.findall_caps_from PyStr.flush app]. rewrite Hc.
      rewrite findall_caps_run by done. rewrite append_cons, append_empty_l.
      apply cap_runs_run; try done. apply IH. simpl in Hn. lia.
    + rewrite findall_caps_skip by done.
      apply cap_runs_skip; [done|]. apply IH. simpl in Hn. lia.
Qed.

(** [findall_caps] returns the maximal capitalised runs. *)
Lemma findall_caps_runs s : cap_runs s (PyStr.findall_caps s).
Proof. by apply (findall_caps_runs_aux (String.length s)). Qed.

(** ... and nothing else does. *)
Lemma cap_runs_unique s runs : cap_runs s runs -> runs = PyStr.findall_caps s.
Proof.
  unfold PyStr.findall_caps.
  induction 1 as [|c s runs Hc H IH|c lows rest runs Hc Hl Hr H IH].
  - done.
  - by rewrite findall_caps_skip.
  - cbn [PyStr.findall_caps_from PyStr.flush app]. rewrite Hc.
    rewrite findall_caps_run by done. rewrite append_cons, append_empty_l.
    by rewrite IH.
Qed.

(** C8 -- the medication post-processing replaces each medication string
    by the list of its maximal runs of one upper-case letter followed by
    lower-case letters; ["IbuprofenAcetaminophen"] becomes
    ["Ibuprofen", "Acetaminophen"], also in the dict that
    [gemini_interactive] returns; a string without such a run is kept
    unchanged. *)
Theorem medication_split_at_capitals (s : string) (runs : list string)
    (d : dict) (meds : list pyval) :
  (cap_runs s runs <-> runs = PyStr.findall_caps s) /\
  (cap_runs s runs -> runs <> [] -> split_medication (PStr s) = PStr <$> runs) /\
  (cap_runs s [] -> split_medication (PStr s) = [PStr s]) /\
  (d !! "medication" = Some (PList meds) ->
   post_process_medication d !! "medication"
   = Some (PList (flat_map split_medication meds))) /\
  PyStr.findall_caps "IbuprofenAcetaminophen" = ["Ibuprofen"; "Acetaminophen"] /\
  (gemini_interactive medication_world "What can I take?" None).1 !! "medication"
  = Some (strs ["Ibuprofen"; "Acetaminophen"]).
Proof.
  split_and!.
  - split; [apply cap_runs_unique|]. intros ->. apply findall_caps_runs.
  - intros H Hne. apply cap_runs_unique in H. subst runs.
    unfold split_medication. by destruct (PyStr.findall_caps s).
  - intros H. apply cap_runs_unique in H.
    unfold split_medication. by rewrite <- H.
  - intros H. unfold post_process_medication, Py.get. rewrite H.
    cbn [default from_option id]. by rewrite lookup_insert_eq.
  - by_compute.
  - by_compute.
Qed.

(** C8 on ["aspirin"] and ["VitaminC"]. *)
Lemma medication_split_at_capitals_witness :
  cap_runs "aspirin" [] /\
  cap_runs "VitaminC" ["Vitamin"; "C"] /\
  split_medication (PStr "aspirin") = [PStr "aspirin"] /\
  split_medication (PStr "VitaminC") = [PStr "Vitamin"; PStr "C"] /\
  post_process_medication (mkdict [("medication", strs ["VitaminC"; "aspirin"])])
    !! "medication"
  = Some (PList (flat_map split_medication [PStr "VitaminC"; PStr "aspirin"])).
Proof.
  assert (H0 : cap_runs "aspirin" []).
  { apply (medication_split_at_capitals "aspirin" [] ∅ []). by_compute. }
  assert (H1 : cap_runs "VitaminC" ["Vitamin"; "C"]).
  { apply (medication_split_at_capitals "VitaminC" ["Vitamin"; "C"] ∅ []).
    by_compute. }
  split; [exact H0|]. split; [exact H1|].
  split; [exact (proj1 (proj2 (proj2 (medication_split_at_capitals "aspirin" [] ∅ [])))
                   H0)|].
  split.
  { exact (proj1 (proj2 (medication_split_at_capitals "VitaminC" ["Vitamin"; "C"] ∅ []))
             H1 ltac:(discriminate)). }
  apply (medication_split_at_capitals "" []
           (mkdict [("medication", strs ["VitaminC"; "aspirin"])])
           [PStr "VitaminC"; PStr "aspirin"]).
  by_compute.
Defined.

(* ===================================================================== *)
(** ** The fields of the payload *)
(* ===================================================================== *)









(** The cases of the route. *)
Lemma route_cases W request_json :
  (exists msg,
     gemini_interactive_route W request_json = (bad_request msg, []))
  \/ (exists e,
        gemini_interactive_route W request_json
        = (data_response 500 (error_payload e), []))
  \/ (exists message history,
        read_request W request_json = Ok (inr (message, history))).
Proof.
  unfold gemini_interactive_route, route_body.
  destruct (read_request W request_json) as [[early|[message history]]|e] eqn:E.
  - left. revert E. unfold read_request.
    destruct request_json as [data|e]; [|discriminate].
    cbn [mbind res_bind].
    repeat match goal with
           | |- (if ?c then _ else _) = _ -> _ => destruct c
           | |- (?m ≫= _) = _ -> _ => destruct m; cbn [mbind res_bind]
           | |- match ?v with PNone => _ | _ => _ end = _ -> _ => destruct v
           end;
      intros [= <-] || discriminate; eauto.
  - right. right. eauto.
  - right. left. eauto.
Qed.








(* ===================================================================== *)
(** ** Further properties of [gemini_interactive] and of its route *)
(* ===================================================================== *)

(** *** Completion and follow-up in what the client receives *)

(** The route's sanity checks leave every field but the disclaimer as
    [gemini_interactive] returned it, or end with a complete conversation
    that asks nothing. *)
Lemma sanity_checks_cases history (g : dict) :
  (forall k, k <> "Disclaimer" -> sanity_checks history g !! k = g !! k)
  \/ (sanity_checks history g !! "needs_follow_up" = Some (PBool false) /\
      exists complete,
        sanity_checks history g !! "conversation_complete" = Some complete /\
        Py.truthy complete = true).
Proof.
  unfold sanity_checks.
  set (total := (if history_truthy history then history_len history else 0) + 1).
  unfold force_completion.
  destruct (negb (Py.truthy (Py.get g "conversation_complete" (PBool false)))
            && (100 <=? total)) eqn:Hforce.
  - right.
    set (d1 := <["follow_up_question" := PStr ""]>
                 (<["needs_follow_up" := PBool false]>
                    (<["conversation_complete" := PBool true]> g))).
    set (d2 := if Py.truthy (Py.get d1 "is_medical_related" (PBool true))
               then <["can_provide_structured_response" := PBool true]> d1 else d1).
    assert (Hc2 : d2 !! "conversation_complete" = Some (PBool true)).
    { subst d2 d1. destruct (Py.truthy (Py.get _ "is_medical_related" _));
        by rewrite !lookup_insert_ne, ?lookup_insert_eq by done. }
    assert (Hn2 : d2 !! "needs_follow_up" = Some (PBool false)).
    { subst d2 d1. destruct (Py.truthy (Py.get _ "is_medical_related" _));
        rewrite ?(lookup_insert_ne _ "can_provide_structured_response") by done;
        rewrite lookup_insert_ne by done; by rewrite lookup_insert_eq. }
    unfold fix_inconsistency.
    rewrite (get_lookup _ _ _ _ Hc2), (get_lookup _ _ _ _ Hn2).
    cbn [Py.truthy andb].
    rewrite !setdefault_lookup_ne by done. eauto.
  - unfold fix_inconsistency.
    destruct (Py.truthy (Py.get g "conversation_complete" PNone)
              && Py.truthy (Py.get g "needs_follow_up" PNone)) eqn:Hfix.
    + right. apply andb_prop in Hfix as [Hc _].
      rewrite !setdefault_lookup_ne by done.
      rewrite lookup_insert_ne by done. rewrite lookup_insert_eq.
      split; [done|].
      rewrite !lookup_insert_ne by done.
      unfold Py.get in Hc. destruct (g !! "conversation_complete") as [c|]; [|done].
      eauto.
    + left. intros k Hk. by rewrite setdefault_lookup_ne.
Qed.

Lemma payload_error_payload W request_json e (d : dict) :
  (gemini_interactive_route W request_json).1 = data_response 500 (error_payload e) ->
  payload (gemini_interactive_route W request_json).1 = Some d ->
  d = error_payload e.
Proof. intros -> Hd. rewrite payload_data_response in Hd. congruence. Qed.

(** What the route can answer: a 400 without payload, the error payload,
    the restart payload, or the checked dict of [gemini_interactive]. *)
Lemma route_payload_cases W request_json (d : dict) :
  payload (gemini_interactive_route W request_json).1 = Some d ->
  (exists e, d = error_payload e) \/ d = restart_payload
  \/ exists message history,
       read_request W request_json = Ok (inr (message, history)) /\
       is_restart (str_lower W message) = false /\
       (gemini_interactive_route W request_json).2
         = (gemini_interactive W message history).2 /\
       d = sanity_checks history (gemini_interactive W message history).1.
Proof.
  intros Hd.
  destruct (route_cases W request_json) as [(msg & E)|[(e & E)|(message & history & E)]].
  - rewrite E in Hd. discriminate Hd.
  - rewrite E in Hd. cbn [fst] in Hd. rewrite payload_data_response in Hd.
    left. exists e. congruence.
  - rewrite (route_of_request W _ _ _ E) in Hd |- *.
    destruct (is_restart (str_lower W message)) eqn:Hr.
    + cbn [fst] in Hd. rewrite payload_data_response in Hd.
      right. left. congruence.
    + cbn [fst snd] in Hd |- *. rewrite payload_data_response in Hd.
      right. right. exists message, history. split_and!; try done. congruence.
Qed.

(** X1. A dict returned by [gemini_interactive], and a payload sent by its
    route, never reports a complete conversation that still needs a
    follow-up: whenever conversation_complete is truthy, needs_follow_up is
    the boolean false. *)
Theorem complete_conversation_needs_no_follow_up
    W message history request_json (d : dict) complete :
  d = (gemini_interactive W message history).1 \/
  payload (gemini_interactive_route W request_json).1 = Some d ->
  d !! "conversation_complete" = Some complete ->
  Py.truthy complete = true ->
  d !! "needs_follow_up" = Some (PBool false).
Proof.
  assert (Hfun : forall m h c,
    (gemini_interactive W m h).1 !! "conversation_complete" = Some c ->
    Py.truthy c = true ->
    (gemini_interactive W m h).1 !! "needs_follow_up" = Some (PBool false)).
  { intros m h c Hc Ht.
    destruct (gemini_interactive_consistent W m h)
      as (c' & _ & _ & Hc' & _ & _ & Hn & _).
    apply Hn. congruence. }
  intros [->|Hd] Hc Ht; [by eapply Hfun|].
  destruct (route_payload_cases W request_json d Hd)
    as [(e & ->)|[->|(m & h & _ & _ & _ & ->)]].
  - reflexivity.
  - vm_compute in Hc. injection Hc as <-. discriminate Ht.
  - destruct (sanity_checks_cases h (gemini_interactive W m h).1) as [Hsame|[Hn _]];
      [|exact Hn].
    rewrite Hsame in Hc |- * by done. by eapply Hfun.
Qed.

Lemma complete_conversation_needs_no_follow_up_witness :
  payload (gemini_interactive_route weather_world
             (post_body (PStr "What's the weather?") (PList []))).1
    = Some (sanity_checks (Some [])
              (gemini_interactive weather_world "What's the weather?" (Some [])).1) /\
  sanity_checks (Some [])
    (gemini_interactive weather_world "What's the weather?" (Some [])).1
    !! "conversation_complete" = Some (PBool true) /\
  sanity_checks (Some [])
    (gemini_interactive weather_world "What's the weather?" (Some [])).1
    !! "needs_follow_up" = Some (PBool false).
Proof.
  assert (H1 : payload (gemini_interactive_route weather_world
             (post_body (PStr "What's the weather?") (PList []))).1
    = Some (sanity_checks (Some [])
              (gemini_interactive weather_world "What's the weather?" (Some [])).1)).
  { rewrite (route_of_request weather_world _ "What's the weather?" (Some []))
      by (by_compute).
    replace (is_restart (str_lower weather_world "What's the weather?")) with false by (by_compute).
    unfold fst. apply payload_data_response. }
  assert (H2 : sanity_checks (Some [])
    (gemini_interactive weather_world "What's the weather?" (Some [])).1
    !! "conversation_complete" = Some (PBool true)) by (by_compute).
  split_and!; [exact H1|exact H2|].
  exact (complete_conversation_needs_no_follow_up weather_world
           "What's the weather?" None
           (post_body (PStr "What's the weather?") (PList []))
           _ (PBool true) (or_intror H1) H2 eq_refl).
Defined.

(** *** Interactive follow-ups *)

Lemma get_default_truthy (d : dict) k dflt :
  Py.truthy (Py.get d k PNone) = true -> Py.get d k dflt = Py.get d k PNone.
Proof. unfold Py.get. by destruct (d !! k). Qed.

Lemma strs_truthy s l : Py.truthy (strs (s :: l)) = true.
Proof. reflexivity. Qed.

(** Lines 887-904 leave a [select] or [multiselect] follow-up with
    options. *)
Lemma fill_missing_options_spec {W} t o (d d' : dict) :
  fill_missing_options W t o d = Ok d' ->
  d !! "follow_up_type" = Some t ->
  o = Py.get d "follow_up_options" (PList []) ->
  d' !! "follow_up_type" = Some t /\
  d' !! "follow_up_question" = d !! "follow_up_question" /\
  d' !! "needs_follow_up" = d !! "needs_follow_up" /\
  (t = PStr "select" \/ t = PStr "multiselect" ->
   exists options, d' !! "follow_up_options" = Some options /\
                   Py.truthy options = true).
Proof.
  intros H Ht Ho. unfold fill_missing_options in H.
  assert (Hkeep : d' = d -> Py.truthy o = true ->
    exists options, d' !! "follow_up_options" = Some options /\
                    Py.truthy options = true).
  { intros -> Hto. subst o. unfold Py.get in Hto.
    destruct (d !! "follow_up_options") as [v|]; [eauto|discriminate]. }
  destruct (Py.eq_str t "select") eqn:Hsel; cbn [andb] in H.
  - destruct (Py.truthy o) eqn:Hto; cbn [negb] in H.
    + destruct (Py.eq_str t "multiselect"); cbn [andb] in H;
        injection H as <-; split_and!; auto.
    + res_inv.
      repeat match type of H with
             | (if ?c then _ else _) = _ => destruct c
             end;
        injection H as <-; rewrite !lookup_insert_ne by done;
        (split_and!; [done..|]); intros _; rewrite lookup_insert_eq;
        eexists; (split; [reflexivity|reflexivity]).
  - destruct (Py.eq_str t "multiselect") eqn:Hmul; cbn [andb] in H.
    + destruct (Py.truthy o) eqn:Hto; cbn [negb] in H.
      * injection H as <-. split_and!; auto.
      * res_inv.
        repeat match type of H with
               | (if ?c then _ else _) = _ => destruct c
               end;
          injection H as <-; rewrite !lookup_insert_ne by done;
          (split_and!; [done..|]); intros _; rewrite lookup_insert_eq;
          eexists; (split; [reflexivity|reflexivity]).
    + injection H as <-. split_and!; try done.
      apply eq_str_false in Hsel, Hmul. intros [->| ->]; done.
Qed.

(** Lines 907-934 turn a [text] follow-up into a [select] or a
    [multiselect] only together with options. *)
Lemma convert_text_follow_up_spec {W} t (d d' : dict) :
  convert_text_follow_up W t d = Ok d' ->
  d' !! "needs_follow_up" = d !! "needs_follow_up" /\
  (d' = d \/
   t = PStr "text" /\
   ((exists t' options,
       (t' = PStr "select" \/ t' = PStr "multiselect") /\
       d' !! "follow_up_type" = Some t' /\
       d' !! "follow_up_options" = Some options /\ Py.truthy options = true)
    \/ d' !! "follow_up_type" = Some (PStr "scale"))).
Proof.
  intros H. unfold convert_text_follow_up in H.
  destruct (Py.eq_str t "text") eqn:Ht; [|injection H as <-; auto].
  apply eq_str_true in Ht.
  res_inv.
  repeat match type of H with
         | (if ?c then _ else _) = _ => destruct c
         end; res_inv;
    rewrite ?lookup_insert_ne by done;
    (split; [done|]); try (by left); right; (split; [done|]).
  - left. exists (PStr "select"), duration_options.
    rewrite ?lookup_insert_eq; rewrite ?lookup_insert_ne by done;
      rewrite ?lookup_insert_eq. auto.
  - left. exists (PStr "select"), yes_no_options.
    rewrite ?lookup_insert_eq; rewrite ?lookup_insert_ne by done;
      rewrite ?lookup_insert_eq. auto.
  - left. exists (PStr "multiselect"), symptom_options.
    rewrite ?lookup_insert_eq; rewrite ?lookup_insert_ne by done;
      rewrite ?lookup_insert_eq. auto.
  - right. rewrite ?lookup_insert_ne by done. by rewrite lookup_insert_eq.
  - right. by rewrite lookup_insert_eq.
Qed.

Lemma complete_follow_up_spec {W} (d d' : dict) needs t :
  complete_follow_up W d = Ok d' ->
  is_Some (d !! "follow_up_type") ->
  d' !! "needs_follow_up" = Some needs -> Py.truthy needs = true ->
  d' !! "follow_up_type" = Some t ->
  t = PStr "select" \/ t = PStr "multiselect" ->
  exists options, d' !! "follow_up_options" = Some options /\
                  Py.truthy options = true.
Proof.
  intros H [t0 Ht0] Hn Htn Ht Hsel. unfold complete_follow_up in H.
  destruct (Py.truthy (Py.get d "needs_follow_up" (PBool false))) eqn:Hneeds.
  - res_inv. rename x into d1.
    rewrite (get_lookup _ _ _ _ Ht0) in H0, H.
    destruct (fill_missing_options_spec _ _ _ _ H0 Ht0 eq_refl)
      as (Ht1 & _ & _ & Hopt1).
    destruct (convert_text_follow_up_spec _ _ _ H) as (_ & [->|(-> & Hconv)]).
    + apply Hopt1. assert (t = t0) as -> by congruence. done.
    + destruct Hconv as [(t' & options & _ & _ & Ho & Hto)|Hscale]; [eauto|].
      rewrite Hscale in Ht. injection Ht as <-. destruct Hsel; discriminate.
  - injection H as <-. rewrite (get_lookup _ _ _ _ Hn) in Hneeds. congruence.
Qed.

Lemma ensure_scale_question_spec (d d' : dict) :
  ensure_scale_question d = Ok d' ->
  (forall k, k <> "follow_up_question" -> d' !! k = d !! k) /\
  (d' !! "follow_up_type" = Some (PStr "scale") ->
   exists q, d' !! "follow_up_question" = Some q /\ Py.truthy q = true).
Proof.
  intros H. unfold ensure_scale_question in H.
  destruct (Py.eq_str (Py.get d "follow_up_type" PNone) "scale") eqn:Hscale;
    cbn [andb] in H.
  - destruct (Py.truthy (Py.get d "follow_up_question" PNone)) eqn:Hq; cbn [negb] in H.
    + injection H as <-. split; [done|]. intros _.
      unfold Py.get in Hq. destruct (d !! "follow_up_question"); [eauto|done].
    + res_inv. split; [intros k Hk; by rewrite lookup_insert_ne|].
      intros _. rewrite lookup_insert_eq. eexists. split; [done|].
      unfold scale_question in H0. res_inv.
      by destruct (negb _).
  - injection H as <-. split; [done|]. intros Ht.
    rewrite (get_lookup _ _ _ _ Ht) in Hscale. discriminate.
Qed.

Lemma updates_writes_keeps keys untyped (d d' : dict) :
  updates (writes keys untyped) d d' ->
  forall k0, ~ In k0 keys -> d' !! k0 = d !! k0.
Proof. intros Hu k0 Hk. by eapply updates_writes_frame. Qed.

(** The enforcement steps assign needs_follow_up only the boolean false
    and leave the follow-up type and options alone. *)
Lemma enforce_logic_follow_up (d g : dict) :
  enforce_logic d = Ok g ->
  g !! "follow_up_type" = d !! "follow_up_type" /\
  g !! "follow_up_options" = d !! "follow_up_options" /\
  (g !! "needs_follow_up" = d !! "needs_follow_up" \/
   g !! "needs_follow_up" = Some (PBool false)).
Proof.
  intros H.
  pose proof (enforce_logic_updates _ _ H) as Hu.
  pose proof (post_process_medication_updates d) as Hm.
  split_and!.
  - rewrite (updates_writes_keeps _ _ _ _ Hu "follow_up_type" ltac:(not_in)).
    apply (updates_writes_keeps _ _ _ _ Hm "follow_up_type" ltac:(not_in)).
  - rewrite (updates_writes_keeps _ _ _ _ Hu "follow_up_options" ltac:(not_in)).
    apply (updates_writes_keeps _ _ _ _ Hm "follow_up_options" ltac:(not_in)).
  - unfold enforce_logic in H. res_inv. rename x into d3, x0 into d4.
    destruct (sync_medical_flags_spec _ _ H) as (_ & _ & p' & _ & _ & -> & _).
    rewrite lookup_insert_ne by done.
    assert (H3 : d3 !! "needs_follow_up" = d !! "needs_follow_up"
                 \/ d3 !! "needs_follow_up" = Some (PBool false)).
    { destruct (enforce_complete_spec _ _ H0) as (c & _ & _ & _ & _ & Hsame & Hdone).
      destruct (Py.truthy c) eqn:Hc.
      - right. by apply Hdone.
      - left. rewrite (Hsame eq_refl).
        rewrite (updates_writes_keeps _ _ _ _ (force_brief_response_updates _) "needs_follow_up" ltac:(not_in)).
        apply (updates_writes_keeps _ _ _ _ Hm "needs_follow_up" ltac:(not_in)). }
    destruct (enforce_non_medical_spec _ _ H1) as (m & _ & [[_ ->]|[_ ->]]); [done|].
    right. destruct (clear_structured_fields_cleared d3) as (_&_&_&_&_&_&Hn&_). done.
Qed.

(** X2. A follow-up of type [select] or [multiselect] always comes with
    options: in a dict returned by [gemini_interactive], and in a payload
    sent by its route, a truthy needs_follow_up with one of these two types
    means that follow_up_options is present and not empty. *)
Theorem choice_follow_up_has_options
    W message history request_json (d : dict) needs t :
  d = (gemini_interactive W message history).1 \/
  payload (gemini_interactive_route W request_json).1 = Some d ->
  d !! "needs_follow_up" = Some needs -> Py.truthy needs = true ->
  d !! "follow_up_type" = Some t ->
  t = PStr "select" \/ t = PStr "multiselect" ->
  exists options,
    d !! "follow_up_options" = Some options /\ Py.truthy options = true.
Proof.
  assert (Hfun : forall m h n t,
    (gemini_interactive W m h).1 !! "needs_follow_up" = Some n ->
    Py.truthy n = true ->
    (gemini_interactive W m h).1 !! "follow_up_type" = Some t ->
    t = PStr "select" \/ t = PStr "multiselect" ->
    exists options,
      (gemini_interactive W m h).1 !! "follow_up_options" = Some options /\
      Py.truthy options = true).
  { intros m h n t' Hn Htn Ht Hsel.
    destruct (gemini_interactive_cases W m h) as [_ [(p & reply & _ & Hp)|[_ Hfb]]].
    - destruct (process_reply_spec _ _ _ Hp) as (rd & d1 & _ & Hset & Henf).
      destruct (enforce_logic_follow_up _ _ Henf) as (Et & Eo & En).
      rewrite Eo. rewrite Et in Ht.
      assert (Hn1 : d1 !! "needs_follow_up" = Some n).
      { destruct En as [<-|En]; [done|].
        rewrite En in Hn. injection Hn as <-. discriminate Htn. }
      clear Hn En Et Eo Henf Hp.
      unfold set_defaults in Hset. res_inv. rename x into d2, x0 into d3.
      destruct (ensure_scale_question_spec _ _ H0) as [Hsame _].
      pose proof (set_other_defaults_updates d3) as Hu.
      rewrite (updates_writes_keeps _ _ _ _ Hu "follow_up_type" ltac:(not_in)) in Ht.
      rewrite (updates_writes_keeps _ _ _ _ Hu "needs_follow_up" ltac:(not_in)) in Hn1.
      rewrite (updates_writes_keeps _ _ _ _ Hu "follow_up_options" ltac:(not_in)).
      rewrite Hsame in Ht, Hn1 |- * by done.
      eapply complete_follow_up_spec; try eassumption.
      unfold set_follow_up_defaults. rewrite setdefault_lookup. eauto.
    - rewrite Hfb. exists (strs ["Try asking again"; "Start a new conversation"]).
      split; [by_compute|reflexivity]. }
  intros [->|Hd] Hn Htn Ht Hsel; [by eapply Hfun|].
  destruct (route_payload_cases W request_json d Hd)
    as [(e & ->)|[->|(m & h & _ & _ & _ & ->)]].
  - vm_compute in Hn. injection Hn as <-. discriminate Htn.
  - vm_compute in Hn. injection Hn as <-. discriminate Htn.
  - destruct (sanity_checks_cases h (gemini_interactive W m h).1) as [Hsame|[Hfalse _]].
    + rewrite Hsame in Hn, Ht |- * by done. by eapply Hfun.
    + rewrite Hfalse in Hn. injection Hn as <-. discriminate Htn.
Qed.

Lemma choice_follow_up_has_options_witness :
  (gemini_interactive follow_up_world "I have a fever" None).1
    !! "needs_follow_up" = Some (PBool true) /\
  (gemini_interactive follow_up_world "I have a fever" None).1
    !! "follow_up_type" = Some (PStr "select") /\
  exists options,
    (gemini_interactive follow_up_world "I have a fever" None).1
      !! "follow_up_options" = Some options /\ Py.truthy options = true.
Proof.
  assert (H1 : (gemini_interactive follow_up_world "I have a fever" None).1
                 !! "needs_follow_up" = Some (PBool true)) by (by_compute).
  assert (H2 : (gemini_interactive follow_up_world "I have a fever" None).1
                 !! "follow_up_type" = Some (PStr "select")) by (by_compute).
  split_and!; [exact H1|exact H2|].
  exact (choice_follow_up_has_options follow_up_world "I have a fever" None
           (Ok PNone) _ (PBool true) (PStr "select")
           (or_introl eq_refl) H1 eq_refl H2 (or_introl eq_refl)).
Defined.

Lemma enforce_logic_incomplete (d g : dict) complete :
  enforce_logic d = Ok g ->
  g !! "conversation_complete" = Some complete ->
  Py.truthy complete = false ->
  g !! "follow_up_question" = d !! "follow_up_question".
Proof.
  intros H Hc Htc. unfold enforce_logic in H. res_inv. rename x into d3, x0 into d4.
  destruct (sync_medical_flags_spec _ _ H) as (_ & _ & p' & _ & _ & -> & _).
  rewrite lookup_insert_ne in Hc |- * by done.
  destruct (enforce_non_medical_spec _ _ H1) as (m & _ & [[_ ->]|[_ ->]]).
  - destruct (enforce_complete_spec _ _ H0) as (c & _ & Hc3 & _ & _ & Hsame & _).
    assert (c = complete) as -> by congruence.
    rewrite (Hsame Htc).
    rewrite (updates_writes_keeps _ _ _ _ (force_brief_response_updates _)
               "follow_up_question" ltac:(not_in)).
    apply (updates_writes_keeps _ _ _ _ (post_process_medication_updates _)
             "follow_up_question" ltac:(not_in)).
  - destruct (clear_structured_fields_cleared d3) as (_&_&_&_&_&Hdone&_).
    rewrite Hdone in Hc. injection Hc as <-. discriminate Htc.
Qed.

(** X3. A follow-up of type [scale] in a conversation that is not complete
    always carries a question, in the returned dict and in the payload of
    the route: lines 937-942 write one where the model left it empty. *)
Theorem scale_follow_up_has_question
    W message history request_json (d : dict) complete :
  d = (gemini_interactive W message history).1 \/
  payload (gemini_interactive_route W request_json).1 = Some d ->
  d !! "follow_up_type" = Some (PStr "scale") ->
  d !! "conversation_complete" = Some complete -> Py.truthy complete = false ->
  exists question,
    d !! "follow_up_question" = Some question /\ Py.truthy question = true.
Proof.
  assert (Hfun : forall m h c,
    (gemini_interactive W m h).1 !! "follow_up_type" = Some (PStr "scale") ->
    (gemini_interactive W m h).1 !! "conversation_complete" = Some c ->
    Py.truthy c = false ->
    exists question,
      (gemini_interactive W m h).1 !! "follow_up_question" = Some question /\
      Py.truthy question = true).
  { intros m h c Ht Hc Htc.
    destruct (gemini_interactive_cases W m h) as [_ [(p & reply & _ & Hp)|[_ Hfb]]].
    - destruct (process_reply_spec _ _ _ Hp) as (rd & d1 & _ & Hset & Henf).
      rewrite (enforce_logic_incomplete _ _ _ Henf Hc Htc).
      destruct (enforce_logic_follow_up _ _ Henf) as (Et & _ & _).
      rewrite Et in Ht. clear Et Henf Hp Hc.
      unfold set_defaults in Hset. res_inv. rename x into d2, x0 into d3.
      pose proof (set_other_defaults_updates d3) as Hu.
      rewrite (updates_writes_keeps _ _ _ _ Hu "follow_up_type" ltac:(not_in)) in Ht.
      rewrite (updates_writes_keeps _ _ _ _ Hu "follow_up_question" ltac:(not_in)).
      destruct (ensure_scale_question_spec _ _ H0) as [_ Hq]. by apply Hq.
    - rewrite Hfb in Ht. vm_compute in Ht. discriminate Ht. }
  intros [->|Hd] Ht Hc Htc; [by eapply Hfun|].
  destruct (route_payload_cases W request_json d Hd)
    as [(e & ->)|[->|(m & h & _ & _ & _ & ->)]].
  - vm_compute in Ht. discriminate Ht.
  - vm_compute in Ht. discriminate Ht.
  - destruct (sanity_checks_cases h (gemini_interactive W m h).1)
      as [Hsame|[_ (c & Hc' & Htc')]].
    + rewrite Hsame in Ht, Hc |- * by done. by eapply Hfun.
    + congruence.
Qed.

Lemma scale_follow_up_has_question_witness :
  (gemini_interactive scale_world "It hurts" None).1
    !! "follow_up_type" = Some (PStr "scale") /\
  (gemini_interactive scale_world "It hurts" None).1
    !! "conversation_complete" = Some (PBool false) /\
  (gemini_interactive scale_world "It hurts" None).1 !! "follow_up_question"
    = Some (PStr "On a scale of 1 to 10, how would you rate your Headache?") /\
  exists question,
    (gemini_interactive scale_world "It hurts" None).1
      !! "follow_up_question" = Some question /\ Py.truthy question = true.
Proof.
  assert (H1 : (gemini_interactive scale_world "It hurts" None).1
                 !! "follow_up_type" = Some (PStr "scale")) by (by_compute).
  assert (H2 : (gemini_interactive scale_world "It hurts" None).1
                 !! "conversation_complete" = Some (PBool false)) by (by_compute).
  split_and!; [exact H1|exact H2|by_compute|].
  exact (scale_follow_up_has_question scale_world "It hurts" None (Ok PNone)
           _ (PBool false) (or_introl eq_refl) H1 H2 eq_refl).
Defined.

(** *** The instruction chosen for the model *)

Lemma instruction_tag_sufficient step total :
  instruction_tag (sufficient_info_prefix step total) = Some "L"%char.
Proof. reflexivity. Qed.

Lemma instruction_tag_continuing step total :
  instruction_tag (continuing_prefix step total) = Some "C"%char.
Proof. reflexivity. Qed.

Lemma instruction_tag_rating step total :
  instruction_tag (rating_prefix step total) = Some "U"%char.
Proof. reflexivity. Qed.

Lemma instruction_tag_initial total :
  instruction_tag (initial_symptom_prefix total) = Some "I"%char.
Proof. reflexivity. Qed.


(** X4. The instruction for long conversations (lines 831-832) is dead
    code: whatever the message and the history, [select_instruction] never
    chooses it, because every request with a history is taken by an earlier
    branch. *)
Theorem long_conversation_instruction_is_never_selected W message history p :
  select_instruction W message history = Ok p ->
  instruction_prefix p <> long_conversation_prefix.
Proof.
  unfold select_instruction. intros H E.
  apply (f_equal instruction_tag) in E.
  destruct (is_non_medical _); [injection H as <-; discriminate E|].
  destruct (is_high_severity _); [injection H as <-; discriminate E|].
  destruct (negb (history_truthy history) && _);
    [injection H as <-; cbn [instruction_prefix] in E;
     rewrite instruction_tag_initial in E; discriminate E|].
  destruct (history_truthy history) eqn:Hh; cbn [andb] in H.
  - destruct (PyStr.contains "rating" _ && _) eqn:Hr; cbn [negb] in H.
    + injection H as <-. cbn [instruction_prefix] in E.
      rewrite instruction_tag_rating in E. discriminate E.
    + res_inv. cbn [instruction_prefix] in E. destruct x0.
      * rewrite instruction_tag_sufficient in E. discriminate E.
      * rewrite instruction_tag_continuing in E. discriminate E.
  - destruct (PyStr.contains "rating" _ && _).
    + injection H as <-. cbn [instruction_prefix] in E.
      rewrite instruction_tag_rating in E. discriminate E.
    + injection H as <-. discriminate E.
Qed.

Lemma long_conversation_instruction_is_never_selected_witness :
  select_instruction follow_up_world "still coughing" (Some (long_history 12))
    = Ok (mk_prompting (sufficient_info_prefix "7" "4") 7 (PInt 4)) /\
  sufficient_info_prefix "7" "4" <> long_conversation_prefix.
Proof.
  assert (H : select_instruction follow_up_world "still coughing"
                (Some (long_history 12))
              = Ok (mk_prompting (sufficient_info_prefix "7" "4") 7 (PInt 4)))
    by (by_compute).
  split; [exact H|].
  exact (long_conversation_instruction_is_never_selected follow_up_world
           "still coughing" (Some (long_history 12)) _ H).
Defined.

Lemma select_instruction_history W message items :
  items <> [] ->
  is_non_medical (str_lower W message) = false ->
  is_high_severity (str_lower W message) = false ->
  PyStr.contains "rating" (str_lower W message)
    && re_search_rating W (str_lower W message) = false ->
  select_instruction W message (Some items) =
    total ← history_estimate W items (PInt 4);
    enough ← PyNum.int_ge (Z.of_nat (length items) / 2 + 1) total;
    Ok (mk_prompting
          (if enough : bool
           then sufficient_info_prefix
                  (pretty (Z.of_nat (length items) / 2 + 1)) (py_str W total)
           else continuing_prefix
                  (pretty (Z.of_nat (length items) / 2 + 1)) (py_str W total))
          (Z.of_nat (length items) / 2 + 1) total).
Proof.
  intros Hne Hnm Hhs Hr. unfold select_instruction.
  rewrite Hnm, Hhs, Hr.
  destruct items as [|x items]; [done|]. reflexivity.
Qed.

(** X5. For a message that is neither non-medical nor high-severity nor
    a rating response (one whose lower-case form holds "rating" and a
    match of [\d\s*/\s*10]), a history whose last entry is not a dict
    makes the whole call fall back before a chat is opened or a message is
    sent: [conversation_history[-1]['parts']] raises a TypeError, which
    the handler of lines 818-819 does not catch.  (The formatting loop of
    lines 764-772 skips such an entry silently.) *)
Theorem malformed_last_turn_skips_the_model W message items entry :
  last items = Some entry ->
  Py.is_dict entry = false ->
  is_non_medical (str_lower W message) = false ->
  is_high_severity (str_lower W message) = false ->
  PyStr.contains "rating" (str_lower W message)
    && re_search_rating W (str_lower W message) = false ->
  format_entry W entry = [] /\
  (exists msg, select_instruction W message (Some items) = Raise (mk_exn TypeError msg)) /\
  gemini_interactive W message (Some items) = (fallback_response, []).
Proof.
  intros Hlast Hdict Hnm Hhs Hr.
  assert (Hne : items <> []) by (intros ->; discriminate Hlast).
  assert (Hsel : exists msg,
            select_instruction W message (Some items) = Raise (mk_exn TypeError msg)).
  { rewrite select_instruction_history by done.
    unfold history_estimate, history_estimate_body, PyNum.last_item.
    rewrite Hlast. cbn [mbind res_bind].
    destruct entry; try discriminate Hdict; cbn; eauto. }
  split_and!; [by destruct entry| exact Hsel |].
  destruct Hsel as [msg Hsel].
  unfold gemini_interactive, gemini_interactive_body, ask_model.
  rewrite Hsel. reflexivity.
Qed.

Lemma malformed_last_turn_skips_the_model_witness :
  last [PStr "I have a cough"] = Some (PStr "I have a cough") /\
  is_non_medical (str_lower follow_up_world "it got worse") = false /\
  is_high_severity (str_lower follow_up_world "it got worse") = false /\
  gemini_interactive follow_up_world "it got worse" (Some [PStr "I have a cough"])
    = (fallback_response, []).
Proof.
  split_and!; [reflexivity|by_compute|by_compute|].
  apply (malformed_last_turn_skips_the_model follow_up_world "it got worse"
           [PStr "I have a cough"] (PStr "I have a cough"));
    [reflexivity|reflexivity|by_compute|by_compute|by_compute].
Defined.

(** X6. For a message that is neither non-medical nor high-severity nor
    a rating response: when the last entry of the history is a dict
    without ['parts'], with an empty ['parts'] list, or with a first part
    that is a string on which [json.loads] raises a JSONDecodeError, the
    error is absorbed: the estimate of the total number of steps stays 4,
    and the instruction is the sufficient-information one from step
    [len(history) // 2 + 1 = 4] on and the continuing one before. *)
Theorem unreadable_last_turn_keeps_estimate W message items (entry : dict) :
  last items = Some (PDict entry) ->
  entry !! "parts" = None \/
  entry !! "parts" = Some (PList []) \/
  (exists part rest e,
     entry !! "parts" = Some (PList (PStr part :: rest)) /\
     json_loads W part = Raise e /\ exn_type e = JSONDecodeError) ->
  is_non_medical (str_lower W message) = false ->
  is_high_severity (str_lower W message) = false ->
  PyStr.contains "rating" (str_lower W message)
    && re_search_rating W (str_lower W message) = false ->
  select_instruction W message (Some items) =
    let step := Z.of_nat (length items) / 2 + 1 in
    Ok (mk_prompting
          (if 4 <=? step then sufficient_info_prefix (pretty step) "4"
           else continuing_prefix (pretty step) "4")
          step (PInt 4)).
Proof.
  intros Hlast Hparts Hnm Hhs Hr.
  assert (Hne : items <> []) by (intros ->; discriminate Hlast).
  rewrite select_instruction_history by done.
  assert (Hest : history_estimate W items (PInt 4) = Ok (PInt 4)).
  { unfold history_estimate, history_estimate_body, PyNum.last_item.
    rewrite Hlast. cbn [mbind res_bind]. unfold PyNum.subscript_key, Py.getitem.
    destruct Hparts as [->|[->|(part & rest & e & -> & Hload & He)]].
    - reflexivity.
    - reflexivity.
    - cbn [mbind res_bind PyNum.subscript_zero loads]. rewrite Hload.
      cbn [mbind res_bind]. unfold history_handler_catches. by rewrite He. }
  rewrite Hest. reflexivity.
Qed.

Lemma unreadable_last_turn_keeps_estimate_witness :
  last [PDict (mkdict [("role", PStr "model"); ("message", PStr "Since when?")])]
    = Some (PDict (mkdict [("role", PStr "model"); ("message", PStr "Since when?")])) /\
  mkdict [("role", PStr "model"); ("message", PStr "Since when?")] !! "parts" = None /\
  select_instruction follow_up_world "two days"
    (Some [PDict (mkdict [("role", PStr "model"); ("message", PStr "Since when?")])])
  = Ok (mk_prompting (continuing_prefix "1" "4") 1 (PInt 4)).
Proof.
  split_and!; [reflexivity|by_compute|].
  apply (unreadable_last_turn_keeps_estimate follow_up_world "two days"
           [PDict (mkdict [("role", PStr "model"); ("message", PStr "Since when?")])]
           (mkdict [("role", PStr "model"); ("message", PStr "Since when?")]));
    [reflexivity|left; by_compute|by_compute|by_compute|by_compute].
Defined.

(** *** The step counter *)




(** *** The route and the model *)





(** *** The history handed to the model *)

Lemma format_entry_turns W entry :
  forallb is_chat_turn (format_entry W entry) = true /\
  (length (format_entry W entry) <= 1)%nat.
Proof.
  unfold format_entry.
  destruct entry as [| | | | |l|e]; try (split; [reflexivity|simpl; lia]).
  destruct (Py.has_key e "role" && Py.has_key e "parts") eqn:H1.
  - apply andb_prop in H1 as [Hrole Hparts].
    unfold Py.has_key in Hparts.
    apply bool_decide_eq_true in Hparts as [parts Hparts].
    rewrite (get_lookup _ _ _ _ Hparts).
    destruct parts as [| | | |part|parts|]; try (split; [reflexivity|simpl; lia]).
    destruct (forallb Py.is_str parts) eqn:Hstrs; [|split; [reflexivity|simpl; lia]].
    split; [|simpl; lia].
    cbn [forallb is_chat_turn]. by rewrite Hrole, Hparts, Hstrs.
  - destruct (Py.has_key e "role" && Py.has_key e "message");
      split; try reflexivity; simpl; lia.
Qed.

(** X9. Whatever the client sends as history, the list handed to
    [start_chat] holds only dicts with a role and a list of strings as
    parts; it starts with the system prompt and the model's confirmation,
    and every entry of the client's history contributes at most one
    element. *)
Theorem format_history_is_well_formed W history :
  forallb is_chat_turn (format_history W history) = true /\
  (exists rest,
     format_history W history
     = turn (PStr "user") (initial_system_prompt W)
         :: turn (PStr "model") (json_dumps W (PDict confirmation_turn)) :: rest /\
     (length rest <= length (history_items history))%nat) /\
  format_history W (Some []) = format_history W None.
Proof.
  unfold format_history. split_and!.
  - cbn [app forallb]. 
    assert (forallb is_chat_turn (flat_map (format_entry W) (history_items history))
            = true) as ->.
    { induction (history_items history) as [|entry l IH]; [done|].
      cbn [flat_map]. rewrite forallb_app, IH.
      by rewrite (proj1 (format_entry_turns W entry)). }
    reflexivity.
  - eexists. split; [reflexivity|].
    induction (history_items history) as [|entry l IH]; [done|].
    cbn [flat_map]. rewrite length_app. cbn [length].
    pose proof (proj2 (format_entry_turns W entry)). lia.
  - reflexivity.
Qed.

(** *** More on the splitting of medication names *)

Lemma cap_runs_words s runs :
  cap_runs s runs -> Forall (fun r => is_capitalised_word r = true) runs.
Proof.
  induction 1 as [|c s runs Hc _ IH|c lows rest runs Hc Hl Hr _ IH]; [done..|].
  apply Forall_cons. split; [|done]. cbn. by rewrite Hc, Hl.
Qed.

Lemma findall_caps_word r :
  is_capitalised_word r = true -> PyStr.findall_caps r = [r].
Proof.
  destruct r as [|c lows]; [done|]. cbn [is_capitalised_word].
  intros [Hc Hl]%andb_prop.
  unfold PyStr.findall_caps. cbn [PyStr.findall_caps_from]. rewrite Hc.
  cbn [PyStr.flush app].
  rewrite <- (append_empty_r lows) at 1.
  rewrite findall_caps_run by done.
  by rewrite append_cons, append_empty_l.
Qed.

Lemma split_medication_words (words : list string) :
  Forall (fun r => is_capitalised_word r = true) words ->
  flat_map split_medication (PStr <$> words) = PStr <$> words.
Proof.
  induction 1 as [|r words Hr _ IH]; [done|].
  cbn [fmap list_fmap flat_map]. cbn [fmap] in IH. rewrite IH.
  unfold split_medication at 1. by rewrite (findall_caps_word _ Hr).
Qed.

Lemma split_medication_again med :
  flat_map split_medication (split_medication med) = split_medication med.
Proof.
  destruct med as [| | | |s| |]; try reflexivity.
  unfold split_medication at 2 3.
  destruct (PyStr.findall_caps s) as [|r runs] eqn:E.
  - cbn [flat_map]. unfold split_medication. rewrite E. reflexivity.
  - apply split_medication_words. rewrite <- E.
    apply (cap_runs_words s), findall_caps_runs.
Qed.

Lemma flat_map_split_medication_again meds :
  flat_map split_medication (flat_map split_medication meds)
  = flat_map split_medication meds.
Proof.
  induction meds as [|med meds IH]; [done|].
  cbn [flat_map]. rewrite flat_map_app, IH. by rewrite split_medication_again.
Qed.

(** X10. The post-processing of the medication list is idempotent: a dict
    that went through it once is left unchanged by a second pass, because
    every name it produces is a single capitalised word or a name without
    capital letters. *)
Theorem post_process_medication_is_idempotent (d : dict) :
  post_process_medication (post_process_medication d) = post_process_medication d.
Proof.
  unfold post_process_medication at 2 3.
  destruct (Py.get d "medication" PNone) as [| | | | |meds|] eqn:E;
    try (unfold post_process_medication; by rewrite E).
  unfold post_process_medication.
  rewrite (get_lookup _ "medication" (PList (flat_map split_medication meds)) PNone)
    by apply lookup_insert_eq.
  rewrite insert_insert_eq. by rewrite flat_map_split_medication_again.
Qed.

Lemma all_letters_app s t :
  all_letters (s +:+ t) = all_letters s && all_letters t.
Proof.
  unfold all_letters. induction s as [|c s IH]; [done|].
  rewrite append_cons. cbn [list_ascii_of_string forallb]. rewrite IH.
  by rewrite andb_assoc.
Qed.

Lemma all_lower_letters s : all_lower s = true -> all_letters s = true.
Proof.
  unfold all_lower, all_letters. induction s as [|c s IH]; [done|].
  cbn [list_ascii_of_string forallb]. intros [Hc Hs]%andb_prop.
  rewrite (IH Hs). unfold is_letter. rewrite Hc. by rewrite orb_true_r.
Qed.

Lemma cap_runs_join s runs :
  cap_runs s runs -> all_letters s = true -> starts_lower s = false ->
  join_strings runs = s.
Proof.
  induction 1 as [|c s runs Hc _ IH|c lows rest runs Hc Hl Hr _ IH];
    intros Hletters Hstart; [done| |].
  - exfalso. unfold all_letters in Hletters.
    cbn [list_ascii_of_string forallb] in Hletters.
    apply andb_prop in Hletters as [Hletter _].
    unfold is_letter in Hletter. rewrite Hc in Hletter. cbn in Hletter, Hstart.
    congruence.
  - cbn [join_strings foldr]. fold (join_strings runs).
    rewrite IH; [by rewrite append_cons| |done].
    change (String c (lows +:+ rest)) with (String c "" +:+ (lows +:+ rest)) in Hletters.
    rewrite !all_letters_app in Hletters.
    by apply andb_prop in Hletters as [_ [_ ?]%andb_prop].
Qed.

Lemma join_words_letters runs :
  Forall (fun r => is_capitalised_word r = true) runs ->
  all_letters (join_strings runs) = true /\
  (runs <> [] -> starts_upper (join_strings runs) = true).
Proof.
  induction 1 as [|r runs Hr _ [IH _]]; [done|].
  cbn [join_strings foldr]. fold (join_strings runs).
  destruct r as [|c lows]; [done|]. cbn [is_capitalised_word] in Hr.
  apply andb_prop in Hr as [Hc Hl]. split.
  - rewrite all_letters_app, IH, andb_true_r.
    change (String c lows) with (String c "" +:+ lows).
    rewrite all_letters_app, (all_lower_letters _ Hl), andb_true_r.
    unfold all_letters, is_letter. cbn. by rewrite Hc.
  - intros _. by rewrite append_cons.
Qed.

(** X11. Where a medication name contains a capital letter, the pieces it
    is split into make up the whole name exactly when the name consists of
    ASCII letters only and starts with a capital: any digit, space, hyphen
    or leading lower-case letter of the name is lost. *)
Theorem medication_split_keeps_name_iff_capitalised_letters (s : string) :
  PyStr.findall_caps s <> [] ->
  split_medication (PStr s) = PStr <$> PyStr.findall_caps s /\
  (join_strings (PyStr.findall_caps s) = s
   <-> all_letters s = true /\ starts_upper s = true).
Proof.
  intros Hne. split.
  - unfold split_medication. by destruct (PyStr.findall_caps s).
  - pose proof (findall_caps_runs s) as Hruns. split.
    + intros <-.
      destruct (join_words_letters _ (cap_runs_words _ _ Hruns)) as [Hl Hs].
      split; [exact Hl|by apply Hs].
    + intros [Hl Hs]. apply (cap_runs_join _ _ Hruns Hl).
      destruct s as [|c s]; [done|]. cbn in Hs |- *. by apply upper_not_lower.
Qed.

Lemma medication_split_keeps_name_iff_capitalised_letters_witness :
  PyStr.findall_caps "Vitamin B12" = ["Vitamin"; "B"] /\
  split_medication (PStr "Vitamin B12") = [PStr "Vitamin"; PStr "B"] /\
  all_letters "Vitamin B12" = false /\
  join_strings (PyStr.findall_caps "Vitamin B12") <> "Vitamin B12".
Proof.
  assert (Hne : PyStr.findall_caps "Vitamin B12" <> []) by discriminate.
  destruct (medication_split_keeps_name_iff_capitalised_letters "Vitamin B12" Hne)
    as [Hsplit [Hjoin _]].
  split_and!; [reflexivity|exact Hsplit|reflexivity|].
  intros E. destruct (Hjoin E) as [Hl _]. discriminate Hl.
Defined.

(* ===================================================================== *)
(** ** The single-turn functions *)
(* ===================================================================== *)

(** *** Words and blanks *)

Lemma push_words word words :
  no_space word = true ->
  Forall (fun w => is_word w = true) words ->
  Forall (fun w => is_word w = true) (PyText.push word words).
Proof.
  intros Hw Hws. destruct word as [|c word]; [done|].
  apply Forall_cons. split; [|done]. unfold is_word. by rewrite Hw.
Qed.

Lemma scan_words s :
  no_space (PyText.scan s).1 = true /\
  Forall (fun w => is_word w = true) (PyText.scan s).2.
Proof.
  induction s as [|c s [IHw IHws]]; [by split|].
  cbn [PyText.scan]. destruct (PyText.scan s) as [word words].
  cbn [fst snd] in IHw, IHws.
  destruct (PyStr.is_ascii_space c) eqn:Hc; cbn [fst snd].
  - split; [done|]. by apply push_words.
  - split; [|done]. unfold no_space in *.
    cbn [list_ascii_of_string forallb]. by rewrite Hc, IHw.
Qed.

Lemma split_words s : Forall (fun w => is_word w = true) (PyText.ascii_split s).
Proof.
  unfold PyText.ascii_split. destruct (scan_words s) as [Hw Hws].
  destruct (PyText.scan s) as [word words]. by apply push_words.
Qed.

Lemma scan_word_app u t :
  no_space u = true ->
  PyText.scan (u +:+ t) = (u +:+ (PyText.scan t).1, (PyText.scan t).2).
Proof.
  unfold no_space. induction u as [|c u IH]; intros Hu.
  - rewrite !append_empty_l. by destruct (PyText.scan t).
  - cbn [list_ascii_of_string forallb] in Hu. apply andb_prop in Hu as [Hc Hu].
    rewrite !append_cons. cbn [PyText.scan]. rewrite (IH Hu).
    apply negb_true_iff in Hc. by rewrite Hc.
Qed.

Lemma split_concat_words words :
  Forall (fun w => is_word w = true) words ->
  PyText.ascii_split (String.concat " " words) = words.
Proof.
  induction 1 as [|x words Hx Hws IH]; [done|].
  unfold is_word in Hx. apply andb_prop in Hx as [Hne Hx].
  destruct words as [|y words].
  - cbn [String.concat]. unfold PyText.ascii_split.
    rewrite <- (append_empty_r x) at 1. rewrite scan_word_app by done.
    cbn [PyText.scan fst snd]. rewrite append_empty_r.
    by destruct x.
  - change (String.concat " " (x :: y :: words))
      with (x +:+ " " +:+ String.concat " " (y :: words)).
    unfold PyText.ascii_split in IH |- *.
    rewrite scan_word_app by done.
    rewrite append_cons, append_empty_l. cbn [PyText.scan].
    destruct (PyText.scan (String.concat " " (y :: words))) as [w ws].
    replace (PyStr.is_ascii_space " ") with true by reflexivity.
    cbn [fst snd]. rewrite append_empty_r, IH.
    by destruct x.
Qed.

Lemma lstrip_word_app u t :
  is_word u = true -> PyStr.lstrip_by PyStr.is_ascii_space (u +:+ t) = u +:+ t.
Proof.
  destruct u as [|c u]; [done|]. unfold is_word, no_space.
  cbn [list_ascii_of_string forallb String.eqb negb andb].
  intros [Hc _]%andb_prop. apply negb_true_iff in Hc.
  rewrite append_cons. cbn [PyStr.lstrip_by]. by rewrite Hc.
Qed.

Lemma rstrip_word u :
  is_word u = true -> PyStr.rstrip_by PyStr.is_ascii_space u = u.
Proof.
  unfold is_word, no_space. induction u as [|c u IH]; [done|].
  cbn [list_ascii_of_string forallb String.eqb negb andb].
  intros [Hc Hu]%andb_prop. apply negb_true_iff in Hc.
  cbn [PyStr.rstrip_by]. destruct u as [|c' u].
  - cbn [PyStr.rstrip_by]. by rewrite Hc.
  - rewrite IH by done. reflexivity.
Qed.

Lemma rstrip_app_word s u :
  is_word u = true -> PyStr.rstrip_by PyStr.is_ascii_space (s +:+ u) = s +:+ u.
Proof.
  intros Hu. induction s as [|c s IH].
  - rewrite append_empty_l. by apply rstrip_word.
  - rewrite append_cons. cbn [PyStr.rstrip_by]. rewrite IH.
    destruct (s +:+ u) eqn:E; [|done].
    destruct s; [|discriminate E]. rewrite append_empty_l in E. by subst u.
Qed.

Lemma concat_words_last x words :
  Forall (fun w => is_word w = true) (x :: words) ->
  exists s u, String.concat " " (x :: words) = s +:+ u /\ is_word u = true.
Proof.
  revert x. induction words as [|y words IH]; intros x Hws.
  - exists "", x. split; [by rewrite append_empty_l|]. by inversion Hws.
  - apply Forall_cons in Hws as [Hx Hws].
    destruct (IH y Hws) as (s & u & E & Hu).
    exists (x +:+ " " +:+ s), u. split; [|done].
    change (String.concat " " (x :: y :: words))
      with (x +:+ " " +:+ String.concat " " (y :: words)).
    by rewrite E, !append_assoc.
Qed.

Lemma strip_concat_words words :
  Forall (fun w => is_word w = true) words ->
  PyStr.ascii_strip (String.concat " " words) = String.concat " " words.
Proof.
  intros Hws. destruct words as [|x words]; [done|].
  unfold PyStr.ascii_strip.
  assert (Hl : PyStr.lstrip_by PyStr.is_ascii_space (String.concat " " (x :: words))
               = String.concat " " (x :: words)).
  { apply Forall_cons in Hws as [Hx _]. destruct words as [|y words].
    - cbn [String.concat]. rewrite <- (append_empty_r x). by apply lstrip_word_app.
    - by apply lstrip_word_app. }
  rewrite Hl. destruct (concat_words_last _ _ Hws) as (s & u & -> & Hu).
  by apply rstrip_app_word.
Qed.

Lemma in_list_ascii_app c s t :
  In c (list_ascii_of_string (s +:+ t)) ->
  In c (list_ascii_of_string s) \/ In c (list_ascii_of_string t).
Proof.
  induction s as [|c' s IH].
  - rewrite append_empty_l. auto.
  - rewrite append_cons. cbn [list_ascii_of_string In]. intuition.
Qed.

Lemma concat_words_spaces words c :
  Forall (fun w => is_word w = true) words ->
  In c (list_ascii_of_string (String.concat " " words)) ->
  PyStr.is_ascii_space c = true -> c = " "%char.
Proof.
  assert (Hword : forall w, is_word w = true ->
            In c (list_ascii_of_string w) -> PyStr.is_ascii_space c = true -> False).
  { intros w [_ Hw]%andb_prop Hin Hc. unfold no_space in Hw.
    rewrite forallb_forall in Hw. specialize (Hw c Hin). by rewrite Hc in Hw. }
  induction 1 as [|x words Hx Hws IH]; [done|].
  destruct words as [|y words].
  - cbn [String.concat]. intros Hin Hc. destruct (Hword x Hx Hin Hc).
  - change (String.concat " " (x :: y :: words))
      with (x +:+ " " +:+ String.concat " " (y :: words)).
    intros [Hin|Hin]%in_list_ascii_app Hc; [destruct (Hword x Hx Hin Hc)|].
    apply in_list_ascii_app in Hin as [Hin|Hin]; [|by apply IH].
    cbn in Hin. by destruct Hin.
Qed.

(** X12. Whatever the ten regular-expression substitutions produce, the
    value of [markdown_to_plain_text] is made of words separated by single
    blanks: no tab, newline or other space character remains, and nothing
    is left for the final [strip()] to remove.  The paragraph breaks that
    the rules for horizontal rules and blank lines insert never reach the
    caller.  An argument that is not a string gives the empty string. *)
Theorem markdown_to_plain_text_is_single_spaced S (v : pyval) :
  (Py.is_str v = false -> markdown_to_plain_text S v = "") /\
  (exists words,
     Forall (fun w => is_word w = true) words /\
     markdown_to_plain_text S v = String.concat " " words /\
     PyText.ascii_split (markdown_to_plain_text S v) = words) /\
  PyStr.ascii_strip (markdown_to_plain_text S v) = markdown_to_plain_text S v /\
  (forall c, In c (list_ascii_of_string (markdown_to_plain_text S v)) ->
             PyStr.is_ascii_space c = true -> c = " "%char).
Proof.
  split; [by destruct v|].
  assert (H : exists words,
     Forall (fun w => is_word w = true) words /\
     markdown_to_plain_text S v = String.concat " " words).
  { destruct v; try (exists []; by split).
    cbn [markdown_to_plain_text]. eexists. split; [apply split_words|].
    by rewrite strip_concat_words by apply split_words. }
  destruct H as (words & Hws & ->). split_and!.
  - exists words. split_and!; [done..|]. by apply split_concat_words.
  - by apply strip_concat_words.
  - intros c. by apply concat_words_spaces.
Qed.

Lemma markdown_to_plain_text_is_single_spaced_witness :
  markdown_to_plain_text (scripted_services "" (Ok PNone))
    (PStr ("  Take   rest." +:+ nl +:+ nl +:+ " Drink fluids. "))
  = "Take rest. Drink fluids." /\
  PyStr.ascii_strip
    (markdown_to_plain_text (scripted_services "" (Ok PNone))
       (PStr ("  Take   rest." +:+ nl +:+ nl +:+ " Drink fluids. ")))
  = markdown_to_plain_text (scripted_services "" (Ok PNone))
      (PStr ("  Take   rest." +:+ nl +:+ nl +:+ " Drink fluids. ")) /\
  markdown_to_plain_text (scripted_services "" (Ok PNone)) (PInt 7) = "".
Proof.
  split_and!.
  - by_compute.
  - apply (markdown_to_plain_text_is_single_spaced (scripted_services "" (Ok PNone))).
  - by apply (markdown_to_plain_text_is_single_spaced (scripted_services "" (Ok PNone))).
Defined.

(** *** [gemini_text] and [gemini_generic] *)

Lemma set_item_Ok v k x v' :
  set_item v k x = Ok v' -> exists d, v = PDict d /\ v' = PDict (<[k := x]> d).
Proof. destruct v; try discriminate. intros [= <-]. eauto. Qed.

Lemma as_response_dict_Ok v d : as_response_dict v = Ok d -> v = PDict d.
Proof. destruct v; try discriminate. by intros [= <-]. Qed.

Lemma text_reply_defaults_keeps k v (d : dict) :
  d !! k = Some v -> text_reply_defaults d !! k = Some v.
Proof. intros H. unfold text_reply_defaults. by repeat apply setdefault_keeps. Qed.

Lemma text_reply_defaults_has k (d : dict) :
  In k single_turn_fields -> is_Some (text_reply_defaults d !! k).
Proof.
  intros Hk. unfold text_reply_defaults.
  repeat match goal with
  | |- is_Some (Py.setdefault ?k' _ _ !! ?k) =>
      destruct (decide (k' = k)) as [->|];
        [rewrite setdefault_lookup; eauto|apply setdefault_is_Some]
  end.
  cbv [single_turn_fields In] in Hk. intuition congruence.
Qed.

Lemma generic_reply_defaults_keeps k v (d : dict) :
  d !! k = Some v -> generic_reply_defaults d !! k = Some v.
Proof. intros H. unfold generic_reply_defaults. by repeat apply setdefault_keeps. Qed.

Lemma generic_reply_defaults_has k (d : dict) :
  In k single_turn_fields -> k <> "is_medical_related_prompt" ->
  is_Some (generic_reply_defaults d !! k).
Proof.
  intros Hk Hne. unfold generic_reply_defaults.
  repeat match goal with
  | |- is_Some (Py.setdefault ?k' _ _ !! ?k) =>
      destruct (decide (k' = k)) as [->|];
        [rewrite setdefault_lookup; eauto|apply setdefault_is_Some]
  end.
  cbv [single_turn_fields In] in Hk. intuition congruence.
Qed.

(** A processed reply is the model's dict with its response turned into
    plain text and the defaults added. *)
Lemma process_text_reply_Ok S reply (d : dict) :
  process_text_reply S reply = Ok d ->
  exists rd,
    reply = PDict rd /\
    d = text_reply_defaults
          (<["response" :=
               PStr (match rd !! "response" with
                     | Some response => markdown_to_plain_text S response
                     | None => ""
                     end)]> rd).
Proof.
  unfold process_text_reply. intros H.
  destruct reply as [| | | |s|l|rd]; try discriminate H.
  - cbn [PyNum.contains_key mbind res_bind] in H.
    destruct (PyStr.contains "response" s); discriminate H.
  - cbn [PyNum.contains_key mbind res_bind] in H.
    destruct (existsb _ l); discriminate H.
  - exists rd. split; [done|].
    cbn [PyNum.contains_key mbind res_bind] in H.
    unfold Py.has_key in H. destruct (rd !! "response") as [response|] eqn:E.
    + rewrite bool_decide_eq_true_2 in H by eauto.
      cbn [PyNum.subscript_key] in H. unfold Py.getitem in H. rewrite E in H.
      cbn [mbind res_bind set_item as_response_dict] in H. by injection H as <-.
    + rewrite bool_decide_eq_false_2 in H by (by intros [? ?]).
      cbn [mbind res_bind set_item as_response_dict] in H. by injection H as <-.
Qed.

Lemma text_fallback_fields msg k :
  In k single_turn_fields -> is_Some (text_fallback msg !! k).
Proof.
  cbv [single_turn_fields In]. intros H.
  repeat (destruct H as [<-|H]; [by eexists|]). done.
Qed.

Lemma gemini_text_cases W S message :
  (forall d, gemini_text W S message = Ok d ->
     (exists s, d !! "response" = Some (PStr s)) /\
     (forall k, In k single_turn_fields -> is_Some (d !! k))) /\
  (forall e, gemini_text W S message = Raise e ->
     text_chat S = Raise e \/
     (exists e', text_send S message = Raise e' /\ is_json_error e' = true) \/
     (exists response, text_send S message = Ok response /\
                       text response = Raise e /\ is_json_error e = true)) /\
  (forall response reply_text,
     text_chat S = Ok tt ->
     text_send S message = Ok response -> text response = Ok reply_text ->
     match json_loads W reply_text with
     | Ok (PDict rd) =>
         exists d, gemini_text W S message = Ok d /\ dom rd ⊆ dom d
     | Ok _ => gemini_text W S message = Ok text_general_fallback
     | Raise e =>
         gemini_text W S message
         = Ok (if is_json_error e then text_json_fallback else text_general_fallback)
     end).
Proof.
  assert (Hfb : forall msg,
     (exists s, text_fallback msg !! "response" = Some (PStr s)) /\
     (forall k, In k single_turn_fields -> is_Some (text_fallback msg !! k))).
  { intros msg. split; [by eexists|]. intros k. apply text_fallback_fields. }
  unfold gemini_text. split_and!.
  - intros d H. destruct (text_chat S) as [[]|e]; [|discriminate H].
    cbn [mbind res_bind] in H.
    destruct (text_send S message) as [response|e].
    + destruct (text response) as [reply_text|e].
      * destruct (json_loads W reply_text ≫= process_text_reply S) as [d'|e] eqn:E.
        -- injection H as <-. res_inv.
           apply process_text_reply_Ok in E as (rd & _ & ->). split.
           ++ eexists. apply text_reply_defaults_keeps. apply lookup_insert_eq.
           ++ intros k. apply text_reply_defaults_has.
        -- injection H as <-. destruct (is_json_error e); apply Hfb.
      * destruct (is_json_error e); [discriminate H|].
        injection H as <-. apply Hfb.
    + destruct (is_json_error e); [discriminate H|].
      injection H as <-. apply Hfb.
  - intros e H. destruct (text_chat S) as [[]|e0]; [|left; by injection H as <-].
    cbn [mbind res_bind] in H. right.
    destruct (text_send S message) as [response|e0].
    + right. exists response. split; [done|].
      destruct (text response) as [reply_text|e1].
      * by destruct (json_loads W reply_text ≫= process_text_reply S).
      * destruct (is_json_error e1) eqn:He1; [|discriminate H].
        injection H as <-. done.
    + left. exists e0. split; [done|]. by destruct (is_json_error e0).
  - intros response reply_text -> -> ->. cbn [mbind res_bind].
    destruct (json_loads W reply_text) as [reply|e]; [|reflexivity].
    cbn [mbind res_bind].
    destruct reply as [| | | | s |l|rd]; try reflexivity.
    + (* a JSON string *)
      unfold process_text_reply. cbn [PyNum.contains_key mbind res_bind].
      destruct (PyStr.contains "response" s); reflexivity.
    + (* a JSON array *)
      unfold process_text_reply. cbn [PyNum.contains_key mbind res_bind].
      destruct (existsb _ l); reflexivity.
    + (* a JSON object *)
      destruct (process_text_reply S (PDict rd)) as [d|e] eqn:E.
      * exists d. split; [done|].
        apply process_text_reply_Ok in E as (rd' & [= <-] & ->).
        intros k [v Hk]%elem_of_dom.
        apply elem_of_dom.
        destruct (decide (k = "response")) as [->|Hne].
        -- eexists. apply text_reply_defaults_keeps. apply lookup_insert_eq.
        -- exists v. apply text_reply_defaults_keeps. by rewrite lookup_insert_ne.
      * exfalso. revert E. unfold process_text_reply.
        cbn [PyNum.contains_key mbind res_bind]. unfold Py.has_key.
        destruct (rd !! "response") as [v|] eqn:Er.
        -- rewrite bool_decide_eq_true_2 by eauto.
           cbn [PyNum.subscript_key]. unfold Py.getitem. rewrite Er. discriminate.
        -- rewrite bool_decide_eq_false_2 by (by intros [? ?]). discriminate.
Qed.

(** X13. Every dict that [gemini_text] returns has a response that is a
    string, whatever the model put there, and holds the seven other
    fields.  The function raises only when the chat cannot be opened, which
    happens before its [try], or when the client library itself raises a
    JSONDecodeError; a reply that is not JSON, is not a JSON object or
    cannot be read gives one of the two fallback dicts. *)
Theorem gemini_text_result_shape W S message :
  (forall d, gemini_text W S message = Ok d ->
     (exists s, d !! "response" = Some (PStr s)) /\
     (forall k, In k single_turn_fields -> is_Some (d !! k))) /\
  (forall e, gemini_text W S message = Raise e ->
     text_chat S = Raise e \/
     (exists e', text_send S message = Raise e' /\ is_json_error e' = true) \/
     (exists response, text_send S message = Ok response /\
                       text response = Raise e /\ is_json_error e = true)) /\
  (forall response reply_text,
     text_chat S = Ok tt ->
     text_send S message = Ok response -> text response = Ok reply_text ->
     match json_loads W reply_text with
     | Ok (PDict rd) =>
         exists d, gemini_text W S message = Ok d /\ dom rd ⊆ dom d
     | Ok _ => gemini_text W S message = Ok text_general_fallback
     | Raise e =>
         gemini_text W S message
         = Ok (if is_json_error e then text_json_fallback else text_general_fallback)
     end).
Proof. apply gemini_text_cases. Qed.

Lemma gemini_text_result_shape_witness :
  gemini_text markdown_world (scripted_services markdown_reply_text (Ok PNone))
    "I have a cold" ≫= (fun d => Ok (d !! "response"))
  = Ok (Some (PStr "**Rest** and drink fluids.")) /\
  gemini_text markdown_world (scripted_services markdown_reply_text (Ok PNone))
    "I have a cold" ≫= (fun d => Ok (d !! "Disclaimer"))
  = Ok (Some (PStr "none")) /\
  exists d,
    gemini_text markdown_world (scripted_services markdown_reply_text (Ok PNone))
      "I have a cold" = Ok d /\
    (exists s, d !! "response" = Some (PStr s)) /\
    is_Some (d !! "medication").
Proof.
  split_and!; [by_compute|by_compute|].
  destruct (is_ok_true
              (gemini_text markdown_world
                 (scripted_services markdown_reply_text (Ok PNone)) "I have a cold"))
    as [d Hd]; [by_compute|].
  exists d. split; [exact Hd|].
  destruct (gemini_text_result_shape markdown_world
              (scripted_services markdown_reply_text (Ok PNone)) "I have a cold")
    as (Hshape & _).
  destruct (Hshape d Hd) as [Hr Hk]. split; [exact Hr|].
  apply Hk. cbv [single_turn_fields In]. tauto.
Defined.

Lemma process_generic_reply_Ok reply (d : dict) :
  process_generic_reply reply = Ok d ->
  exists rd,
    reply = PDict rd /\
    d = generic_reply_defaults
          (Py.setdefault "is_medical_related_prompt" (PStr "No") rd).
Proof.
  unfold process_generic_reply. intros H.
  destruct reply as [| | | |s|l|rd]; try discriminate H.
  - cbn [PyNum.contains_key mbind res_bind] in H.
    destruct (PyStr.contains _ s); discriminate H.
  - cbn [PyNum.contains_key mbind res_bind] in H.
    destruct (existsb _ l); discriminate H.
  - exists rd. split; [done|].
    cbn [PyNum.contains_key mbind res_bind] in H.
    unfold Py.has_key in H. unfold Py.setdefault at 1.
    destruct (rd !! "is_medical_related_prompt") as [flag|] eqn:E.
    + rewrite bool_decide_eq_true_2 in H by eauto.
      cbn [negb mbind res_bind as_response_dict] in H. by injection H as <-.
    + rewrite bool_decide_eq_false_2 in H by (by intros [? ?]).
      cbn [negb mbind res_bind set_item as_response_dict] in H. by injection H as <-.
Qed.

Lemma generic_fallback_fields k :
  In k single_turn_fields -> is_Some (generic_fallback !! k).
Proof.
  cbv [single_turn_fields In]. intros H.
  repeat (destruct H as [<-|H]; [by eexists|]). done.
Qed.

Lemma gemini_generic_fields W S message (d : dict) k :
  gemini_generic W S message = Ok d ->
  In k single_turn_fields -> is_Some (d !! k).
Proof.
  unfold gemini_generic. intros H Hk.
  destruct (generic_chat S) as [[]|e]; [|discriminate H].
  cbn [mbind res_bind] in H.
  destruct (generic_send S message) as [response|e].
  - destruct (text response) as [reply_text|e].
    + destruct (json_loads W reply_text ≫= process_generic_reply) as [d'|e] eqn:E.
      * injection H as <-. res_inv.
        apply process_generic_reply_Ok in E as (rd & _ & ->).
        destruct (decide (k = "is_medical_related_prompt")) as [->|Hne].
        -- eexists. apply generic_reply_defaults_keeps. apply setdefault_lookup.
        -- by apply generic_reply_defaults_has.
      * injection H as <-. by apply generic_fallback_fields.
    + destruct (is_json_error e); [discriminate H|].
      injection H as <-. by apply generic_fallback_fields.
  - destruct (is_json_error e); [discriminate H|].
    injection H as <-. by apply generic_fallback_fields.
Qed.

Lemma gemini_generic_raises W S message e :
  gemini_generic W S message = Raise e ->
  generic_chat S = Raise e \/
  (exists e', generic_send S message = Raise e' /\ is_json_error e' = true) \/
  (exists response, generic_send S message = Ok response /\
                    text response = Raise e /\ is_json_error e = true).
Proof.
  unfold gemini_generic. intros H.
  destruct (generic_chat S) as [[]|e0]; [|left; by injection H as <-].
  cbn [mbind res_bind] in H. right.
  destruct (generic_send S message) as [response|e0].
  - right. exists response. split; [done|].
    destruct (text response) as [reply_text|e1].
    + by destruct (json_loads W reply_text ≫= process_generic_reply).
    + destruct (is_json_error e1) eqn:He1; [|discriminate H].
      by injection H as <-.
  - left. exists e0. split; [done|]. by destruct (is_json_error e0).
Qed.

(** X14. Every dict that [gemini_generic] returns holds the seven fields
    of its schema, is_medical_related_prompt among them; the function
    raises only when the chat cannot be opened or the client library
    raises a JSONDecodeError.  A reply without the flag is classified as
    not medical, and a reply that is not a JSON object gives the fallback
    dict. *)
Theorem gemini_generic_result_shape W S message :
  (forall d k, gemini_generic W S message = Ok d ->
     In k single_turn_fields -> is_Some (d !! k)) /\
  (forall e, gemini_generic W S message = Raise e ->
     generic_chat S = Raise e \/
     (exists e', generic_send S message = Raise e' /\ is_json_error e' = true) \/
     (exists response, generic_send S message = Ok response /\
                       text response = Raise e /\ is_json_error e = true)) /\
  (forall response reply_text,
     generic_chat S = Ok tt ->
     generic_send S message = Ok response -> text response = Ok reply_text ->
     match json_loads W reply_text with
     | Ok (PDict rd) =>
         exists d,
           gemini_generic W S message = Ok d /\ dom rd ⊆ dom d /\
           d !! "is_medical_related_prompt"
           = Some (default (PStr "No") (rd !! "is_medical_related_prompt"))
     | _ => gemini_generic W S message = Ok generic_fallback
     end).
Proof.
  split_and!.
  - intros d k. apply gemini_generic_fields.
  - apply gemini_generic_raises.
  - intros response reply_text Hchat Hsend Htext. unfold gemini_generic.
    rewrite Hchat, Hsend, Htext. cbn [mbind res_bind].
    destruct (json_loads W reply_text) as [reply|e]; [|reflexivity].
    cbn [mbind res_bind].
    destruct reply as [| | | | s |l|rd]; try reflexivity.
    + unfold process_generic_reply. cbn [PyNum.contains_key mbind res_bind].
      destruct (PyStr.contains _ s); reflexivity.
    + unfold process_generic_reply. cbn [PyNum.contains_key mbind res_bind].
      destruct (existsb _ l); reflexivity.
    + destruct (process_generic_reply (PDict rd)) as [d|e] eqn:E.
      * exists d. split; [done|].
        apply process_generic_reply_Ok in E as (rd' & [= <-] & ->). split.
        -- intros k [v Hk]%elem_of_dom. apply elem_of_dom. exists v.
           apply generic_reply_defaults_keeps. by apply setdefault_keeps.
        -- apply generic_reply_defaults_keeps. apply setdefault_lookup.
      * exfalso. revert E. unfold process_generic_reply.
        cbn [PyNum.contains_key mbind res_bind].
        by destruct (negb (Py.has_key rd "is_medical_related_prompt")).
Qed.

Lemma gemini_generic_result_shape_witness :
  gemini_generic markdown_world (scripted_services markdown_reply_text (Ok PNone))
    "I have a cold" ≫= (fun d => Ok (d !! "is_medical_related_prompt"))
  = Ok (Some (PStr "No")) /\
  exists d,
    gemini_generic markdown_world (scripted_services markdown_reply_text (Ok PNone))
      "I have a cold" = Ok d /\
    is_Some (d !! "is_medical_related_prompt") /\ is_Some (d !! "Symptoms").
Proof.
  split; [by_compute|].
  destruct (is_ok_true
              (gemini_generic markdown_world
                 (scripted_services markdown_reply_text (Ok PNone)) "I have a cold"))
    as [d Hd]; [by_compute|].
  exists d. split; [exact Hd|].
  destruct (gemini_generic_result_shape markdown_world
              (scripted_services markdown_reply_text (Ok PNone)) "I have a cold")
    as (Hshape & _).
  split; apply (Hshape d _ Hd); cbv [single_turn_fields In]; tauto.
Defined.

(** *** The single-turn routes *)

Lemma truthy_str_false data : negb (Py.truthy (PStr data)) = true <-> data = "".
Proof.
  cbn [Py.truthy]. rewrite negb_involutive. apply String.eqb_eq.
Qed.

Lemma truthy_str_true data : negb (Py.truthy (PStr data)) = false <-> data <> "".
Proof.
  cbn [Py.truthy]. rewrite negb_involutive. apply String.eqb_neq.
Qed.

(** X15. The route of [gemini_text] answers 400 exactly for the empty
    prompt and 500 exactly when [gemini_text] raises, which a failure to
    open the chat does: the text of that exception is then sent to the
    client.  Whatever the status, the payload has a response that is a
    string and a Disclaimer. *)
Theorem gemini_prompt_route_answers W S data :
  (status (gemini_prompt_route W S data) = 400 <-> data = "") /\
  (status (gemini_prompt_route W S data) = 200 <->
   data <> "" /\ exists d, gemini_text W S data = Ok d) /\
  (status (gemini_prompt_route W S data) = 500 <->
   data <> "" /\ exists e, gemini_text W S data = Raise e) /\
  (exists d s,
     payload (gemini_prompt_route W S data) = Some d /\
     d !! "response" = Some (PStr s) /\ is_Some (d !! "Disclaimer")) /\
  (forall e, data <> "" -> text_chat S = Raise e ->
     status (gemini_prompt_route W S data) = 500 /\
     payload_field (gemini_prompt_route W S data) "response"
     = Some (PStr ("Sorry, an error occurred processing your request: "
                   +:+ exn_msg e))).
Proof.
  unfold gemini_prompt_route.
  destruct (negb (Py.truthy (PStr data))) eqn:Hdata.
  - apply truthy_str_false in Hdata. cbn [status data_response].
    split_and!; try (split; [discriminate|by intros [? _]]); [done| |done].
    rewrite payload_data_response. eexists _, _. split; [reflexivity|].
    split; [reflexivity|by eexists].
  - apply truthy_str_true in Hdata.
    destruct (gemini_text W S data) as [d|e] eqn:E; cbn [status data_response].
    + split_and!.
      * split; [discriminate|done].
      * split; eauto.
      * split; [discriminate|by intros [_ [? [=]]]].
      * destruct (gemini_text_cases W S data) as (Hshape & _).
        destruct (Hshape d E) as [[s Hs] Hk].
        rewrite payload_data_response. exists d, s. split_and!; [done..|].
        apply Hk. cbv [single_turn_fields In]. tauto.
      * intros e _ Hchat. unfold gemini_text in E. rewrite Hchat in E. discriminate E.
    + split_and!.
      * split; [discriminate|done].
      * split; [discriminate|by intros [_ [? [=]]]].
      * split; eauto.
      * rewrite payload_data_response. eexists _, _. split; [reflexivity|].
        split; [reflexivity|by eexists].
      * intros e' _ Hchat. unfold gemini_text in E. rewrite Hchat in E.
        injection E as <-. split; [done|].
        unfold payload_field. rewrite payload_data_response. reflexivity.
Qed.

Lemma gemini_prompt_route_answers_witness :
  status (gemini_prompt_route markdown_world unconfigured_services "I have a cold") = 500 /\
  payload_field (gemini_prompt_route markdown_world unconfigured_services "I have a cold")
    "response"
  = Some (PStr "Sorry, an error occurred processing your request: API key not valid") /\
  status (gemini_prompt_route markdown_world
            (scripted_services markdown_reply_text (Ok PNone)) "I have a cold") = 200 /\
  status (gemini_prompt_route markdown_world unconfigured_services "") = 400.
Proof.
  destruct (gemini_prompt_route_answers markdown_world unconfigured_services
              "I have a cold") as (_ & _ & _ & _ & Hchat).
  destruct (Hchat (mk_exn (OtherException "PermissionDenied") "API key not valid")
              ltac:(discriminate) eq_refl) as [Hs Hr].
  split_and!; [exact Hs|exact Hr|by_compute|by_compute].
Defined.

(** X16. The route of [gemini_generic] answers 400 exactly for the empty
    prompt and 500 exactly when [gemini_generic] raises: its check for a
    missing is_medical_related_prompt never fails, because every dict of
    [gemini_generic] holds that field.  Every payload holds
    is_medical_related_prompt and a Disclaimer, and every payload but the
    one of the 400 holds all seven fields. *)
Theorem gemini_generic_route_answers W S data :
  (status (gemini_generic_route W S data) = 400 <-> data = "") /\
  (forall d, data <> "" -> gemini_generic W S data = Ok d ->
     gemini_generic_route W S data = data_response 200 d) /\
  (status (gemini_generic_route W S data) = 500 <->
   data <> "" /\ exists e, gemini_generic W S data = Raise e) /\
  (exists d,
     payload (gemini_generic_route W S data) = Some d /\
     is_Some (d !! "is_medical_related_prompt") /\ is_Some (d !! "Disclaimer") /\
     (data <> "" -> forall k, In k single_turn_fields -> is_Some (d !! k))).
Proof.
  assert (Herr : forall msg k,
            In k single_turn_fields -> is_Some (generic_error_payload msg !! k)).
  { intros msg k. cbv [single_turn_fields In]. intros H.
    repeat (destruct H as [<-|H]; [by eexists|]). done. }
  unfold gemini_generic_route.
  destruct (negb (Py.truthy (PStr data))) eqn:Hdata.
  - apply truthy_str_false in Hdata. cbn [status data_response].
    split_and!; try (split; [discriminate|by intros [? _]]); [done|done|].
    rewrite payload_data_response. eexists. split; [reflexivity|].
    split_and!; [by eexists|by eexists|done].
  - apply truthy_str_true in Hdata.
    destruct (gemini_generic W S data) as [d|e] eqn:E.
    + pose proof (gemini_generic_fields W S data d) as Hk.
      assert (Hflag : Py.has_key d "is_medical_related_prompt" = true).
      { apply bool_decide_eq_true. apply Hk; [done|]. cbv [single_turn_fields In]. tauto. }
      rewrite Hflag. cbn [negb status data_response]. split_and!.
      * split; [discriminate|done].
      * by intros d' _ [= <-].
      * split; [discriminate|by intros [_ [? [=]]]].
      * rewrite payload_data_response. exists d.
        split_and!; [done| | |intros _ k; by apply Hk];
          apply Hk; try done; cbv [single_turn_fields In]; tauto.
    + cbn [status data_response]. split_and!.
      * split; [discriminate|done].
      * intros d' _ [=].
      * split; eauto.
      * rewrite payload_data_response. eexists. split; [reflexivity|].
        split_and!; [| |intros _ k; apply Herr];
          apply Herr; cbv [single_turn_fields In]; tauto.
Qed.

Lemma gemini_generic_route_answers_witness :
  gemini_generic_route markdown_world
    (scripted_services markdown_reply_text (Ok PNone)) "I have a cold"
  = data_response 200
      (generic_reply_defaults
         (Py.setdefault "is_medical_related_prompt" (PStr "No")
            (mkdict [ ("response", PStr "**Rest** and  drink fluids.");
                      ("Disclaimer", PStr "none") ]))).
Proof.
  destruct (gemini_generic_route_answers markdown_world
              (scripted_services markdown_reply_text (Ok PNone)) "I have a cold")
    as (_ & Hok & _).
  apply Hok; [discriminate|reflexivity].
Defined.

(** *** The image search *)

Lemma slice_to_Forall {A} (P : A -> Prop) n (l : list A) :
  Forall P l -> Forall P (PyText.slice_to n l).
Proof. intros H. unfold PyText.slice_to. destruct (0 <=? n); by apply Forall_take. Qed.

Lemma slice_to_length {A} n (l : list A) :
  Z.of_nat (length (PyText.slice_to n l)) =
    if 0 <=? n then Z.min n (Z.of_nat (length l))
    else Z.max 0 (Z.of_nat (length l) + n).
Proof.
  unfold PyText.slice_to. destruct (0 <=? n) eqn:Hn; rewrite length_take.
  - apply Z.leb_le in Hn. lia.
  - apply Z.leb_gt in Hn. lia.
Qed.

Lemma sample_images_valid query :
  Forall (fun v => is_valid_image v = true) (sample_images query).
Proof. unfold sample_images. repeat (constructor; [reflexivity|]). constructor. Qed.

Lemma collect_images_valid items images :
  collect_images items = Ok images ->
  Forall (fun v => is_valid_image v = true) images /\
  (length images <= length items)%nat.
Proof.
  revert images. induction items as [|item items IH]; intros images H.
  - injection H as <-. split; [done|]. reflexivity.
  - cbn [collect_images] in H. res_inv. rename x into d, x0 into rest.
    destruct (IH rest H1) as [Hvalid Hlen].
    destruct (Py.truthy (Py.get d "url" PNone)
              && Py.truthy (Py.get d "thumbnail" PNone)) eqn:Hd.
    + split; [|cbn [length]; lia]. apply Forall_cons. split; [exact Hd|done].
    + split; [done|]. cbn [length]. lia.
Qed.

Lemma collect_images_raises items :
  Exists (fun item => is_ok (image_data item) = false) items ->
  is_ok (collect_images items) = false.
Proof.
  induction items as [|item items IH]; intros H; [by inversion H|].
  cbn [collect_images]. destruct (image_data item) as [d|e] eqn:E; [|done].
  cbn [mbind res_bind].
  apply Exists_cons in H as [H|H]; [by rewrite E in H|].
  specialize (IH H). by destruct (collect_images items).
Qed.

Lemma extract_images_valid search_results images :
  extract_images search_results = Ok images ->
  Forall (fun v => is_valid_image v = true) images.
Proof.
  unfold extract_images. intros H.
  apply bind_Ok in H as (has_items & _ & H).
  destruct has_items; [|by injection H as <-].
  apply bind_Ok in H as (items & _ & H).
  apply bind_Ok in H as (seq & _ & H).
  by apply collect_images_valid in H as [? _].
Qed.

Lemma search_images_valid S query num_results :
  Forall (fun v => is_valid_image v = true) (search_images S query num_results).
Proof.
  unfold search_images. destruct (search_not_configured S).
  - apply slice_to_Forall, sample_images_valid.
  - destruct (_ ≫= extract_images) as [images|e] eqn:E; [|done].
    res_inv. by eapply extract_images_valid.
Qed.

Lemma image_urls_valid images :
  Forall (fun v => is_valid_image v = true) images ->
  image_urls images = Ok (image_url <$> images) /\
  Forall (fun url => Py.truthy url = true) (image_url <$> images).
Proof.
  induction 1 as [|image images Himage _ [IH1 IH2]]; [by split|].
  destruct image as [| | | | | |d]; try discriminate Himage.
  cbn [is_valid_image] in Himage. apply andb_prop in Himage as [Hurl _].
  cbn [image_urls get_method mbind res_bind]. rewrite Hurl.
  assert (Hlook : d !! "url" = Some (Py.get d "url" PNone)).
  { unfold Py.get in Hurl |- *. by destruct (d !! "url"). }
  cbn [PyNum.subscript_key]. unfold Py.getitem. rewrite Hlook.
  cbn [mbind res_bind]. rewrite IH1. cbn [mbind res_bind fmap list_fmap image_url].
  split; [done|]. apply Forall_cons. by split.
Qed.

(** X17. Every image that [search_images] returns is a dict with a truthy
    url and a truthy thumbnail.  Without credentials it returns the first
    [num_results] of three sample images, and the last [-num_results] of
    them are cut off when [num_results] is negative.  With credentials, a
    failed request gives the empty list, and so does an answer in which a
    single item is not a dict or has an image entry that is not a dict:
    the images collected before it are discarded. *)
Theorem search_images_returns_valid_images S query num_results :
  Forall (fun v => is_valid_image v = true) (search_images S query num_results) /\
  (search_not_configured S = true ->
   search_images S query num_results
     = PyText.slice_to num_results (sample_images query) /\
   Z.of_nat (length (search_images S query num_results))
     = if 0 <=? num_results then Z.min num_results 3 else Z.max 0 (3 + num_results)) /\
  (search_not_configured S = false ->
   forall key cx,
     GOOGLE_SEARCH_API_KEY S = Some key -> GOOGLE_CSE_ID S = Some cx ->
     match custom_search S key cx (quote_plus S query)
             (Z.min (Z.max 1 num_results) 10) with
     | Raise _ => search_images S query num_results = []
     | Ok (PDict answer) =>
         match answer !! "items" with
         | None => search_images S query num_results = []
         | Some (PList items) =>
             (Exists (fun item => is_ok (image_data item) = false) items ->
              search_images S query num_results = []) /\
             (length (search_images S query num_results) <= length items)%nat
         | Some _ => True
         end
     | Ok _ => True
     end).
Proof.
  split; [apply search_images_valid|]. split.
  - intros Hnc. unfold search_images. rewrite Hnc. split; [done|].
    by rewrite slice_to_length.
  - intros Hc key cx Hkey Hcx. unfold search_images. rewrite Hc, Hkey, Hcx.
    cbn [default]. unfold id.
    destruct (custom_search S key cx _ _) as [answer|e]; [|done].
    destruct answer as [| | | | | |answer]; try done.
    cbn [mbind res_bind]. unfold extract_images.
    cbn [PyNum.contains_key mbind res_bind]. unfold Py.has_key.
    destruct (answer !! "items") as [items|] eqn:E.
    + rewrite bool_decide_eq_true_2 by eauto.
      destruct items as [| | | | |items|]; try done.
      cbn [PyNum.subscript_key]. unfold Py.getitem. rewrite E.
      cbn [mbind res_bind iterate]. split.
      * intros Hbad. apply collect_images_raises in Hbad.
        by destruct (collect_images items).
      * destruct (collect_images items) as [images|e] eqn:Ei; [|cbn; lia].
        by apply collect_images_valid in Ei as [_ ?].
    + by rewrite bool_decide_eq_false_2 by (by intros [? ?]).
Qed.

Lemma search_images_returns_valid_images_witness :
  search_not_configured unconfigured_services = true /\
  length (search_images unconfigured_services "skin rash" (-1)) = 2%nat /\
  search_not_configured (scripted_services "" (Ok search_answer)) = false /\
  search_images (scripted_services "" (Ok search_answer)) "skin rash" 3 = [].
Proof.
  assert (H1 : search_not_configured unconfigured_services = true) by reflexivity.
  assert (H2 : search_not_configured (scripted_services "" (Ok search_answer)) = false)
    by reflexivity.
  destruct (search_images_returns_valid_images unconfigured_services "skin rash" (-1))
    as (_ & Hsample & _).
  destruct (Hsample H1) as [_ Hlen].
  destruct (search_images_returns_valid_images (scripted_services "" (Ok search_answer))
              "skin rash" 3) as (_ & _ & Hapi).
  specialize (Hapi H2 "key" "cx" eq_refl eq_refl).
  split_and!; [exact H1| |exact H2|].
  - apply Nat2Z.inj. rewrite Hlen. reflexivity.
  - apply Hapi. apply Exists_cons_tl, Exists_cons_hd. reflexivity.
Defined.

(** X18. [get_image_urls] never raises: it returns the url of every image
    of [search_images], in order, and each url is truthy.  The filter of
    its comprehension never drops an image. *)
Theorem get_image_urls_returns_every_url S query num_results :
  get_image_urls S query num_results
    = Ok (image_url <$> search_images S query num_results) /\
  length (image_url <$> search_images S query num_results)
    = length (search_images S query num_results) /\
  Forall (fun url => Py.truthy url = true)
         (image_url <$> search_images S query num_results).
Proof.
  unfold get_image_urls.
  destruct (image_urls_valid _ (search_images_valid S query num_results)) as [H1 H2].
  split_and!; [exact H1|apply length_fmap|exact H2].
Qed.

(** X19. The image route answers 400 with an empty list exactly for the
    empty search term and 200 otherwise: its handler and the placeholder
    URLs of the handler are unreachable.  A failed search is answered like
    a search without results, with status 200 and an empty list. *)
Theorem search_images_route_never_fails S search_term :
  (list_status (search_images_route S search_term) = 400 <-> search_term = "") /\
  (search_term = "" -> urls (search_images_route S search_term) = []) /\
  (search_term <> "" ->
   search_images_route S search_term
     = mk_list_response 200 (image_url <$> search_images S search_term 3)) /\
  list_status (search_images_route S search_term) <> 500 /\
  Forall (fun url => Py.truthy url = true) (urls (search_images_route S search_term)) /\
  (search_term <> "" -> search_not_configured S = false ->
   forall key cx e,
     GOOGLE_SEARCH_API_KEY S = Some key -> GOOGLE_CSE_ID S = Some cx ->
     custom_search S key cx (quote_plus S search_term) 3 = Raise e ->
     search_images_route S search_term = mk_list_response 200 []).
Proof.
  unfold search_images_route.
  destruct (image_urls_valid _ (search_images_valid S search_term 3)) as [H1 H2].
  unfold get_image_urls. rewrite H1.
  destruct (negb (Py.truthy (PStr search_term))) eqn:Hterm.
  - apply truthy_str_false in Hterm. cbn [list_status urls].
    split_and!; done.
  - apply truthy_str_true in Hterm. cbn [list_status urls].
    split_and!; try done.
    + intros _ Hc key cx e Hkey Hcx Hsearch. unfold search_images.
      rewrite Hc, Hkey, Hcx. cbn [default]. unfold id.
      replace (Z.min (Z.max 1 3) 10) with 3 by reflexivity.
      by rewrite Hsearch.
Qed.

Lemma search_images_route_never_fails_witness :
  search_images_route unconfigured_services "skin rash"
  = mk_list_response 200
      (PStr <$>
         [ "https://via.placeholder.com/150/0000FF/808080?text=Sample+skin+rash+1";
           "https://via.placeholder.com/150/FF0000/FFFFFF?text=Sample+skin+rash+2";
           "https://via.placeholder.com/150/00FF00/000000?text=Sample+skin+rash+3" ]) /\
  search_images_route
    (scripted_services "" (raise (OtherException "Timeout") "timed out")) "skin rash"
  = mk_list_response 200 [].
Proof.
  split.
  - destruct (search_images_route_never_fails unconfigured_services "skin rash")
      as (_ & _ & Hok & _).
    rewrite Hok by discriminate. by_compute.
  - destruct (search_images_route_never_fails
                (scripted_services "" (raise (OtherException "Timeout") "timed out"))
                "skin rash") as (_ & _ & _ & _ & _ & Hfail).
    by apply (Hfail ltac:(discriminate) eq_refl "key" "cx"
                (mk_exn (OtherException "Timeout") "timed out")).
Defined.

(* ===================================================================== *)
(** ** Accounts: registration, login, logout and the dashboards *)
(* ===================================================================== *)

Lemma flash_lookup_ne message category (session : dict) k :
  k <> "_flashes" -> flash message category session !! k = session !! k.
Proof. intros Hk. unfold flash. by rewrite lookup_insert_ne. Qed.

Lemma log_in_lookup id name user_type (session : dict) :
  log_in id name user_type session !! "user_id" = Some id /\
  log_in id name user_type session !! "user_name" = Some (PStr name) /\
  log_in id name user_type session !! "user_type" = Some (PStr user_type) /\
  forall k, k <> "user_id" -> k <> "user_name" -> k <> "user_type" ->
            log_in id name user_type session !! k = session !! k.
Proof.
  unfold log_in. split_and!.
  - by rewrite !lookup_insert_ne, lookup_insert_eq by done.
  - by rewrite lookup_insert_ne, lookup_insert_eq by done.
  - by rewrite lookup_insert_eq.
  - intros k H1 H2 H3. by rewrite !lookup_insert_ne by done.
Qed.

(** Without a user id in the session both dashboards send the visitor to
    the login page, and the session still holds no user id. *)
Lemma dashboards_closed DB (session : dict) :
  session !! "user_id" = None ->
  result (dashboard_doctor DB session) = Ok (Redirect "login") /\
  result (dashboard_user DB session) = Ok (Redirect "login") /\
  session_after (dashboard_doctor DB session) !! "user_id" = None /\
  session_after (dashboard_user DB session) !! "user_id" = None.
Proof.
  intros H. unfold dashboard_doctor, dashboard_user, Py.has_key.
  rewrite bool_decide_eq_false_2 by (rewrite H; by intros [? ?]).
  cbn [negb orb result session_after].
  by rewrite !flash_lookup_ne by done.
Qed.

(** A session of the other role is turned away, whatever the database
    holds. *)
Lemma dashboards_check_role DB (session : dict) role :
  session !! "user_type" = Some (PStr role) ->
  (role <> "doctor" -> result (dashboard_doctor DB session) = Ok (Redirect "login")) /\
  (role <> "user" -> result (dashboard_user DB session) = Ok (Redirect "login")).
Proof.
  intros H. unfold dashboard_doctor, dashboard_user.
  rewrite !(get_lookup _ _ _ _ H). cbn [Py.eq_str].
  split; intros Hrole; apply String.eqb_neq in Hrole; rewrite Hrole;
    cbn [negb]; by rewrite orb_true_r.
Qed.

(** X20. After [logout] the session holds no user id, and a session
    without user id is sent to the login page by both dashboards, before
    and after any such visit: the session they leave behind still holds no
    user id. *)
Theorem logout_closes_both_dashboards DB (session : dict) :
  session_after (logout session) !! "user_id" = None /\
  result (dashboard_doctor DB (session_after (logout session))) = Ok (Redirect "login") /\
  result (dashboard_user DB (session_after (logout session))) = Ok (Redirect "login") /\
  db_events (logout session) = [] /\
  forall s : dict,
    s !! "user_id" = None ->
    result (dashboard_doctor DB s) = Ok (Redirect "login") /\
    result (dashboard_user DB s) = Ok (Redirect "login") /\
    session_after (dashboard_doctor DB s) !! "user_id" = None /\
    session_after (dashboard_user DB s) !! "user_id" = None.
Proof.
  assert (H : session_after (logout session) !! "user_id" = None).
  { cbn [logout session_after]. by rewrite flash_lookup_ne by done. }
  destruct (dashboards_closed DB _ H) as (H1 & H2 & _).
  split_and!; try done. intros s. apply dashboards_closed.
Qed.

Lemma logout_closes_both_dashboards_witness :
  session_after (logout (log_in (PInt 1) "Asha" "user" ∅)) !! "user_id" = None /\
  result (dashboard_user shared_login_database (log_in (PInt 1) "Asha" "user" ∅))
    = Ok (Render "dashboard_user.html" None (Some (mk_account (PInt 1) "Asha"))) /\
  result (dashboard_user shared_login_database
            (session_after (logout (log_in (PInt 1) "Asha" "user" ∅))))
    = Ok (Redirect "login").
Proof.
  destruct (logout_closes_both_dashboards shared_login_database
              (log_in (PInt 1) "Asha" "user" ∅)) as (H1 & _ & H2 & _).
  split_and!; [exact H1|by_compute|exact H2].
Defined.

Lemma login_cases DB form (session : dict) :
  (exists e, login DB "POST" form session = mk_view (Raise e) session [])
  \/ login DB "POST" form session
     = mk_view (Ok (Render "login.html"
                      (Some "Invalid email or password. Please try again.") None))
               session []
  \/ exists email password,
       form !! "email" = Some email /\ form !! "password" = Some password /\
       ((exists doctor user,
           doctor_by_login DB email password = Ok (Some doctor) /\
           user_by_login DB email password = Ok user /\
           login DB "POST" form session
           = mk_view (Ok (Redirect "dashboard_doctor"))
               (flash "Doctor logged in successfully!" "success"
                  (log_in (account_id doctor) (account_name doctor) "doctor" session))
               [])
        \/ (exists user,
              doctor_by_login DB email password = Ok None /\
              user_by_login DB email password = Ok (Some user) /\
              login DB "POST" form session
              = mk_view (Ok (Redirect "dashboard_user"))
                  (flash "User logged in successfully!" "success"
                     (log_in (account_id user) (account_name user) "user" session))
                  [])).
Proof.
  unfold login. cbn [String.eqb Ascii.eqb Bool.eqb]. unfold form_item.
  destruct (form !! "email") as [email|] eqn:He; [|left; by eexists].
  destruct (form !! "password") as [password|] eqn:Hp; [|left; by eexists].
  cbn [mbind res_bind].
  destruct (doctor_by_login DB email password) as [doctor|e] eqn:Hd;
    [|left; by eexists].
  cbn [mbind res_bind].
  destruct (user_by_login DB email password) as [user|e] eqn:Hu;
    [|left; by eexists].
  cbn [mbind res_bind].
  destruct doctor as [doctor|].
  - right. right. exists email, password. split_and!; [done..|].
    left. by exists doctor, user.
  - destruct user as [user|].
    + right. right. exists email, password. split_and!; [done..|].
      right. by exists user.
    + right. left. reflexivity.
Qed.

(** X21. [login] never writes to the database, and unless it redirects
    to a dashboard it leaves the session as it was.  A login that redirects
    to the doctor dashboard leaves a session that the user dashboard turns
    away, and the other way round, whatever ids the two tables share; where
    the credentials match a doctor and a user, the doctor wins.  The keys
    of the earlier session other than the three it assigns and the flashed
    messages are kept. *)
Theorem login_separates_roles DB form (session : dict) :
  db_events (login DB "POST" form session) = [] /\
  (result (login DB "POST" form session) <> Ok (Redirect "dashboard_doctor") ->
   result (login DB "POST" form session) <> Ok (Redirect "dashboard_user") ->
   session_after (login DB "POST" form session) = session) /\
  (result (login DB "POST" form session) = Ok (Redirect "dashboard_doctor") ->
   session_after (login DB "POST" form session) !! "user_type" = Some (PStr "doctor") /\
   result (dashboard_user DB (session_after (login DB "POST" form session)))
     = Ok (Redirect "login")) /\
  (result (login DB "POST" form session) = Ok (Redirect "dashboard_user") ->
   session_after (login DB "POST" form session) !! "user_type" = Some (PStr "user") /\
   result (dashboard_doctor DB (session_after (login DB "POST" form session)))
     = Ok (Redirect "login")) /\
  (forall email password doctor user,
     form !! "email" = Some email -> form !! "password" = Some password ->
     doctor_by_login DB email password = Ok (Some doctor) ->
     user_by_login DB email password = Ok user ->
     result (login DB "POST" form session) = Ok (Redirect "dashboard_doctor") /\
     session_after (login DB "POST" form session) !! "user_id"
       = Some (account_id doctor)) /\
  (forall k, k <> "user_id" -> k <> "user_name" -> k <> "user_type" ->
             k <> "_flashes" ->
             session_after (login DB "POST" form session) !! k = session !! k).
Proof.
  assert (Hrole : forall id name role msg,
    flash msg "success" (log_in id name role session) !! "user_type"
    = Some (PStr role)).
  { intros. rewrite flash_lookup_ne by done. apply log_in_lookup. }
  destruct (login_cases DB form session)
    as [[e E]|[E|(email & password & Hemail & Hpassword &
                  [(doctor & user & Hd & Hu & E)|(user & Hd & Hu & E)])]];
    rewrite E; cbn [result session_after db_events].
  - split_and!; try done. intros ? ? ? ? He Hp Hd Hu.
    exfalso. unfold login, form_item in E. cbn [String.eqb Ascii.eqb Bool.eqb] in E.
    rewrite He, Hp in E. cbn [mbind res_bind] in E. rewrite Hd, Hu in E.
    discriminate E.
  - split_and!; try done. intros ? ? ? ? He Hp Hd Hu.
    exfalso. unfold login, form_item in E. cbn [String.eqb Ascii.eqb Bool.eqb] in E.
    rewrite He, Hp in E. cbn [mbind res_bind] in E. rewrite Hd, Hu in E.
    discriminate E.
  - split_and!; try done.
    + intros _. split; [apply Hrole|].
      by apply (dashboards_check_role DB _ "doctor" (Hrole _ _ _ _)).
    + intros email' password' doctor' user' He Hp Hd' Hu'.
      assert (email' = email) as -> by congruence.
      assert (password' = password) as -> by congruence.
      assert (doctor' = doctor) as -> by congruence.
      split; [done|]. rewrite flash_lookup_ne by done. apply log_in_lookup.
    + intros k H1 H2 H3 H4. rewrite flash_lookup_ne by done. by apply log_in_lookup.
  - split_and!; try done.
    + intros _. split; [apply Hrole|].
      by apply (dashboards_check_role DB _ "user" (Hrole _ _ _ _)).
    + intros email' password' doctor' user' He Hp Hd' Hu'.
      assert (email' = email) as -> by congruence.
      assert (password' = password) as -> by congruence.
      congruence.
    + intros k H1 H2 H3 H4. rewrite flash_lookup_ne by done. by apply log_in_lookup.
Qed.

Lemma login_separates_roles_witness :
  result (login shared_login_database "POST" login_form ∅)
    = Ok (Redirect "dashboard_doctor") /\
  session_after (login shared_login_database "POST" login_form ∅) !! "user_id"
    = Some (PInt 1) /\
  result (dashboard_user shared_login_database
            (session_after (login shared_login_database "POST" login_form ∅)))
    = Ok (Redirect "login").
Proof.
  destruct (login_separates_roles shared_login_database login_form ∅)
    as (_ & _ & Hdoctor & _ & Hwins & _).
  destruct (Hwins "a@b.org" "hunter2" (mk_account (PInt 1) "Dr. Rao")
              (Some (mk_account (PInt 1) "Asha")) eq_refl eq_refl eq_refl eq_refl)
    as [Hr Hid].
  split_and!; [exact Hr|exact Hid|]. by apply Hdoctor.
Defined.

Ltac form_field k :=
  let v := fresh "v" in
  let E := fresh "E" in
  destruct (_ !! k) as [v|] eqn:E;
  [ cbn [mbind res_bind]
  | left; cbn [mbind res_bind result session_after db_events];
    split_and!; [reflexivity..|intros; discriminate] ].

Lemma register_doctor_cases DB form (session : dict) :
  (db_events (register_doctor DB "POST" form session) = [] /\
   session_after (register_doctor DB "POST" form session) = session /\
   forall endpoint,
     result (register_doctor DB "POST" form session) <> Ok (Redirect endpoint))
  \/ exists full_name email phone password license_number location affiliation
            specialization,
       form !! "full_name" = Some full_name /\ form !! "email" = Some email /\
       form !! "phone" = Some phone /\ form !! "password" = Some password /\
       form !! "license_number" = Some license_number /\
       form !! "location" = Some location /\
       form !! "affiliation" = Some affiliation /\
       form !! "specialization" = Some specialization /\
       doctor_by_email DB email = Ok None /\
       db_events (register_doctor DB "POST" form session)
         = [DbAdd "doctor"
              [ ("full_name", full_name); ("email", email); ("phone", phone);
                ("password", password); ("specialization", specialization);
                ("license_number", license_number); ("location", location);
                ("affiliation", affiliation) ]] /\
       ((session_after (register_doctor DB "POST" form session) = session /\
         exists e, result (register_doctor DB "POST" form session) = Raise e)
        \/ exists id,
             result (register_doctor DB "POST" form session)
               = Ok (Redirect "dashboard_doctor") /\
             session_after (register_doctor DB "POST" form session)
               = flash "Doctor registered successfully!" "success"
                   (log_in id full_name "doctor" session)).
Proof.
  unfold register_doctor. cbn [String.eqb Ascii.eqb Bool.eqb]. unfold form_item.
  form_field "full_name". form_field "email". form_field "phone".
  form_field "password". form_field "license_number". form_field "location".
  form_field "affiliation". form_field "specialization".
  destruct (doctor_by_email DB v0) as [[existing|]|e] eqn:Hemail;
    cbn [mbind res_bind];
    try (left; cbn [result session_after db_events];
         split_and!; [reflexivity..|intros; discriminate]).
  right. exists v, v0, v1, v2, v3, v4, v5, v6. split_and!; try done.
  - by destruct (add_doctor DB _).
  - destruct (add_doctor DB _) as [id|e]; cbn [result session_after].
    + right. by exists id.
    + left. split; [done|]. by exists e.
Qed.

Lemma register_user_cases DB form (session : dict) :
  (db_events (register_user DB "POST" form session) = [] /\
   session_after (register_user DB "POST" form session) = session /\
   forall endpoint,
     result (register_user DB "POST" form session) <> Ok (Redirect endpoint))
  \/ exists full_name email phone landmark location password age gender condition
            medications allergies,
       form !! "full_name" = Some full_name /\ form !! "email" = Some email /\
       form !! "phone" = Some phone /\ form !! "landmark" = Some landmark /\
       form !! "location" = Some location /\ form !! "password" = Some password /\
       form !! "age" = Some age /\ form !! "gender" = Some gender /\
       form !! "condition" = Some condition /\
       form !! "medications" = Some medications /\
       form !! "allergies" = Some allergies /\
       user_by_email DB email = Ok None /\
       db_events (register_user DB "POST" form session)
         = [DbAdd "user"
              [ ("full_name", full_name); ("email", email); ("phone", phone);
                ("landmark", landmark); ("location", location);
                ("password", password); ("age", age); ("gender", gender);
                ("condition", condition); ("medications", medications);
                ("allergies", allergies) ]] /\
       ((session_after (register_user DB "POST" form session) = session /\
         exists e, result (register_user DB "POST" form session) = Raise e)
        \/ exists id,
             result (register_user DB "POST" form session)
               = Ok (Redirect "dashboard_user") /\
             session_after (register_user DB "POST" form session)
               = flash "User registered successfully!" "success"
                   (log_in id full_name "user" session)).
Proof.
  unfold register_user. cbn [String.eqb Ascii.eqb Bool.eqb]. unfold form_item.
  form_field "full_name". form_field "email". form_field "phone".
  form_field "landmark". form_field "location". form_field "password".
  form_field "age". form_field "gender". form_field "condition".
  form_field "medications". form_field "allergies".
  destruct (user_by_email DB v0) as [[existing|]|e] eqn:Hemail;
    cbn [mbind res_bind];
    try (left; cbn [result session_after db_events];
         split_and!; [reflexivity..|intros; discriminate]).
  right. exists v, v0, v1, v2, v3, v4, v5, v6, v7, v8, v9. split_and!; try done.
  - by destruct (add_user DB _).
  - destruct (add_user DB _) as [id|e]; cbn [result session_after].
    + right. by exists id.
    + left. split; [done|]. by exists e.
Qed.

Lemma row_from_form (form : gmap string string) (row : list (string * string)) :
  Forall (fun cv => form !! cv.1 = Some cv.2) row ->
  forall column value, In (column, value) row -> form !! column = Some value.
Proof.
  intros H column value Hin.
  exact (proj1 (List.Forall_forall _ _) H (column, value) Hin).
Qed.

(** X22. A registration writes at most one row, to its own table, and
    only when every field of the form is present and no account of that
    table has the email; each column of the row, the password included,
    holds the form's value as it was sent. *)
Theorem registration_stores_the_form_as_sent DB form (session : dict) table row :
  In (DbAdd table row) (db_events (register_doctor DB "POST" form session)) \/
  In (DbAdd table row) (db_events (register_user DB "POST" form session)) ->
  (forall column value, In (column, value) row -> form !! column = Some value) /\
  In "password" row.*1 /\
  (exists email,
     form !! "email" = Some email /\
     (table = "doctor" /\ doctor_by_email DB email = Ok None /\
      db_events (register_doctor DB "POST" form session) = [DbAdd table row]
      \/ table = "user" /\ user_by_email DB email = Ok None /\
         db_events (register_user DB "POST" form session) = [DbAdd table row])).
Proof.
  intros [Hin|Hin].
  - destruct (register_doctor_cases DB form session)
      as [(Hnone & _)|(full_name & email & phone & password & license_number
                       & location & affiliation & specialization
                       & H1 & H2 & H3 & H4 & H5 & H6 & H7 & H8 & Hfree & Hev & _)].
    + rewrite Hnone in Hin. destruct Hin.
    + rewrite Hev in Hin |- *. destruct Hin as [[= <- <-]|[]]. split_and!.
      * apply row_from_form. by repeat (constructor; [done|]).
      * cbn. tauto.
      * exists email. split; [done|]. left. done.
  - destruct (register_user_cases DB form session)
      as [(Hnone & _)|(full_name & email & phone & landmark & location & password
                       & age & gender & condition & medications & allergies
                       & H1 & H2 & H3 & H4 & H5 & H6 & H7 & H8 & H9 & H10 & H11
                       & Hfree & Hev & _)].
    + rewrite Hnone in Hin. destruct Hin.
    + rewrite Hev in Hin |- *. destruct Hin as [[= <- <-]|[]]. split_and!.
      * apply row_from_form. by repeat (constructor; [done|]).
      * cbn. tauto.
      * exists email. split; [done|]. right. done.
Qed.

Lemma registration_stores_the_form_as_sent_witness :
  db_events (register_doctor empty_database "POST" doctor_form ∅)
  = [DbAdd "doctor"
       [ ("full_name", "Dr. Rao"); ("email", "a@b.org"); ("phone", "555");
         ("password", "hunter2"); ("specialization", "ENT");
         ("license_number", "L1"); ("location", "Pune");
         ("affiliation", "City Hospital") ]] /\
  doctor_form !! "password" = Some "hunter2".
Proof.
  assert (H : db_events (register_doctor empty_database "POST" doctor_form ∅)
  = [DbAdd "doctor"
       [ ("full_name", "Dr. Rao"); ("email", "a@b.org"); ("phone", "555");
         ("password", "hunter2"); ("specialization", "ENT");
         ("license_number", "L1"); ("location", "Pune");
         ("affiliation", "City Hospital") ]]) by (by_compute).
  split; [exact H|].
  destruct (registration_stores_the_form_as_sent empty_database doctor_form ∅
              "doctor"
              [ ("full_name", "Dr. Rao"); ("email", "a@b.org"); ("phone", "555");
                ("password", "hunter2"); ("specialization", "ENT");
                ("license_number", "L1"); ("location", "Pune");
                ("affiliation", "City Hospital") ]) as (Hrow & _).
  - left. rewrite H. by left.
  - apply Hrow. cbn. tauto.
Defined.

(** X23. A registration that does not end in the redirect to its
    dashboard leaves the session as it was; one that does has written its
    row and leaves a session of its own role, which the dashboard of the
    other role turns away.  A request that is not a POST writes nothing and
    shows the form. *)
Theorem registration_opens_a_session_of_its_role DB form (session : dict) :
  (result (register_doctor DB "POST" form session) <> Ok (Redirect "dashboard_doctor") ->
   session_after (register_doctor DB "POST" form session) = session) /\
  (result (register_user DB "POST" form session) <> Ok (Redirect "dashboard_user") ->
   session_after (register_user DB "POST" form session) = session) /\
  (result (register_doctor DB "POST" form session) = Ok (Redirect "dashboard_doctor") ->
   (exists row, db_events (register_doctor DB "POST" form session)
                = [DbAdd "doctor" row]) /\
   session_after (register_doctor DB "POST" form session) !! "user_type"
     = Some (PStr "doctor") /\
   result (dashboard_user DB (session_after (register_doctor DB "POST" form session)))
     = Ok (Redirect "login")) /\
  (result (register_user DB "POST" form session) = Ok (Redirect "dashboard_user") ->
   (exists row, db_events (register_user DB "POST" form session)
                = [DbAdd "user" row]) /\
   session_after (register_user DB "POST" form session) !! "user_type"
     = Some (PStr "user") /\
   result (dashboard_doctor DB (session_after (register_user DB "POST" form session)))
     = Ok (Redirect "login")) /\
  (forall method, method <> "POST" ->
     register_doctor DB method form session
       = mk_view (Ok (Render "doctor_register.html" None None)) session [] /\
     register_user DB method form session
       = mk_view (Ok (Render "user_register.html" None None)) session []).
Proof.
  assert (Hrole : forall id name role msg,
    flash msg "success" (log_in id name role session) !! "user_type"
    = Some (PStr role)).
  { intros. rewrite flash_lookup_ne by done. apply log_in_lookup. }
  split_and!.
  - destruct (register_doctor_cases DB form session)
      as [(_ & Hs & _)|(? & ? & ? & ? & ? & ? & ? & ? & _ & _ & _ & _ & _ & _ & _ & _
                        & _ & _ & [[Hs _]|(id & Hr & _)])]; try done.
  - destruct (register_user_cases DB form session)
      as [(_ & Hs & _)|(? & ? & ? & ? & ? & ? & ? & ? & ? & ? & ?
                        & _ & _ & _ & _ & _ & _ & _ & _ & _ & _ & _
                        & _ & _ & [[Hs _]|(id & Hr & _)])]; try done.
  - intros Hr.
    destruct (register_doctor_cases DB form session)
      as [(_ & _ & Hno)|(? & ? & ? & ? & ? & ? & ? & ? & _ & _ & _ & _ & _ & _ & _ & _
                         & _ & Hev & [[_ [e He]]|(id & _ & Hs)])].
    + by destruct (Hno _ Hr).
    + congruence.
    + rewrite Hs. split_and!; [eauto|apply Hrole|].
      by apply (dashboards_check_role DB _ "doctor" (Hrole _ _ _ _)).
  - intros Hr.
    destruct (register_user_cases DB form session)
      as [(_ & _ & Hno)|(? & ? & ? & ? & ? & ? & ? & ? & ? & ? & ?
                         & _ & _ & _ & _ & _ & _ & _ & _ & _ & _ & _
                         & _ & Hev & [[_ [e He]]|(id & _ & Hs)])].
    + by destruct (Hno _ Hr).
    + congruence.
    + rewrite Hs. split_and!; [eauto|apply Hrole|].
      by apply (dashboards_check_role DB _ "user" (Hrole _ _ _ _)).
  - intros method Hm. apply String.eqb_neq in Hm.
    unfold register_doctor, register_user. by rewrite Hm.
Qed.

Lemma registration_opens_a_session_of_its_role_witness :
  result (register_doctor empty_database "POST" doctor_form ∅)
    = Ok (Redirect "dashboard_doctor") /\
  session_after (register_doctor empty_database "POST" doctor_form ∅) !! "user_type"
    = Some (PStr "doctor") /\
  result (dashboard_user empty_database
            (session_after (register_doctor empty_database "POST" doctor_form ∅)))
    = Ok (Redirect "login").
Proof.
  assert (H : result (register_doctor empty_database "POST" doctor_form ∅)
              = Ok (Redirect "dashboard_doctor")) by (by_compute).
  destruct (registration_opens_a_session_of_its_role empty_database doctor_form ∅)
    as (_ & _ & Hdoctor & _).
  destruct (Hdoctor H) as (_ & Htype & Hturned).
  split_and!; [exact H|exact Htype|exact Hturned].
Defined.

(* ===================================================================== *)
(** ** More on the interactive endpoint: requests, classification, traffic *)
(* ===================================================================== *)



Lemma retry_trace_content content first failures i c :
  In (EvSend i c) (retry_trace content first failures) -> c = content.
Proof.
  revert first. induction failures as [|n IH]; intros first; cbn [retry_trace In].
  - by intros [[= _ <-]|[]].
  - intros [[= _ <-]|[[=]|H]]; [done|]. by eapply IH.
Qed.

(** What a call does to the outside, by the instruction it selects. *)
Lemma gemini_interactive_trace W message history :
  match select_instruction W message history with
  | Raise _ => (gemini_interactive W message history).2 = []
  | Ok p =>
      ((gemini_interactive W message history).2
         = [EvStartChat (format_history W history)] /\
       is_ok (start_chat W (format_history W history)) = false)
      \/ exists failures,
           (failures <= 2)%nat /\
           (gemini_interactive W message history).2
           = EvStartChat (format_history W history)
               :: retry_trace (instruction_prefix p +:+ message) 0 failures
  end.
Proof.
  destruct (gemini_interactive_cases W message history) as [-> _].
  unfold ask_model.
  destruct (select_instruction W message history) as [p|e]; [|done].
  destruct (start_chat W _); [|by left].
  right.
  destruct (send_with_retry_trace W (format_history W history)
              (instruction_prefix p +:+ message))
    as (failures & Hle & Htrace & _).
  exists failures. split; [done|].
  destruct (send_with_retry W _ _) as [sent events]. cbn [fst snd] in *.
  by subst events.
Qed.

(** X25. The order of the classification.  A message with one of the
    non-medical keywords and no medical term gets the non-medical
    instruction even when it also names an emergency; otherwise a message
    with a high-severity term gets the high-severity instruction.  In both
    cases the history is not read and the estimate is 4, so that, however
    malformed the history is, the chat is opened and every attempt sends
    that instruction followed by the message. *)
Theorem classification_order W message history :
  (is_non_medical (str_lower W message) = true ->
   select_instruction W message history
   = Ok (mk_prompting non_medical_prefix
           (if history_truthy history then history_len history / 2 + 1 else 1)
           (PInt 4))) /\
  (is_non_medical (str_lower W message) = false ->
   is_high_severity (str_lower W message) = true ->
   select_instruction W message history
   = Ok (mk_prompting high_severity_prefix
           (if history_truthy history then history_len history / 2 + 1 else 1)
           (PInt 4))) /\
  (is_non_medical (str_lower W message) = true \/
   is_high_severity (str_lower W message) = true ->
   exists rest,
     (gemini_interactive W message history).2
       = EvStartChat (format_history W history) :: rest /\
     forall attempt content,
       In (EvSend attempt content) rest ->
       content = (if is_non_medical (str_lower W message)
                  then non_medical_prefix else high_severity_prefix) +:+ message).
Proof.
  assert (H1 : is_non_medical (str_lower W message) = true ->
   select_instruction W message history
   = Ok (mk_prompting non_medical_prefix
           (if history_truthy history then history_len history / 2 + 1 else 1)
           (PInt 4))).
  { intros H. unfold select_instruction. by rewrite H. }
  assert (H2 : is_non_medical (str_lower W message) = false ->
   is_high_severity (str_lower W message) = true ->
   select_instruction W message history
   = Ok (mk_prompting high_severity_prefix
           (if history_truthy history then history_len history / 2 + 1 else 1)
           (PInt 4))).
  { intros Hn Hs. unfold select_instruction. by rewrite Hn, Hs. }
  split; [exact H1|]. split; [exact H2|].
  intros Hclass.
  pose proof (gemini_interactive_trace W message history) as Htrace.
  assert (Hsel : select_instruction W message history
            = Ok (mk_prompting
                    (if is_non_medical (str_lower W message)
                     then non_medical_prefix else high_severity_prefix)
                    (if history_truthy history
                     then history_len history / 2 + 1 else 1)
                    (PInt 4))).
  { destruct (is_non_medical (str_lower W message)) eqn:Hn; [by apply H1|].
    destruct Hclass as [?|Hs]; [done|]. by apply H2. }
  rewrite Hsel in Htrace. cbn [instruction_prefix] in Htrace.
  destruct Htrace as [[-> _]|(failures & _ & ->)].
  - exists []. split; [done|]. intros ? ? [].
  - eexists. split; [reflexivity|]. intros attempt content.
    apply retry_trace_content.
Qed.

Lemma classification_order_witness :
  is_non_medical (str_lower offline_world "Worst WEATHER ever, call an ambulance") = true /\
  is_high_severity (str_lower offline_world "Worst WEATHER ever, call an ambulance") = true /\
  select_instruction offline_world "Worst WEATHER ever, call an ambulance"
    (Some [PStr "not a turn"])
  = Ok (mk_prompting non_medical_prefix 1 (PInt 4)).
Proof.
  assert (H : is_non_medical (str_lower offline_world "Worst WEATHER ever, call an ambulance")
              = true) by (by_compute).
  split_and!; [exact H|by_compute|].
  destruct (classification_order offline_world "Worst WEATHER ever, call an ambulance"
              (Some [PStr "not a turn"])) as (Hnm & _).
  exact (Hnm H).
Defined.

(** X26. What [gemini_interactive] tells the model.  When the choice of
    the instruction fails nothing is sent; otherwise the chat is opened
    with the formatted history, which does not hold the current message,
    and every attempt sends the chosen instruction followed by the message
    exactly as the function received it. *)
Theorem model_is_sent_instruction_and_message W message history :
  match select_instruction W message history with
  | Raise _ => (gemini_interactive W message history).2 = []
  | Ok p =>
      ((gemini_interactive W message history).2
         = [EvStartChat (format_history W history)] /\
       is_ok (start_chat W (format_history W history)) = false)
      \/ exists failures,
           (failures <= 2)%nat /\
           (gemini_interactive W message history).2
           = EvStartChat (format_history W history)
               :: retry_trace (instruction_prefix p +:+ message) 0 failures
  end.
Proof. apply gemini_interactive_trace. Qed.

Lemma has_key_true (d : dict) k v : d !! k = Some v -> Py.has_key d k = true.
Proof. intros H. apply bool_decide_eq_true. eauto. Qed.

Lemma has_key_false (d : dict) k : d !! k = None -> Py.has_key d k = false.
Proof. intros H. apply bool_decide_eq_false. rewrite H. by intros [? ?]. Qed.

(** X27. How later turns are estimated, for a message that is neither
    non-medical nor high-severity nor a rating response.  Where the
    history ends with a dict whose first part is a string that
    [json.loads] turns into an object, and total_steps and current_step
    are each absent from that object or an integer: a positive total_steps
    is the estimate; failing that, a positive current_step [c] gives
    [max(4, c + 2)]; failing both, the estimate stays 4.  The instruction
    is the sufficient-information one exactly when the step of the
    conversation, [len(history) // 2 + 1], has reached the estimate. *)
Theorem estimate_follows_last_turn W message items (entry data : dict) part rest :
  last items = Some (PDict entry) ->
  entry !! "parts" = Some (PList (PStr part :: rest)) ->
  json_loads W part = Ok (PDict data) ->
  data !! "total_steps" = None \/ (exists t, data !! "total_steps" = Some (PInt t)) ->
  data !! "current_step" = None \/ (exists c, data !! "current_step" = Some (PInt c)) ->
  is_non_medical (str_lower W message) = false ->
  is_high_severity (str_lower W message) = false ->
  PyStr.contains "rating" (str_lower W message)
    && re_search_rating W (str_lower W message) = false ->
  select_instruction W message (Some items)
  = Ok (later_turn_prompting
          (Z.of_nat (length items) / 2 + 1)
          (match data !! "total_steps", data !! "current_step" with
           | Some (PInt t), Some (PInt c) =>
               if 0 <? t then t else if 0 <? c then Z.max 4 (c + 2) else 4
           | Some (PInt t), None => if 0 <? t then t else 4
           | None, Some (PInt c) => if 0 <? c then Z.max 4 (c + 2) else 4
           | _, _ => 4
           end)).
Proof.
  intros Hlast Hparts Hload Htotal Hcurrent Hnm Hhs Hr.
  assert (Hne : items <> []) by (intros ->; discriminate Hlast).
  rewrite select_instruction_history by done.
  assert (Hest : history_estimate W items (PInt 4)
    = Ok (PInt (match data !! "total_steps", data !! "current_step" with
                | Some (PInt t), Some (PInt c) =>
                    if 0 <? t then t else if 0 <? c then Z.max 4 (c + 2) else 4
                | Some (PInt t), None => if 0 <? t then t else 4
                | None, Some (PInt c) => if 0 <? c then Z.max 4 (c + 2) else 4
                | _, _ => 4
                end))).
  { unfold history_estimate, history_estimate_body, PyNum.last_item.
    rewrite Hlast. cbn [mbind res_bind]. unfold PyNum.subscript_key, Py.getitem.
    rewrite Hparts. cbn [mbind res_bind PyNum.subscript_zero loads]. rewrite Hload.
    cbn [mbind res_bind PyNum.contains_key].
    destruct Htotal as [Et|[t Et]]; destruct Hcurrent as [Ec|[c Ec]];
      rewrite ?(has_key_false _ _ Et), ?(has_key_true _ _ _ Et),
              ?(has_key_false _ _ Ec), ?(has_key_true _ _ _ Ec);
      rewrite ?Et, ?Ec;
      cbn [mbind res_bind PyNum.gt_int PyNum.add_two PyNum.max_four];
      repeat match goal with
             | |- context [0 <? ?n] => destruct (0 <? n) eqn:?; cbn [mbind res_bind]
             end;
      rewrite ?(has_key_false _ _ Ec), ?(has_key_true _ _ _ Ec), ?Et, ?Ec;
      cbn [mbind res_bind PyNum.gt_int PyNum.add_two PyNum.max_four];
      repeat match goal with
             | |- context [0 <? ?n] => destruct (0 <? n) eqn:?; cbn [mbind res_bind]
             | H : (0 <? ?n) = _ |- context [0 <? ?n] => rewrite H
             end;
      rewrite ?Et, ?Ec;
      cbn [mbind res_bind PyNum.gt_int PyNum.add_two PyNum.max_four];
      try reflexivity; try congruence.
    all: destruct (4 <? c + 2) eqn:Hmax; do 2 f_equal;
      [apply Z.ltb_lt in Hmax|apply Z.ltb_ge in Hmax]; lia. }
  rewrite Hest. reflexivity.
Qed.

Lemma estimate_follows_last_turn_witness :
  select_instruction progress_world "it is a dull ache"
    (Some [PDict (mkdict [("role", PStr "model"); ("parts", strs [progress_text])])])
  = Ok (mk_prompting (continuing_prefix "1" "5") 1 (PInt 5)).
Proof.
  apply (estimate_follows_last_turn progress_world "it is a dull ache"
           [PDict (mkdict [("role", PStr "model"); ("parts", strs [progress_text])])]
           (mkdict [("role", PStr "model"); ("parts", strs [progress_text])])
           (mkdict [("current_step", PInt 3); ("total_steps", PInt 0)])
           progress_text []);
    [reflexivity|reflexivity|reflexivity|right; by eexists|right; by eexists
    |by_compute|by_compute|by_compute].
Defined.

(* ===================================================================== *)
(** ** Completed answers *)
(* ===================================================================== *)








